(** * grib_utils: a shallow embedding of [src/grib_utils.py]

    The module is a thin layer over an external GRIB decoder (pygrib), numpy
    and pandas.  Python exceptions are modelled by an error type, dynamically
    typed arguments by small sums, the standard output and the pandas display
    options by an explicit world that every printing function threads. *)

From Stdlib Require Import ZArith QArith Qabs List String Ascii Bool Lia.
From Stdlib Require Import Sorted Permutation.
Import ListNotations.

Local Open Scope string_scope.
Local Open Scope Z_scope.

(** ** Exceptions and fallible computations *)

Inductive exn : Type :=
| IOError (msg : string)
| RuntimeError
| ValueError
| TypeError
| NameError (name : string)
| IndexError
| OverflowError.

Inductive result (A : Type) : Type :=
| Ok (a : A)
| Raise (e : exn).

Arguments Ok {A} a.
Arguments Raise {A} e.

Definition rbind {A B : Type} (r : result A) (k : A -> result B) : result B :=
  match r with
  | Ok a => k a
  | Raise e => Raise e
  end.

Declare Scope res_scope.
Delimit Scope res_scope with res.
Notation "x <- r ;; k" := (rbind r (fun x => k))
  (at level 61, r at next level, right associativity) : res_scope.
Local Open Scope res_scope.

Definition raises {A : Type} (r : result A) : bool :=
  match r with
  | Ok _ => false
  | Raise _ => true
  end.

(** ** Attribute values

    The decoder hands out integers, floats, strings and numeric arrays.  A
    finite float is the rational it denotes; comparisons of finite floats
    agree with comparisons of these rationals. *)

Inductive Value : Type :=
| VInt (z : Z)
| VFloat (q : Q)
| VStr (s : string)
| VArray (a : list Q).

(** A cell of a table, or an argument of [str.format]: [None] is Python's
    [None]. *)
Definition Cell : Type := option Value.

Definition is_array (v : Value) : bool :=
  match v with
  | VArray _ => true
  | _ => false
  end.

(** [v == w] followed by its truth test.  Array attributes of a message are
    grids of more than one element: comparing one with anything is
    element-wise, and numpy refuses the truth value of the outcome. *)
Definition py_eq (v w : Value) : result bool :=
  match v, w with
  | VArray _, _ | _, VArray _ => Raise ValueError
  | VInt a, VInt b => Ok (a =? b)
  | VInt a, VFloat q => Ok (Qeq_bool (inject_Z a) q)
  | VFloat q, VInt b => Ok (Qeq_bool q (inject_Z b))
  | VFloat p, VFloat q => Ok (Qeq_bool p q)
  | VStr s, VStr t => Ok (String.eqb s t)
  | _, _ => Ok false
  end.

(** [v in l] for a Python list [l]: the elements are compared in order and
    the scan stops at the first equal one. *)
Fixpoint py_in (v : Value) (l : list Value) : result bool :=
  match l with
  | [] => Ok false
  | e :: rest =>
      b <- py_eq v e ;;
      if b then Ok true else py_in v rest
  end.

(** ** Messages *)

Definition Grid : Type := list (list Q).

(** A decoded GRIB message as this module uses it: [keys()], [grb[key]],
    [grb.values] and [grb.latlons()].  A key listed by [keys()] may still
    fail to read, so [getitem] is independent of [keys]. *)
Record Message : Type := mkMessage {
  keys : list string;
  getitem : string -> result Value;
  values : result Grid;
  latlons : result (Grid * Grid)
}.

(** What [open_grib] and [filter_grib_layers] return, and what
    [grib_message_to_arrays_raster] accepts: a bare message or a list. *)
Inductive Grbs : Type :=
| Single (grb : Message)
| Layers (grbs : list Message).

(** ** Tables (pandas data frames) *)

Inductive Label : Type :=
| LStr (s : string)
| LInt (n : nat).

(** Row labels, column labels and the cells, one list per row.  A missing
    cell ([None], NaN) is [None]. *)
Record DataFrame : Type := mkDataFrame {
  df_index : list Label;
  df_columns : list Label;
  df_data : list (list Cell)
}.

(** ** The world: standard output and the pandas display options *)

Inductive Printed : Type :=
| PStr (s : string)
| PFmt (template : string) (args : list Cell)
| PFrame (x : DataFrame).

Record Options : Type := mkOptions {
  max_rows : option nat;
  max_columns : option nat
}.

(** [stdout_room] is the number of [print] calls the standard output still
    accepts ([None]: any number); a pipe closed by its reader accepts no
    more.  [defaults] are the values pandas registered for the options. *)
Record World : Type := mkWorld {
  stdout : list Printed;
  stdout_room : option nat;
  display : Options;
  defaults : Options
}.

Definition M (A : Type) : Type := World -> result A * World.

Definition ret {A : Type} (a : A) : M A := fun w => (Ok a, w).

Definition raise {A : Type} (e : exn) : M A := fun w => (Raise e, w).

Definition bind {A B : Type} (m : M A) (k : A -> M B) : M B :=
  fun w =>
    match m w with
    | (Ok a, w') => k a w'
    | (Raise e, w') => (Raise e, w')
    end.

Definition lift {A : Type} (r : result A) : M A := fun w => (r, w).

Declare Scope io_scope.
Delimit Scope io_scope with io.
Notation "x <-- m ;; k" := (bind m (fun x => k))
  (at level 61, m at next level, right associativity) : io_scope.
Notation "m >> k" := (bind m (fun _ => k))
  (at level 61, right associativity) : io_scope.
Local Open Scope io_scope.

Definition print (p : Printed) : M unit :=
  fun w =>
    match stdout_room w with
    | Some O => (Raise (IOError "Broken pipe"), w)
    | room =>
        (Ok tt,
         {| stdout := stdout w ++ [p];
            stdout_room := option_map Nat.pred room;
            display := display w;
            defaults := defaults w |})
    end.

Definition with_display (f : Options -> Options) : M unit :=
  fun w =>
    (Ok tt,
     {| stdout := stdout w;
        stdout_room := stdout_room w;
        display := f (display w);
        defaults := defaults w |}).

Definition set_max_rows (n : nat) : M unit :=
  with_display (fun o => {| max_rows := Some n; max_columns := max_columns o |}).

Definition set_max_columns (n : nat) : M unit :=
  with_display (fun o => {| max_rows := max_rows o; max_columns := Some n |}).

Definition reset_max_rows : M unit :=
  fun w =>
    with_display
      (fun o => {| max_rows := max_rows (defaults w);
                   max_columns := max_columns o |}) w.

Definition reset_max_columns : M unit :=
  fun w =>
    with_display
      (fun o => {| max_rows := max_rows o;
                   max_columns := max_columns (defaults w) |}) w.

(** ** Filtering *)

(** The value of one keyword argument of [filter_grib_layers]. *)
Inductive FilterValue : Type :=
| FScalar (v : Value)
| FList (l : list Value)
| FSet (s : list Value).

(** The keyword arguments, in the order the loop of [passes_filters]
    visits them: the order decides which lookup is reached first. *)
Definition Filters : Type := list (string * FilterValue).

(** One turn of the loop of [passes_filters]: [Ok false] is the early
    [return False], [Ok true] goes on to the next key.  The lookup
    [grb[filter]] is not guarded.  A set is not a [list], so it takes the
    [else] branch, where a scalar is never equal to it. *)
Definition filter_test (grb : Message) (f : string * FilterValue) : result bool :=
  let (key, fv) := f in
  match fv with
  | FList l =>
      v <- getitem grb key ;;
      py_in v l
  | FScalar x =>
      v <- getitem grb key ;;
      py_eq v x
  | FSet _ =>
      v <- getitem grb key ;;
      if is_array v then Raise ValueError else Ok false
  end.

Fixpoint passes_filters (grib_layer_filters : Filters) (grb : Message) : result bool :=
  match grib_layer_filters with
  | [] => Ok true
  | f :: rest =>
      b <- filter_test grb f ;;
      if b then passes_filters rest grb else Ok false
  end.

(** [[i for i in grbs if passes_filters(i)]] *)
Fixpoint select_passing (grib_layer_filters : Filters) (grbs : list Message)
  : result (list Message) :=
  match grbs with
  | [] => Ok []
  | i :: rest =>
      b <- passes_filters grib_layer_filters i ;;
      ok <- select_passing grib_layer_filters rest ;;
      Ok (if b then i :: ok else ok)
  end.

Definition cell_of_nat (n : nat) : Cell := Some (VInt (Z.of_nat n)).

(** A one-element list is replaced by its element. *)
Definition collapse (ok : list Message) : Grbs :=
  match ok with
  | [grb] => Single grb
  | _ => Layers ok
  end.

Definition filter_grib_layers (grbs : list Message) (grib_layer_filters : Filters)
  : M Grbs :=
  ok <-- lift (select_passing grib_layer_filters grbs) ;;
  print (PFmt "After filterings still {} grib messages left."
              [cell_of_nat (List.length ok)]) >>
  ret (collapse ok).

(** ** Text: [str], [zfill], [int] *)

Definition digit_chars : list ascii :=
  ["0"; "1"; "2"; "3"; "4"; "5"; "6"; "7"; "8"; "9"]%char.

(** The character of a digit [d] between 0 and 9. *)
Definition digit_char (d : Z) : ascii := nth (Z.to_nat d) digit_chars "0"%char.

(** Decimal digits of a non-negative integer, most significant first, put
    in front of [acc]. *)
Fixpoint digits_of (fuel : nat) (n : Z) (acc : string) : string :=
  match fuel with
  | O => acc
  | S fuel' =>
      let acc' := String (digit_char (n mod 10)) acc in
      if n <? 10 then acc' else digits_of fuel' (n / 10) acc'
  end.

Definition str_of_nonneg (n : Z) : string :=
  digits_of (S (Z.to_nat (Z.log2 n))) n "".

(** [str(z)] for an integer. *)
Definition str_int (z : Z) : string :=
  if z <? 0 then String "-" (str_of_nonneg (- z)) else str_of_nonneg z.

Definition str_nat (n : nat) : string := str_int (Z.of_nat n).

Fixpoint zeros (n : nat) : string :=
  match n with
  | O => ""
  | S n' => String "0" (zeros n')
  end.

(** [s.zfill(width)]: zeros go after a leading sign. *)
Definition zfill (width : nat) (s : string) : string :=
  let n := String.length s in
  if (width <=? n)%nat then s
  else
    let pad := zeros (width - n) in
    match s with
    | String c r =>
        if (Ascii.eqb c "+" || Ascii.eqb c "-")%bool
        then String c (pad ++ r)
        else pad ++ s
    | EmptyString => pad
    end.

Definition is_digit (c : ascii) : bool :=
  (Ascii.leb "0" c && Ascii.leb c "9")%bool.

Definition in_range (lo hi : ascii) (c : ascii) : bool :=
  (Ascii.leb lo c && Ascii.leb c hi)%bool.

Definition digit_val (c : ascii) : Z := Z.of_nat (nat_of_ascii c) - 48.

Fixpoint digits_value (acc : Z) (s : string) : Z :=
  match s with
  | EmptyString => acc
  | String c r => digits_value (10 * acc + digit_val c) r
  end.

Fixpoint all_digits (s : string) : bool :=
  match s with
  | EmptyString => true
  | String c r => (is_digit c && all_digits r)%bool
  end.

Definition is_space (c : ascii) : bool :=
  (Ascii.eqb c " " || in_range "009" "013" c)%bool.

Fixpoint lstrip (s : string) : string :=
  match s with
  | String c r => if is_space c then lstrip r else s
  | EmptyString => s
  end.

Fixpoint rstrip (s : string) : string :=
  match s with
  | EmptyString => EmptyString
  | String c r =>
      match rstrip r with
      | EmptyString => if is_space c then EmptyString else String c EmptyString
      | r' => String c r'
      end
  end.

Definition unsigned_of_string (s : string) : result Z :=
  match s with
  | EmptyString => Raise ValueError
  | _ => if all_digits s then Ok (digits_value 0 s) else Raise ValueError
  end.

(** [int(s)] for a string: surrounding white space, an optional sign and
    decimal digits (digit-group underscores are not accepted). *)
Definition int_of_string (s : string) : result Z :=
  match lstrip (rstrip s) with
  | String "-" r => n <- unsigned_of_string r ;; Ok (- n)
  | String "+" r => unsigned_of_string r
  | t => unsigned_of_string t
  end.

(** ** Dates: the part of [datetime] the module uses *)

(** A [datetime] with zero seconds and microseconds. *)
Record datetime : Type := mkDatetime {
  year : Z;
  month : Z;
  day : Z;
  hour : Z;
  minute : Z
}.

Definition is_leap (y : Z) : bool :=
  ((y mod 4 =? 0) && (negb (y mod 100 =? 0) || (y mod 400 =? 0)))%bool.

(** Days of each month in a year that is not leap. *)
Definition days_in_month_table (m : Z) : Z :=
  match m with
  | 2 => 28
  | 4 | 6 | 9 | 11 => 30
  | _ => 31
  end.

Definition days_in_month (y m : Z) : Z :=
  if ((m =? 2) && is_leap y)%bool then 29 else days_in_month_table m.

Definition days_before_year (y : Z) : Z :=
  let p := y - 1 in p * 365 + p / 4 - p / 100 + p / 400.

Definition days_before_month_table (m : Z) : Z :=
  match m with
  | 1 => 0 | 2 => 31 | 3 => 59 | 4 => 90 | 5 => 120 | 6 => 151
  | 7 => 181 | 8 => 212 | 9 => 243 | 10 => 273 | 11 => 304 | _ => 334
  end.

Definition days_before_month (y m : Z) : Z :=
  days_before_month_table m + (if ((2 <? m) && is_leap y)%bool then 1 else 0).

Definition ymd2ord (y m d : Z) : Z :=
  days_before_year y + days_before_month y m + d.

Definition MAXORDINAL : Z := 3652059.

(** The inverse of [ymd2ord], as [datetime] computes it. *)
Definition ord2ymd (ordinal : Z) : Z * Z * Z :=
  let n := ordinal - 1 in
  let n400 := n / 146097 in
  let n := n mod 146097 in
  let y := n400 * 400 + 1 in
  let n100 := n / 36524 in
  let n := n mod 36524 in
  let n4 := n / 1461 in
  let n := n mod 1461 in
  let n1 := n / 365 in
  let n := n mod 365 in
  let y := y + n100 * 100 + n4 * 4 + n1 in
  if ((n1 =? 4) || (n100 =? 4))%bool then (y - 1, 12, 31)
  else
    let leapyear := ((n1 =? 3) && (negb (n4 =? 24) || (n100 =? 3)))%bool in
    let m := Z.shiftr (n + 50) 5 in
    let preceding :=
      days_before_month_table m + (if ((2 <? m) && leapyear)%bool then 1 else 0) in
    if n <? preceding then
      let m' := m - 1 in
      let preceding' :=
        preceding
        - (days_in_month_table m'
           + (if ((m' =? 2) && leapyear)%bool then 1 else 0)) in
      (y, m', n - preceding' + 1)
    else (y, m, n - preceding + 1).

(** The constructor [datetime(year, month, day, hour, minute)]. *)
Definition make_datetime (y m d h mi : Z) : result datetime :=
  if ((1 <=? y) && (y <=? 9999) && (1 <=? m) && (m <=? 12)
      && (1 <=? d) && (d <=? days_in_month y m)
      && (0 <=? h) && (h <=? 23) && (0 <=? mi) && (mi <=? 59))%bool
  then Ok (mkDatetime y m d h mi)
  else Raise ValueError.

(** [dt + timedelta(minutes=n)] *)
Definition add_minutes (dt : datetime) (n : Z) : result datetime :=
  let total :=
    (ymd2ord (year dt) (month dt) (day dt) * 24 + hour dt) * 60 + minute dt + n in
  let days := total / 1440 in
  let rem := total mod 1440 in
  if ((0 <? days) && (days <=? MAXORDINAL))%bool then
    let '(y, m, d) := ord2ymd days in
    Ok (mkDatetime y m d (rem / 60) (rem mod 60))
  else Raise OverflowError.

(** *** [datetime.strptime(_, "%Y%m%d%H%M")]

    Each directive is a group of alternatives tried in order by a
    backtracking matcher; an alternative is a sequence of character
    classes.  The match need not reach the end of the text: what is left
    over is reported afterwards as unconverted data. *)

Definition CharClass : Type := ascii -> bool.
Definition Alternative : Type := list CharClass.
Definition Directive : Type := list Alternative.

Definition re_Y : Directive := [[is_digit; is_digit; is_digit; is_digit]].

Definition re_m : Directive :=
  [[Ascii.eqb "1"; in_range "0" "2"];
   [Ascii.eqb "0"; in_range "1" "9"];
   [in_range "1" "9"]]%char.

Definition re_d : Directive :=
  [[Ascii.eqb "3"; in_range "0" "1"];
   [in_range "1" "2"; is_digit];
   [Ascii.eqb "0"; in_range "1" "9"];
   [in_range "1" "9"];
   [Ascii.eqb " "; in_range "1" "9"]]%char.

Definition re_H : Directive :=
  [[Ascii.eqb "2"; in_range "0" "3"];
   [in_range "0" "1"; is_digit];
   [is_digit]]%char.

Definition re_M : Directive :=
  [[in_range "0" "5"; is_digit];
   [is_digit]]%char.

Definition format_YmdHM : list Directive := [re_Y; re_m; re_d; re_H; re_M].

(** The text an alternative matches at the start of [s], and the rest. *)
Fixpoint match_alt (alt : Alternative) (s : string) : option (string * string) :=
  match alt with
  | [] => Some (EmptyString, s)
  | cls :: alt' =>
      match s with
      | EmptyString => None
      | String c r =>
          if cls c then
            match match_alt alt' r with
            | Some (m, rest) => Some (String c m, rest)
            | None => None
            end
          else None
      end
  end.

(** The first alternative that matches and after which the continuation
    [k] matches too. *)
Fixpoint try_alts (k : string -> option (list string * string))
  (alts : Directive) (s : string) : option (list string * string) :=
  match alts with
  | [] => None
  | alt :: alts' =>
      match match_alt alt s with
      | Some (m, rest) =>
          match k rest with
          | Some (ms, r) => Some (m :: ms, r)
          | None => try_alts k alts' s
          end
      | None => try_alts k alts' s
      end
  end.

Fixpoint match_seq (ds : list Directive) (s : string)
  : option (list string * string) :=
  match ds with
  | [] => Some ([], s)
  | d :: ds' => try_alts (match_seq ds') d s
  end.

(** The number a matched group stands for ([int] of its text; the day may
    have a leading space). *)
Definition group_int (m : string) : Z := digits_value 0 (lstrip m).

Definition strptime_YmdHM (s : string) : result datetime :=
  match match_seq format_YmdHM s with
  | Some ([gY; gm; gd; gH; gM], EmptyString) =>
      make_datetime (group_int gY) (group_int gm) (group_int gd)
                    (group_int gH) (group_int gM)
  | _ => Raise ValueError
  end.

(** ** The functions of the module

    The decoder, numpy's rendering of floats and arrays and the file system
    are outside the module and taken as parameters. *)

Section GribUtils.

(** [str] of a float and of an array. *)
Variable float_str : Q -> string.
Variable array_str : list Q -> string.

(** [pygrib.open(path).select()]: the decoded messages of a file, in file
    order, or the decoder's error. *)
Variable pygrib_open_select : string -> result (list Message).

(** [grb[key] = value]: the decoder recomputes the message. *)
Variable pygrib_setitem : Message -> string -> Value -> result Message.

Variable abspath : string -> string.

Definition py_str (v : Value) : string :=
  match v with
  | VInt z => str_int z
  | VFloat q => float_str q
  | VStr s => s
  | VArray a => array_str a
  end.

(** [int(v)]; a float is truncated towards zero. *)
Definition py_int (v : Value) : result Z :=
  match v with
  | VInt z => Ok z
  | VFloat q => Ok (Z.quot (Qnum q) (Zpos (Qden q)))
  | VStr s => int_of_string s
  | VArray _ => Raise TypeError
  end.

(** What a caller can pass where a path is expected. *)
Inductive Source : Type :=
| SPath (path : string)
| SGrbs (g : Grbs).

(** *** [open_grib] *)

Fixpoint patch_stepUnits (grbs : list Message) : result (list Message) :=
  match grbs with
  | [] => Ok []
  | grb :: rest =>
      grb' <- pygrib_setitem grb "stepUnits" (VInt 0) ;;
      rest' <- patch_stepUnits rest ;;
      Ok (grb' :: rest')
  end.

Definition open_grib (grbs : Source) (timestep_interval_mins : Z) : result Grbs :=
  match grbs with
  | SGrbs _ => Raise (IOError "Grbs argument has to be a path to the grib file!")
  | SPath path =>
      l <- pygrib_open_select path ;;
      l' <- (if timestep_interval_mins <? 60 then patch_stepUnits l else Ok l) ;;
      Ok (collapse l')
  end.

Definition default_timestep_interval_mins : Z := 60.

(** *** Simulation and validity time *)

Definition get_grib_layer_simulation_datetime (grb : Message) : result datetime :=
  t <- getitem grb "dataTime" ;;
  let dataTime := zfill 4 (py_str t) in
  d <- getitem grb "dataDate" ;;
  let dataDate := py_str d in
  strptime_YmdHM (dataDate ++ dataTime).

Definition get_grib_layer_validity_datetime (grb : Message) : result datetime :=
  sim <- get_grib_layer_simulation_datetime grb ;;
  e <- getitem grb "endStep" ;;
  n <- py_int e ;;
  add_minutes sim n.

(** *** [grib_message_to_arrays_raster] *)

Definition layers_message (n : nat) : string :=
  "You can only pass a one-layered grib list or a grib message. "
  ++ "You passed a grib with " ++ str_nat n ++ " layers.".

(** The truth value of [nodata_buffer]: [None] and zero are false. *)
Definition truthy (nodata_buffer : option Q) : bool :=
  match nodata_buffer with
  | None => false
  | Some q => negb (Qeq_bool q 0)
  end.

Definition Qltb (x y : Q) : bool := negb (Qle_bool y x).

(** [values[values < nodata_buffer] = nodata] *)
Definition clamp (nodata_buffer nodata : Q) (vals : Grid) : Grid :=
  map (map (fun x => if Qltb x nodata_buffer then nodata else x)) vals.

Definition grib_message_to_arrays_raster
  (grb : Grbs) (nodata_buffer : option Q) (nodata : Q)
  : result (Grid * Grid * Grid) :=
  g <- match grb with
       | Layers [g] => Ok g
       | Layers l => Raise (IOError (layers_message (List.length l)))
       | Single g => Ok g
       end ;;
  vals <- values g ;;
  let vals' :=
    match nodata_buffer with
    | Some b => if truthy nodata_buffer then clamp b nodata vals else vals
    | None => vals
    end in
  ll <- latlons g ;;
  Ok (vals', fst ll, snd ll).

(** The default [nodata_buffer] is the float written [0.001]. *)
Definition default_nodata_buffer : Q := 1152921504606847 # 1152921504606846976.
Definition default_nodata : Q := 0.

(** *** [print_full_df] *)

Definition print_full_df (x : DataFrame) : M unit :=
  set_max_rows (List.length (df_index x)) >>
  set_max_columns (List.length (df_columns x)) >>
  print (PFrame x) >>
  reset_max_rows >>
  reset_max_columns.

(** *** [print_grib_content_report] *)

(** The cell recorded for one attribute: a lookup that raises, and an
    array, give [None]. *)
Definition coalesce (r : result Value) : Cell :=
  match r with
  | Ok v => if is_array v then None else Some v
  | Raise _ => None
  end.

(** The list [values] built by the inner loop for one message. *)
Definition row_values (grb : Message) : list Cell :=
  map (fun feature => coalesce (getitem grb feature)) (keys grb).

Fixpoint append_cells (data : list (list Cell)) (vals : list Cell)
  : list (list Cell) :=
  match data, vals with
  | row :: data', v :: vals' => (row ++ [v])%list :: append_cells data' vals'
  | _, _ => []
  end.

(** [df[label] = vals].  The list must be as long as the index, except
    that a frame whose index is empty takes the positions of a non-empty
    list as its index. *)
Definition setitem_column (df : DataFrame) (label : Label) (vals : list Cell)
  : result DataFrame :=
  match df_index df, vals with
  | [], _ :: _ =>
      Ok {| df_index := map LInt (seq 0 (List.length vals));
            df_columns := df_columns df ++ [label];
            df_data :=
              map (fun v => (map (fun _ => None) (df_columns df) ++ [v])%list) vals |}
  | _, _ =>
      if (List.length vals =? List.length (df_index df))%nat then
        Ok {| df_index := df_index df;
              df_columns := df_columns df ++ [label];
              df_data := append_cells (df_data df) vals |}
      else Raise ValueError
  end.

(** The loop over [enumerate(grbs[:])]. *)
Fixpoint fill_columns (i : nat) (grbs : list Message) (df : DataFrame)
  : result DataFrame :=
  match grbs with
  | [] => Ok df
  | grb :: rest =>
      df' <- setitem_column df (LInt i) (row_values grb) ;;
      fill_columns (S i) rest df'
  end.

(** Equality of two scalars as a hash table sees it. *)
Definition value_eqb (v w : Value) : bool :=
  match py_eq v w with
  | Ok b => b
  | Raise _ => false
  end.

Definition cell_eqb (c d : Cell) : bool :=
  match c, d with
  | None, None => true
  | Some v, Some w => value_eqb v w
  | _, _ => false
  end.

(** The distinct values of a row in the order of their first occurrence;
    missing cells are dropped. *)
Fixpoint distinct_values (seen : list Value) (row : list Cell) : list Value :=
  match row with
  | [] => seen
  | None :: row' => distinct_values seen row'
  | Some v :: row' =>
      if existsb (value_eqb v) seen then distinct_values seen row'
      else distinct_values (seen ++ [v])%list row'
  end.

(** [pd.Series.nunique] of one row. *)
Definition nunique (row : list Cell) : nat :=
  List.length (distinct_values [] row).

Definition select_rows (keep : list Cell -> bool) (df : DataFrame) : DataFrame :=
  let rows := filter (fun r => keep (snd r)) (combine (df_index df) (df_data df)) in
  {| df_index := map fst rows;
     df_columns := df_columns df;
     df_data := map snd rows |}.

Definition label_leb (a b : Label) : bool :=
  match a, b with
  | LStr s, LStr t => String.leb s t
  | LInt m, LInt n => (m <=? n)%nat
  | LInt _, LStr _ => true
  | LStr _, LInt _ => false
  end.

Fixpoint insert_row (r : Label * list Cell) (rows : list (Label * list Cell))
  : list (Label * list Cell) :=
  match rows with
  | [] => [r]
  | r' :: rows' =>
      if label_leb (fst r) (fst r') then r :: rows
      else r' :: insert_row r rows'
  end.

(** [df.sort_index()]: rows in ascending order of their labels. *)
Definition sort_index (df : DataFrame) : DataFrame :=
  let rows :=
    fold_right insert_row [] (combine (df_index df) (df_data df)) in
  {| df_index := map fst rows;
     df_columns := df_columns df;
     df_data := map snd rows |}.

(** Column [j] of the rows, for [j] below [n]. *)
Fixpoint columns_of (n j : nat) (data : list (list Cell)) : list (list Cell) :=
  match n with
  | O => []
  | S n' => map (fun row => nth j row None) data :: columns_of n' (S j) data
  end.

Definition transpose (df : DataFrame) : DataFrame :=
  {| df_index := df_columns df;
     df_columns := df_index df;
     df_data := columns_of (List.length (df_columns df)) 0 (df_data df) |}.

(** [df.iloc[:, [0]]] *)
Definition first_column (df : DataFrame) : result DataFrame :=
  match df_columns df with
  | [] => Raise IndexError
  | c :: _ =>
      Ok {| df_index := df_index df;
            df_columns := [c];
            df_data := map (firstn 1) (df_data df) |}
  end.

Definition df_same_of (df : DataFrame) : DataFrame :=
  sort_index (select_rows (fun row => (nunique row =? 1)%nat) df).

Definition df_unique_of (df : DataFrame) : DataFrame :=
  transpose (select_rows (fun row => (1 <? nunique row)%nat) df).

Definition label_is (s : string) (l : Label) : bool :=
  match l with
  | LStr t => String.eqb s t
  | LInt _ => false
  end.

(** [s in df.index.tolist()] *)
Definition in_index (s : string) (df : DataFrame) : bool :=
  existsb (label_is s) (df_index df).

(** [Counter(cells).items()]: each distinct cell with the number of its
    occurrences, in the order of first occurrence. *)
Fixpoint count_cell (c : Cell) (counts : list (Cell * nat)) : list (Cell * nat) :=
  match counts with
  | [] => [(c, 1%nat)]
  | (d, n) :: counts' =>
      if cell_eqb d c then (d, S n) :: counts'
      else (d, n) :: count_cell c counts'
  end.

Definition Counter (cells : list Cell) : list (Cell * nat) :=
  fold_left (fun counts c => count_cell c counts) cells [].

(** [df.ix["name", :].values.tolist()]: the cells of the row labelled
    [name]; several such rows come out as a list of lists, which
    [Counter] cannot hash. *)
Definition name_row (df : DataFrame) : result (list Cell) :=
  match filter (fun r => label_is "name" (fst r))
               (combine (df_index df) (df_data df)) with
  | [r] => Ok (snd r)
  | _ => Raise TypeError
  end.

Fixpoint print_all (ps : list Printed) : M unit :=
  match ps with
  | [] => ret tt
  | p :: ps' => print p >> print_all ps'
  end.

Definition stars : string :=
  "***********************************************************".

Definition dataset_line (kv : Cell * nat) : Printed :=
  PFmt (String "009" "{} ({})") [fst kv; cell_of_nat (snd kv)].

(** [grbs[0]]: the first element of a list; a bare message cannot be
    subscripted by an integer. *)
Definition first_message (grbs : Grbs) : result Message :=
  match grbs with
  | Layers (g :: _) => Ok g
  | Layers [] => Raise IndexError
  | Single _ => Raise TypeError
  end.

Definition messages_of (grbs : Grbs) : result (list Message) :=
  match grbs with
  | Layers l => Ok l
  | Single _ => Raise TypeError
  end.

(** The table of the report: one row per key of the first message, one
    column per message. *)
Definition build_table (grbs : Grbs) : result DataFrame :=
  g0 <- first_message grbs ;;
  l <- messages_of grbs ;;
  fill_columns 0 l
    {| df_index := map LStr (keys g0); df_columns := []; df_data := map (fun _ => []) (keys g0) |}.

(** Line 19 reads the name [grbfile], which is bound nowhere: it is
    neither a local of the function, nor a name the module defines or
    imports, nor a builtin.  Evaluating the test raises, so neither of the
    branches under it is reached. *)
Definition print_grib_content_report (gribfile : Source) : M unit :=
  grbs <-- match gribfile with
           | SPath _ => lift (open_grib gribfile default_timestep_interval_mins)
           | SGrbs _ => raise (NameError "grbfile")
           end ;;
  df <-- lift (build_table grbs) ;;
  g0 <-- lift (first_message grbs) ;;
  let df_same := df_same_of df in
  let df_unique := df_unique_of df in
  print (PStr "GRIB FILE DESCRIPTION:") >>
  print (PStr stars) >>
  print (PStr "") >>
  match gribfile with
  | SPath path => print (PFmt "Grib name: {}" [Some (VStr (abspath path))])
  | SGrbs _ => ret tt
  end >>
  (if (in_index "dataDate" df && in_index "dataTime" df)%bool then
     a <-- lift (getitem g0 "dataDate") ;;
     b <-- lift (getitem g0 "dataTime") ;;
     print (PFmt "Grib date: {} {}" [Some a; Some b])
   else ret tt) >>
  (if (in_index "Nx" df && in_index "Nx" df)%bool then
     a <-- lift (getitem g0 "Nx") ;;
     b <-- lift (getitem g0 "Ny") ;;
     print (PFmt "Layer size (X x Y): {}x{}" [Some a; Some b])
   else ret tt) >>
  n <-- lift (l <- messages_of grbs ;; Ok (List.length l)) ;;
  print (PFmt "Number of layers: {}" [cell_of_nat n]) >>
  (if in_index "name" df then
     print (PStr "Available datasets:") >>
     cells <-- lift (name_row df) ;;
     print_all (map dataset_line (Counter cells))
   else ret tt) >>
  print (PStr "") >>
  print (PStr "") >>
  print (PStr "GENERAL GRIB DATA OVERVIEW:") >>
  print (PStr "") >>
  x <-- lift (first_column df_same) ;;
  print_full_df x >>
  print (PStr "") >>
  print (PStr "") >>
  print (PStr "LAYER-SPECIFIC DATA OVERVIEW:") >>
  print (PStr "") >>
  print_full_df df_unique >>
  print (PStr "") >>
  print (PStr stars) >>
  print (PStr "") >>
  print (PStr "").

(** ** Sample data *)

(** A message given by the attributes it can read; any other key fails to
    read, as the decoder reports an unknown key. *)
Definition message_of (attrs : list (string * Value)) (vals : Grid) : Message :=
  {| keys := map fst attrs;
     getitem := fun key =>
       match find (fun kv => String.eqb key (fst kv)) attrs with
       | Some kv => Ok (snd kv)
       | None => Raise RuntimeError
       end;
     values := Ok vals;
     latlons := Ok (vals, vals) |}.

Definition grb_tp : Message :=
  message_of [("shortName", VStr "tp"); ("dataDate", VInt 20170104);
              ("dataTime", VInt 600); ("endStep", VInt 180);
              ("latitudes", VArray [1#2; 3#2])]
             [[(-5)#1; 1#2000; 3#1]].

Definition grb_t2m : Message :=
  message_of [("shortName", VStr "2t"); ("dataDate", VInt 20170104);
              ("dataTime", VInt 600); ("endStep", VInt 240);
              ("latitudes", VArray [1#2; 3#2])]
             [[2#1; 0#1; 1#1000]].

(** A message without [shortName]. *)
Definition grb_bare : Message :=
  message_of [("dataDate", VInt 20170104); ("dataTime", VInt 600)] [[0#1]].

Definition pandas_defaults : Options :=
  {| max_rows := Some 60%nat; max_columns := Some 20%nat |}.

Definition world0 : World :=
  {| stdout := []; stdout_room := None;
     display := pandas_defaults; defaults := pandas_defaults |}.

(** A decoder that finds one message in ["one.grib"], a message followed
    by one with fewer keys in ["mixed.grib"], and two messages with the
    same keys in any other file. *)
Definition sample_open (path : string) : result (list Message) :=
  if String.eqb path "one.grib" then Ok [grb_tp]
  else if String.eqb path "mixed.grib" then Ok [grb_tp; grb_bare]
  else Ok [grb_tp; grb_t2m].

Definition sample_setitem (grb : Message) (key : string) (v : Value)
  : result Message :=
  Ok {| keys := keys grb;
        getitem := fun k => if String.eqb k key then Ok v else getitem grb k;
        values := values grb;
        latlons := latlons grb |}.

(** A world in which the caller has chosen display limits of their own. *)
Definition world_custom : World :=
  {| stdout := []; stdout_room := None;
     display := {| max_rows := Some 100%nat; max_columns := Some 50%nat |};
     defaults := pandas_defaults |}.

(** A world whose standard output is a pipe that takes ten more lines. *)
Definition world_pipe : World :=
  {| stdout := []; stdout_room := Some 10%nat;
     display := pandas_defaults; defaults := pandas_defaults |}.

(** The table of the report on [grb_tp] and [grb_t2m]. *)
Definition sample_table : DataFrame :=
  {| df_index := [LStr "shortName"; LStr "dataDate"; LStr "dataTime";
                  LStr "endStep"; LStr "latitudes"];
     df_columns := [LInt 0; LInt 1];
     df_data := [[Some (VStr "tp"); Some (VStr "2t")];
                 [Some (VInt 20170104); Some (VInt 20170104)];
                 [Some (VInt 600); Some (VInt 600)];
                 [Some (VInt 180); Some (VInt 240)];
                 [None; None]] |}.

(** ** Notions the properties are stated with *)

(** [v] is equal to some element of [l]. *)
Definition member (v : Value) (l : list Value) : Prop :=
  exists e, In e l /\ py_eq v e = Ok true.

Definition scalars (l : list Value) : Prop :=
  Forall (fun e => is_array e = false) l.

(** The limits [print_full_df] sets before it prints [x]. *)
Definition widened (x : DataFrame) : Options :=
  {| max_rows := Some (List.length (df_index x));
     max_columns := Some (List.length (df_columns x)) |}.

(** The rows of a table with their labels. *)
Definition labelled_rows (df : DataFrame) : list (Label * list Cell) :=
  combine (df_index df) (df_data df).

(** A successful run of [m] only appends to the standard output, and what
    it appends satisfies [P]. *)
Definition prints_only {A : Type} (P : Printed -> Prop) (m : M A) : Prop :=
  forall w a w',
    m w = (Ok a, w') ->
    exists new, stdout w' = (stdout w ++ new)%list /\ Forall P new.

(** The two tables of the report made from [df]. *)
Definition report_frame (df : DataFrame) (p : Printed) : Prop :=
  match p with
  | PFrame x => first_column (df_same_of df) = Ok x \/ x = df_unique_of df
  | _ => True
  end.

(** What a successful run of [m] does to the display limits: it leaves
    the registered defaults alone ([keeps_defaults]), and moreover leaves
    the limits as they were ([keeps_display]) or leaves them at the
    defaults ([resets_display]). *)
Definition keeps_defaults {A : Type} (m : M A) : Prop :=
  forall w a w', m w = (Ok a, w') -> defaults w' = defaults w.

Definition keeps_display {A : Type} (m : M A) : Prop :=
  forall w a w',
    m w = (Ok a, w') -> display w' = display w /\ defaults w' = defaults w.

Definition resets_display {A : Type} (m : M A) : Prop :=
  forall w a w',
    m w = (Ok a, w') -> display w' = defaults w /\ defaults w' = defaults w.

(** The timestamp the specification describes: the twelve digits
    YYYYMMDDHHMM read by position. *)
Definition parse_YYYYMMDDHHMM (s : string) : result datetime :=
  if ((String.length s =? 12)%nat && all_digits s)%bool then
    make_datetime (digits_value 0 (substring 0 4 s))
                  (digits_value 0 (substring 4 2 s))
                  (digits_value 0 (substring 6 2 s))
                  (digits_value 0 (substring 8 2 s))
                  (digits_value 0 (substring 10 2 s))
  else Raise ValueError.

(** [dataDate] followed by [dataTime] padded with zeros to four digits. *)
Definition timestamp_text (dataDate dataTime : Z) : string :=
  str_int dataDate ++ zfill 4 (str_int dataTime).

Definition spec_simulation_time (dataDate dataTime : Z) : result datetime :=
  parse_YYYYMMDDHHMM (timestamp_text dataDate dataTime).

Fixpoint no_spaces (s : string) : bool :=
  match s with
  | EmptyString => true
  | String c r => (negb (Ascii.eqb c " ") && no_spaces r)%bool
  end.

(** The first alternative of a directive that matches at the start of
    [s], whatever follows. *)
Fixpoint first_match (alts : Directive) (s : string) : option (string * string) :=
  match alts with
  | [] => None
  | alt :: alts' =>
      match match_alt alt s with
      | Some mr => Some mr
      | None => first_match alts' s
      end
  end.

(** Two characters that a two-character alternative of the directive
    accepts. *)
Definition two_m (a b : ascii) : bool :=
  ((Ascii.eqb "1" a && in_range "0" "2" b)
   || (Ascii.eqb "0" a && in_range "1" "9" b))%bool.

Definition two_d (a b : ascii) : bool :=
  ((Ascii.eqb "3" a && in_range "0" "1" b)
   || (in_range "1" "2" a && is_digit b)
   || (Ascii.eqb "0" a && in_range "1" "9" b))%bool.

Definition two_H (a b : ascii) : bool :=
  ((Ascii.eqb "2" a && in_range "0" "3" b)
   || (in_range "0" "1" a && is_digit b))%bool.

Definition two_M (a b : ascii) : bool :=
  (in_range "0" "5" a && is_digit b)%bool.

Definition two (a b : ascii) : string := String a (String b EmptyString).

(** What a matched group of a two-character directive looks like. *)
Definition group_shape (two_ok : ascii -> ascii -> bool) (m : string) : Prop :=
  (exists a b, m = two a b /\ (two_ok a b = true \/ a = " "%char))
  \/ (exists a, m = String a EmptyString /\ is_digit a = true).

(** All characters, for properties settled by going through them. *)
Definition all_ascii : list ascii := map ascii_of_nat (seq 0 256).

Definition forall_ascii (P : ascii -> bool) : bool := forallb P all_ascii.

Definition forall_ascii2 (P : ascii -> ascii -> bool) : bool :=
  forall_ascii (fun a => forall_ascii (P a)).

(** The last [width] decimal digits of [n], put in front of [acc]. *)
Fixpoint fixed_digits (width : nat) (n : Z) (acc : string) : string :=
  match width with
  | O => acc
  | S w => fixed_digits w (n / 10) (String (digit_char (n mod 10)) acc)
  end.

(** ** Notions for the further properties *)

(** The messages of [grbs] whose flag in [bs] is set, in their order. *)
Definition kept_by (grbs : list Message) (bs : list bool) : list Message :=
  map fst (filter snd (combine grbs bs)).

(** The line [filter_grib_layers] prints for [n] messages kept. *)
Definition count_line (n : nat) : Printed :=
  PFmt "After filterings still {} grib messages left." [cell_of_nat n].

(** The number of messages a result of [open_grib] stands for. *)
Definition layer_count (r : Grbs) : nat :=
  match r with
  | Single _ => 1%nat
  | Layers l => List.length l
  end.

(** The shape of a grid: the lengths of its rows. *)
Definition shape (g : Grid) : list nat := map (@List.length Q) g.

(** A timestamp [datetime] accepts: a day of the calendar between the
    years 1 and 9999 and a minute of that day. *)
Definition valid_datetime (dt : datetime) : Prop :=
  1 <= year dt <= 9999 /\ 1 <= month dt <= 12
  /\ 1 <= day dt <= days_in_month (year dt) (month dt)
  /\ 0 <= hour dt <= 23 /\ 0 <= minute dt <= 59.

(** [P] on the [n] integers from [start] on. *)
Fixpoint forall_range (n : nat) (start : Z) (P : Z -> bool) : bool :=
  match n with
  | O => true
  | S n' => (P start && forall_range n' (start + 1) P)%bool
  end.

Definition valid_date (y m d : Z) : bool :=
  ((1 <=? m) && (m <=? 12) && (1 <=? d) && (d <=? days_in_month y m))%bool.

(** Within the first 400 years: the ordinal [k] is read as a day of the
    calendar whose ordinal is [k]. *)
Definition check_ordinal (k : Z) : bool :=
  let '(y, m, d) := ord2ymd k in
  ((1 <=? y) && (y <=? 400) && valid_date y m d && (ymd2ord y m d =? k))%bool.

(** Within the first 400 years: the ordinal of the day [y]-[m]-[d] is read
    back as this day. *)
Definition check_date (y m d : Z) : bool :=
  implb (d <=? days_in_month y m)
    (let k := ymd2ord y m d in
     let '(y', m', d') := ord2ymd k in
     ((1 <=? k) && (k <=? 146097) && implb (y <=? 399) (k <=? 145731)
      && (y' =? y) && (m' =? m) && (d' =? d))%bool).

(** The minutes from the origin of the calendar to a timestamp. *)
Definition minutes_of (dt : datetime) : Z :=
  (ymd2ord (year dt) (month dt) (day dt) * 24 + hour dt) * 60 + minute dt.

(** Column [i] of a table. *)
Definition column (df : DataFrame) (i : nat) : list Cell :=
  map (fun row => nth i row None) (df_data df).

(** A table of [n] columns numbered from 0, with as many rows as labels,
    whose rows all have [n] cells. *)
Definition well_shaped (df : DataFrame) (n : nat) : Prop :=
  df_columns df = map LInt (seq 0 n)
  /\ List.length (df_data df) = List.length (df_index df)
  /\ Forall (fun row => List.length row = n) (df_data df).

Definition label_le (a b : Label) : Prop := label_leb a b = true.

(** The lines the report prints first for a path. *)
Definition report_head (name : string) : list Printed :=
  [PStr "GRIB FILE DESCRIPTION:"; PStr stars; PStr "";
   PFmt "Grib name: {}" [Some (VStr name)]].

(** ** Further sample data *)

(** A message that has a [stepUnits] key. *)
Definition grb_units : Message :=
  message_of [("stepUnits", VInt 1); ("dataDate", VInt 20170104);
              ("dataTime", VInt 600)] [[0#1]].

(** A decoder that sets a key only on a message that lists it. *)
Definition strict_setitem (grb : Message) (key : string) (v : Value)
  : result Message :=
  if existsb (String.eqb key) (keys grb) then sample_setitem grb key v
  else Raise RuntimeError.

(** A file of a message with [stepUnits] followed by one without. *)
Definition units_open (path : string) : result (list Message) :=
  Ok [grb_units; grb_tp].

(** The grid of [grb_tp] after the cleanup with the default threshold. *)
Definition grb_tp_cleaned : Message :=
  {| keys := keys grb_tp;
     getitem := getitem grb_tp;
     values := Ok [[0#1; 0#1; 3#1]];
     latlons := latlons grb_tp |}.

Definition grb_named (name : string) : Message :=
  message_of [("name", VStr name); ("Nx", VInt 100); ("Ny", VInt 50)] [[0#1]].

(** A file of three messages named "t2m", "u10", "t2m". *)
Definition named_open (path : string) : result (list Message) :=
  Ok [grb_named "t2m"; grb_named "u10"; grb_named "t2m"].

(** A table with a row that is null on the second message. *)
Definition partial_table : DataFrame :=
  {| df_index := [LStr "level"; LStr "shortName"];
     df_columns := [LInt 0; LInt 1];
     df_data := [[Some (VInt 2); None];
                 [Some (VStr "tp"); Some (VStr "2t")]] |}.

(** A message that lists [dataDate] but cannot read it. *)
Definition grb_broken : Message :=
  {| keys := ["dataDate"; "dataTime"];
     getitem := fun key =>
       if String.eqb key "dataTime" then Ok (VInt 600) else Raise RuntimeError;
     values := Ok [[0#1]];
     latlons := Ok ([[0#1]], [[0#1]]) |}.

Definition broken_open (path : string) : result (list Message) :=
  Ok [grb_broken; grb_broken].

(** The table of the report on [grb_broken] twice. *)
Definition broken_table : DataFrame :=
  {| df_index := [LStr "dataDate"; LStr "dataTime"];
     df_columns := [LInt 0; LInt 1];
     df_data := [[None; None]; [Some (VInt 600); Some (VInt 600)]] |}.

(** * Properties *)

(** ** The filter engine *)

Lemma passes_filters_app_true (pre rest : Filters) (grb : Message) :
  Forall (fun f => filter_test grb f = Ok true) pre ->
  passes_filters (pre ++ rest)%list grb = passes_filters rest grb.
Proof.
  induction 1 as [|f pre Hf _ IH]; cbn [passes_filters app].
  - reflexivity.
  - rewrite Hf. exact IH.
Qed.

Lemma filter_test_lookup_raises (grb : Message) (key : string)
  (fv : FilterValue) (e : exn) :
  getitem grb key = Raise e -> filter_test grb (key, fv) = Raise e.
Proof.
  intros H. unfold filter_test. destruct fv; rewrite H; reflexivity.
Qed.

Lemma select_passing_raises (fs : Filters) (before after : list Message)
  (grb : Message) (e : exn) :
  Forall (fun g => raises (passes_filters fs g) = false) before ->
  passes_filters fs grb = Raise e ->
  select_passing fs (before ++ grb :: after)%list = Raise e.
Proof.
  intros Hb Hg. induction Hb as [|g before Hg0 _ IH]; simpl.
  - rewrite Hg. reflexivity.
  - destruct (passes_filters fs g) as [b|e0]; [|discriminate Hg0].
    simpl. rewrite IH. reflexivity.
Qed.

(** C1 (as the code has it): the lookup [grb[filter]] is not guarded.  When
    a filter key fails to read on a message, the keys before it having
    passed, [passes_filters] raises the lookup's exception, and
    [filter_grib_layers] hands it to the caller without printing anything
    (no earlier message having raised). *)
Theorem filter_propagates_lookup_failure
  (pre rest : Filters) (key : string) (fv : FilterValue)
  (grb : Message) (e : exn) :
  Forall (fun f => filter_test grb f = Ok true) pre ->
  getitem grb key = Raise e ->
  passes_filters (pre ++ (key, fv) :: rest)%list grb = Raise e
  /\ forall (before after : list Message) (w : World),
       Forall (fun g =>
                 raises (passes_filters (pre ++ (key, fv) :: rest)%list g) = false)
              before ->
       filter_grib_layers (before ++ grb :: after)%list
                          (pre ++ (key, fv) :: rest)%list w
       = (Raise e, w).
Proof.
  intros Hpre Hget.
  assert (Hp : passes_filters (pre ++ (key, fv) :: rest)%list grb = Raise e).
  { rewrite passes_filters_app_true by exact Hpre.
    cbn [passes_filters].
    rewrite (filter_test_lookup_raises _ _ fv _ Hget). reflexivity. }
  split; [exact Hp|].
  intros before after w Hb.
  unfold filter_grib_layers, bind, lift.
  rewrite (select_passing_raises _ _ _ _ _ Hb Hp). reflexivity.
Qed.

Lemma select_passing_nil (grbs : list Message) :
  select_passing [] grbs = Ok grbs.
Proof.
  induction grbs as [|g grbs IH]; simpl.
  - reflexivity.
  - rewrite IH. reflexivity.
Qed.

Lemma print_ok (p : Printed) (w : World) :
  stdout_room w <> Some O ->
  print p w =
  (Ok tt,
   {| stdout := stdout w ++ [p];
      stdout_room := option_map Nat.pred (stdout_room w);
      display := display w;
      defaults := defaults w |}).
Proof.
  intros H. unfold print. destruct (stdout_room w) as [[|n]|]; try reflexivity.
  contradiction H. reflexivity.
Qed.


(** C3 (as the code has it): with no filter every message passes, and the
    result is the input list itself unless the list has exactly one
    element, in which case it is that bare message.  In both cases the
    call prints one line, the count line with the length of the input,
    and nothing else, and it leaves the display limits alone. *)
Theorem filter_empty_filters (grbs : list Message) (w : World) :
  stdout_room w <> Some O ->
  (List.length grbs <> 1%nat ->
   fst (filter_grib_layers grbs [] w) = Ok (Layers grbs))
  /\ (forall grb, grbs = [grb] ->
        fst (filter_grib_layers grbs [] w) = Ok (Single grb))
  /\ stdout (snd (filter_grib_layers grbs [] w))
     = (stdout w ++ [count_line (List.length grbs)])%list
  /\ display (snd (filter_grib_layers grbs [] w)) = display w.
Proof.
  intros Hroom.
  assert (E : filter_grib_layers grbs [] w
              = (Ok (collapse grbs),
                 {| stdout := stdout w ++ [count_line (List.length grbs)];
                    stdout_room := option_map Nat.pred (stdout_room w);
                    display := display w;
                    defaults := defaults w |})).
  { unfold filter_grib_layers, bind, lift.
    rewrite select_passing_nil. rewrite print_ok by exact Hroom. reflexivity. }
  rewrite E. cbn [fst snd stdout display].
  split; [|split; [|split; reflexivity]].
  - intros Hlen.
    destruct grbs as [|a [|b l]]; try reflexivity.
    contradiction Hlen. reflexivity.
  - intros grb ->. reflexivity.
Qed.

(** ** Opening a file *)

(** C4 (as the code has it): a file that decodes to exactly one message
    opens as that bare message, not as a list of length 1; a file with any
    other number of messages opens as the list.  (With the default step
    interval no message is patched.) *)
Theorem open_grib_collapses_singleton (path : string) (l : list Message) :
  pygrib_open_select path = Ok l ->
  (forall grb, l = [grb] ->
     open_grib (SPath path) default_timestep_interval_mins = Ok (Single grb))
  /\ (List.length l <> 1%nat ->
      open_grib (SPath path) default_timestep_interval_mins = Ok (Layers l)).
Proof.
  intros H. unfold open_grib. rewrite H. simpl. split.
  - intros grb ->. reflexivity.
  - intros Hlen. destruct l as [|a [|b l]]; try reflexivity.
    contradiction Hlen. reflexivity.
Qed.

(** ** The raster extractor *)


Lemma Qltb_true (x y : Q) : Qltb x y = true <-> (x < y)%Q.
Proof.
  unfold Qltb. rewrite negb_true_iff.
  split.
  - intros H. apply Qnot_le_lt. intros Hle.
    apply Qle_bool_iff in Hle. congruence.
  - intros H. destruct (Qle_bool y x) eqn:E; [|reflexivity].
    apply Qle_bool_iff in E. exfalso. exact (Qlt_not_le _ _ H E).
Qed.

Lemma Qltb_false (x y : Q) : Qltb x y = false <-> (y <= x)%Q.
Proof.
  unfold Qltb. rewrite negb_false_iff. apply Qle_bool_iff.
Qed.

Lemma clamp_spec (b nd : Q) (vals : Grid) :
  Forall2 (Forall2 (fun x y => ((x < b)%Q -> y = nd) /\ ((b <= x)%Q -> y = x)))
          vals (clamp b nd vals).
Proof.
  unfold clamp. induction vals as [|row vals IH]; simpl; constructor; [|exact IH].
  clear IH. induction row as [|x row IH]; simpl; constructor; [|exact IH].
  destruct (Qltb x b) eqn:E.
  - apply Qltb_true in E. split; [reflexivity|].
    intros H. exfalso. exact (Qlt_not_le _ _ E H).
  - apply Qltb_false in E. split; [|reflexivity].
    intros H. exfalso. exact (Qlt_not_le _ _ H E).
Qed.

(** C2 (as the code has it): with a non-zero threshold the entries are
    compared with the threshold as signed numbers, not by magnitude: every
    entry below the threshold becomes [nodata], every entry at or above it
    is unchanged; the coordinate grids are returned as read. *)
Theorem raster_clamps_signed_values
  (grb : Message) (nodata_buffer nodata : Q) (vals : Grid) (ll : Grid * Grid) :
  values grb = Ok vals ->
  latlons grb = Ok ll ->
  ~ (nodata_buffer == 0)%Q ->
  exists vals',
    grib_message_to_arrays_raster (Single grb) (Some nodata_buffer) nodata
    = Ok (vals', fst ll, snd ll)
    /\ Forall2 (Forall2 (fun x y =>
                  ((x < nodata_buffer)%Q -> y = nodata)
                  /\ ((nodata_buffer <= x)%Q -> y = x)))
               vals vals'.
Proof.
  intros Hv Hl Hb. exists (clamp nodata_buffer nodata vals). split.
  - unfold grib_message_to_arrays_raster. simpl. rewrite Hv. simpl.
    rewrite Hl. simpl.
    destruct (Qeq_bool nodata_buffer 0) eqn:E; [|reflexivity].
    apply Qeq_bool_iff in E. contradiction.
  - apply clamp_spec.
Qed.

(** ** The filter test on collections *)

Lemma py_eq_scalar (v e : Value) :
  is_array v = false -> is_array e = false -> py_eq v e = Ok (value_eqb v e).
Proof.
  intros Hv He. unfold value_eqb.
  destruct v, e; try discriminate; reflexivity.
Qed.

Lemma py_in_scalar (v : Value) (l : list Value) :
  is_array v = false -> scalars l ->
  exists b, py_in v l = Ok b /\ (b = true <-> member v l).
Proof.
  intros Hv Hl. induction Hl as [|e l He _ IH].
  - exists false. split; [reflexivity|]. split; [discriminate|].
    intros (e & [] & _).
  - simpl. rewrite (py_eq_scalar v e Hv He). simpl.
    destruct (value_eqb v e) eqn:E.
    + exists true. split; [reflexivity|]. split; [|reflexivity].
      intros _. exists e. split; [left; reflexivity|].
      rewrite (py_eq_scalar v e Hv He), E. reflexivity.
    + destruct IH as (b & Hb & Hiff). exists b. split; [exact Hb|].
      rewrite Hiff. split.
      * intros (x & Hx & Hxe). exists x. split; [right; exact Hx|exact Hxe].
      * intros (x & [Hx|Hx] & Hxe).
        -- subst x. rewrite (py_eq_scalar v e Hv He), E in Hxe. discriminate.
        -- exists x. split; assumption.
Qed.

(** C7 (as the code has it): the membership test is applied to a filter
    value that is a [list]: a message whose attribute reads as a scalar
    passes the entry exactly when the attribute equals some element of the
    list.  A set is not a [list]; it is compared with the attribute as a
    whole, and no scalar attribute passes it, whatever the set holds. *)
Theorem list_filter_is_membership
  (grb : Message) (key : string) (v : Value) (l s : list Value) :
  getitem grb key = Ok v ->
  is_array v = false ->
  scalars l ->
  (exists b, passes_filters [(key, FList l)] grb = Ok b
             /\ (b = true <-> member v l))
  /\ passes_filters [(key, FSet s)] grb = Ok false.
Proof.
  intros Hget Hv Hl. split.
  - destruct (py_in_scalar v l Hv Hl) as (b & Hb & Hiff).
    exists b. split; [|exact Hiff].
    simpl. rewrite Hget. simpl. rewrite Hb. simpl. destruct b; reflexivity.
  - simpl. rewrite Hget. simpl. rewrite Hv. reflexivity.
Qed.

(** ** The display limits *)

Lemma print_full_df_outcome (x : DataFrame) (w : World) :
  match stdout_room w with
  | Some O =>
      fst (print_full_df x w) = Raise (IOError "Broken pipe")
      /\ display (snd (print_full_df x w)) = widened x
  | _ =>
      fst (print_full_df x w) = Ok tt
      /\ display (snd (print_full_df x w)) = defaults w
  end
  /\ defaults (snd (print_full_df x w)) = defaults w.
Proof.
  unfold print_full_df, bind, set_max_rows, set_max_columns, reset_max_rows,
    reset_max_columns, with_display, print, widened.
  destruct w as [out room disp dflt]. simpl.
  destruct room as [[|n]|]; simpl; repeat split; destruct dflt; reflexivity.
Qed.

Lemma keeps_display_defaults {A : Type} (m : M A) :
  keeps_display m -> keeps_defaults m.
Proof. intros H w a w' E. exact (proj2 (H w a w' E)). Qed.

Lemma resets_display_defaults {A : Type} (m : M A) :
  resets_display m -> keeps_defaults m.
Proof. intros H w a w' E. exact (proj2 (H w a w' E)). Qed.

Lemma keeps_display_ret {A : Type} (a : A) : keeps_display (ret a).
Proof. intros w a' w' E. injection E as _ <-. split; reflexivity. Qed.

Lemma keeps_display_print (p : Printed) : keeps_display (print p).
Proof.
  intros w a w' E. unfold print in E.
  destruct (stdout_room w) as [[|n]|]; try discriminate;
    injection E as _ <-; split; reflexivity.
Qed.

Lemma keeps_display_bind {A B : Type} (m : M A) (k : A -> M B) :
  keeps_display m -> (forall a, keeps_display (k a)) -> keeps_display (bind m k).
Proof.
  intros Hm Hk w b w' E. unfold bind in E.
  destruct (m w) as [[a|e] w1] eqn:E1; [|discriminate].
  destruct (Hm w a w1 E1) as [D1 F1]. destruct (Hk a w1 b w' E) as [D2 F2].
  split; congruence.
Qed.

Lemma keeps_display_bind_lift {A B : Type} (r : result A) (k : A -> M B) :
  (forall a, keeps_display (k a)) -> keeps_display (bind (lift r) k).
Proof.
  intros Hk w b w' E. unfold bind, lift in E.
  destruct r as [a|e]; [|discriminate]. exact (Hk a w b w' E).
Qed.

Lemma keeps_display_print_all (ps : list Printed) : keeps_display (print_all ps).
Proof.
  induction ps as [|p ps IH]; simpl.
  - apply keeps_display_ret.
  - apply keeps_display_bind; [apply keeps_display_print|intros _; exact IH].
Qed.

Lemma resets_display_print_full_df (x : DataFrame) :
  resets_display (print_full_df x).
Proof.
  intros w a w' E. pose proof (print_full_df_outcome x w) as [H F].
  rewrite E in H, F. simpl in H, F. split; [|exact F].
  destruct (stdout_room w) as [[|n]|]; destruct H as [H1 H2];
    try discriminate H1; exact H2.
Qed.

(** Whatever runs first, a run that ends by resetting leaves the
    defaults. *)
Lemma resets_display_after {A B : Type} (m : M A) (k : A -> M B) :
  keeps_defaults m -> (forall a, resets_display (k a)) ->
  resets_display (bind m k).
Proof.
  intros Hm Hk w b w' E. unfold bind in E.
  destruct (m w) as [[a|e] w1] eqn:E1; [|discriminate].
  pose proof (Hm w a w1 E1) as F1. destruct (Hk a w1 b w' E) as [D2 F2].
  split; congruence.
Qed.

Lemma resets_display_after_lift {A B : Type} (r : result A) (k : A -> M B) :
  (forall a, resets_display (k a)) -> resets_display (bind (lift r) k).
Proof.
  intros Hk w b w' E. unfold bind, lift in E.
  destruct r as [a|e]; [|discriminate]. exact (Hk a w b w' E).
Qed.

Lemma resets_display_then_keeps {A B : Type} (m : M A) (k : A -> M B) :
  resets_display m -> (forall a, keeps_display (k a)) ->
  resets_display (bind m k).
Proof.
  intros Hm Hk w b w' E. unfold bind in E.
  destruct (m w) as [[a|e] w1] eqn:E1; [|discriminate].
  destruct (Hm w a w1 E1) as [D1 F1]. destruct (Hk a w1 b w' E) as [D2 F2].
  split; congruence.
Qed.

Ltac keeps_step :=
  first [ apply keeps_display_print
        | apply keeps_display_ret
        | apply keeps_display_print_all
        | apply keeps_display_bind_lift; intros ?
        | apply keeps_display_bind; [|intros ?] ].

Lemma report_resets_display (path : string) :
  resets_display (print_grib_content_report (SPath path)).
Proof.
  unfold print_grib_content_report.
  do 3 (apply resets_display_after_lift; intros ?).
  do 4 (apply resets_display_after;
        [apply keeps_display_defaults, keeps_display_print|intros _]).
  apply resets_display_after.
  { apply keeps_display_defaults.
    destruct (in_index "dataDate" _ && in_index "dataTime" _)%bool;
      repeat keeps_step. }
  intros _. apply resets_display_after.
  { apply keeps_display_defaults.
    destruct (in_index "Nx" _ && in_index "Nx" _)%bool; repeat keeps_step. }
  intros _. apply resets_display_after_lift. intros n.
  apply resets_display_after;
    [apply keeps_display_defaults, keeps_display_print|intros _].
  apply resets_display_after.
  { apply keeps_display_defaults.
    destruct (in_index "name" _); repeat keeps_step. }
  intros _.
  do 4 (apply resets_display_after;
        [apply keeps_display_defaults, keeps_display_print|intros _]).
  apply resets_display_after_lift. intros x.
  apply resets_display_after;
    [apply resets_display_defaults, resets_display_print_full_df|intros _].
  do 4 (apply resets_display_after;
        [apply keeps_display_defaults, keeps_display_print|intros _]).
  apply resets_display_then_keeps; [apply resets_display_print_full_df|intros _].
  repeat keeps_step.
Qed.

(** C8 (as the code has it): [print_full_df] sets the two limits to the
    size of the table and prints; when the print succeeds the limits are
    then reset to the defaults pandas registered, whatever they were
    before the call; when the print raises, the exception leaves the
    function at once and the limits stay as set.  So a report that
    completes leaves the limits at the registered defaults. *)
Theorem display_limits_after_rendering
  (x : DataFrame) (w : World) (path : string) (v v' : World) :
  print_grib_content_report (SPath path) v = (Ok tt, v') ->
  match stdout_room w with
  | Some O =>
      fst (print_full_df x w) = Raise (IOError "Broken pipe")
      /\ display (snd (print_full_df x w)) = widened x
  | _ =>
      fst (print_full_df x w) = Ok tt
      /\ display (snd (print_full_df x w)) = defaults w
  end
  /\ display v' = defaults v.
Proof.
  intros Hrun. split.
  - exact (proj1 (print_full_df_outcome x w)).
  - exact (proj1 (report_resets_display path v tt v' Hrun)).
Qed.

(** ** The report *)

(** C9 (what the code does on a list of messages): the report reads the
    unbound name [grbfile] as soon as its argument is not a path, so on
    every list of messages, and on a bare message, it raises [NameError]
    before a table is built or a line is printed.  This is so for the list
    of [grb_tp] and [grb_bare], where [shortName] reads on the first and
    fails to read on the second. *)
Theorem report_on_messages_raises_NameError :
  (forall (g : Grbs) (w : World),
     print_grib_content_report (SGrbs g) w = (Raise (NameError "grbfile"), w))
  /\ getitem grb_tp "shortName" = Ok (VStr "tp")
  /\ getitem grb_bare "shortName" = Raise RuntimeError
  /\ print_grib_content_report (SGrbs (Layers [grb_tp; grb_bare])) world0
     = (Raise (NameError "grbfile"), world0).
Proof.
  repeat split.
Qed.

Lemma distinct_values_all_none (seen : list Value) (row : list Cell) :
  Forall (eq None) row -> distinct_values seen row = seen.
Proof.
  induction 1 as [|c row Hc _ IH]; simpl.
  - reflexivity.
  - subst c. exact IH.
Qed.

Lemma nunique_all_none (row : list Cell) :
  Forall (eq None) row -> nunique row = 0%nat.
Proof.
  intros H. unfold nunique. rewrite distinct_values_all_none by exact H.
  reflexivity.
Qed.

Lemma in_select_rows_index (keep : list Cell -> bool) (df : DataFrame) (l : Label) :
  In l (df_index (select_rows keep df)) ->
  exists row, In (l, row) (labelled_rows df) /\ keep row = true.
Proof.
  unfold select_rows, labelled_rows. simpl. intros H.
  apply in_map_iff in H. destruct H as ([l' row] & Hl & Hin). simpl in Hl. subst l'.
  apply filter_In in Hin. destruct Hin as [Hin Hk]. exists row. split; assumption.
Qed.

Lemma in_insert_row (r x : Label * list Cell) (rows : list (Label * list Cell)) :
  In x (insert_row r rows) -> x = r \/ In x rows.
Proof.
  induction rows as [|r' rows IH]; simpl.
  - intros [H|[]]. left. symmetry. exact H.
  - destruct (label_leb (fst r) (fst r')); simpl.
    + intros [H|H]; [left; symmetry; exact H|right; exact H].
    + intros [H|H]; [right; left; exact H|].
      destruct (IH H) as [H'|H']; [left; exact H'|right; right; exact H'].
Qed.

Lemma in_sorted_rows (x : Label * list Cell) (rows : list (Label * list Cell)) :
  In x (fold_right insert_row [] rows) -> In x rows.
Proof.
  induction rows as [|r rows IH]; simpl.
  - intros [].
  - intros H. destruct (in_insert_row _ _ _ H) as [H'|H'].
    + left. symmetry. exact H'.
    + right. exact (IH H').
Qed.

Lemma in_sort_index (df : DataFrame) (l : Label) :
  In l (df_index (sort_index df)) -> In l (df_index df).
Proof.
  unfold sort_index. simpl. intros H.
  apply in_map_iff in H. destruct H as ([l' row] & Hl & Hin). simpl in Hl. subst l'.
  apply in_sorted_rows in Hin. apply in_combine_l in Hin. exact Hin.
Qed.

Lemma null_label_not_same (df : DataFrame) (l : Label) :
  (forall row, In (l, row) (labelled_rows df) -> Forall (eq None) row) ->
  ~ In l (df_index (df_same_of df)).
Proof.
  intros Hnull H. unfold df_same_of in H. apply in_sort_index in H.
  apply in_select_rows_index in H. destruct H as (row & Hin & Hk).
  rewrite (nunique_all_none row (Hnull row Hin)) in Hk. discriminate.
Qed.

Lemma null_label_not_unique (df : DataFrame) (l : Label) :
  (forall row, In (l, row) (labelled_rows df) -> Forall (eq None) row) ->
  ~ In l (df_columns (df_unique_of df)).
Proof.
  intros Hnull H.
  change (df_columns (df_unique_of df))
    with (df_index (select_rows (fun row => (1 <? nunique row)%nat) df)) in H.
  apply in_select_rows_index in H. destruct H as (row & Hin & Hk).
  rewrite (nunique_all_none row (Hnull row Hin)) in Hk. discriminate.
Qed.

Lemma first_column_index (df x : DataFrame) :
  first_column df = Ok x -> df_index x = df_index df.
Proof.
  unfold first_column. destruct (df_columns df); [discriminate|].
  intros H. injection H as <-. reflexivity.
Qed.

(** *** What a run of the report prints *)

Lemma prints_only_ret {A : Type} (P : Printed -> Prop) (a : A) :
  prints_only P (ret a).
Proof.
  intros w a' w' H. injection H as _ <-. exists []. split.
  - symmetry. apply app_nil_r.
  - constructor.
Qed.

Lemma prints_only_print (P : Printed -> Prop) (p : Printed) :
  P p -> prints_only P (print p).
Proof.
  intros HP w a w' H. unfold print in H.
  destruct (stdout_room w) as [[|n]|]; try discriminate;
    injection H as _ <-; exists [p]; split; try reflexivity;
    constructor; [exact HP|constructor|exact HP|constructor].
Qed.

Lemma prints_only_with_display (P : Printed -> Prop) (f : Options -> Options) :
  prints_only P (with_display f).
Proof.
  intros w a w' H. injection H as _ <-. exists []. split.
  - symmetry. apply app_nil_r.
  - constructor.
Qed.

Lemma prints_only_bind {A B : Type} (P : Printed -> Prop) (m : M A) (k : A -> M B) :
  prints_only P m -> (forall a, prints_only P (k a)) -> prints_only P (bind m k).
Proof.
  intros Hm Hk w b w' H. unfold bind in H.
  destruct (m w) as [[a|e] w1] eqn:E; [|discriminate].
  destruct (Hm w a w1 E) as (n1 & E1 & F1).
  destruct (Hk a w1 b w' H) as (n2 & E2 & F2).
  exists (n1 ++ n2)%list. split.
  - rewrite E2, E1. symmetry. apply app_assoc.
  - apply Forall_app. split; assumption.
Qed.

Lemma prints_only_bind_lift {A B : Type} (P : Printed -> Prop)
  (r : result A) (k : A -> M B) :
  (forall a, r = Ok a -> prints_only P (k a)) -> prints_only P (bind (lift r) k).
Proof.
  intros Hk w b w' H. unfold bind, lift in H.
  destruct r as [a|e]; [|discriminate].
  exact (Hk a eq_refl w b w' H).
Qed.

Lemma prints_only_print_all (P : Printed -> Prop) (ps : list Printed) :
  Forall P ps -> prints_only P (print_all ps).
Proof.
  induction 1 as [|p ps Hp _ IH]; simpl.
  - apply prints_only_ret.
  - apply prints_only_bind; [apply prints_only_print; exact Hp|intros _; exact IH].
Qed.

Lemma prints_only_print_full_df (P : Printed -> Prop) (x : DataFrame) :
  P (PFrame x) -> prints_only P (print_full_df x).
Proof.
  intros HP. unfold print_full_df.
  repeat (apply prints_only_bind; [|intros _]);
    try apply prints_only_with_display.
  - apply prints_only_print. exact HP.
  - intros w a w' H. unfold reset_max_rows in H.
    exact (prints_only_with_display P _ w a w' H).
  - intros w a w' H. unfold reset_max_columns in H.
    exact (prints_only_with_display P _ w a w' H).
Qed.

Lemma report_prints_frames (path : string) (grbs : Grbs) (df : DataFrame) :
  open_grib (SPath path) default_timestep_interval_mins = Ok grbs ->
  build_table grbs = Ok df ->
  prints_only (report_frame df) (print_grib_content_report (SPath path)).
Proof.
  intros Hopen Htable. unfold print_grib_content_report.
  apply prints_only_bind_lift. intros grbs' E.
  rewrite Hopen in E. injection E as <-.
  apply prints_only_bind_lift. intros df' E.
  rewrite Htable in E. injection E as <-.
  apply prints_only_bind_lift. intros g0 _.
  repeat (apply prints_only_bind; [solve [apply prints_only_print; exact I]|intros _]).
  apply prints_only_bind.
  { destruct (in_index "dataDate" df && in_index "dataTime" df)%bool;
      [|apply prints_only_ret].
    do 2 (apply prints_only_bind_lift; intros ? _).
    apply prints_only_print. exact I. }
  intros _. apply prints_only_bind.
  { destruct (in_index "Nx" df && in_index "Nx" df)%bool;
      [|apply prints_only_ret].
    do 2 (apply prints_only_bind_lift; intros ? _).
    apply prints_only_print. exact I. }
  intros _. apply prints_only_bind_lift. intros n _.
  apply prints_only_bind; [apply prints_only_print; exact I|intros _].
  apply prints_only_bind.
  { destruct (in_index "name" df); [|apply prints_only_ret].
    apply prints_only_bind; [apply prints_only_print; exact I|intros _].
    apply prints_only_bind_lift. intros cells _.
    apply prints_only_print_all. apply Forall_forall.
    intros p Hp. apply in_map_iff in Hp. destruct Hp as (kv & <- & _). exact I. }
  intros _.
  repeat (apply prints_only_bind; [solve [apply prints_only_print; exact I]|intros _]).
  apply prints_only_bind_lift. intros x Ex.
  apply prints_only_bind.
  { apply prints_only_print_full_df. left. exact Ex. }
  intros _.
  repeat (apply prints_only_bind; [solve [apply prints_only_print; exact I]|intros _]).
  apply prints_only_bind.
  { apply prints_only_print_full_df. right. reflexivity. }
  intros _.
  repeat (apply prints_only_bind; [solve [apply prints_only_print; exact I]|intros _]).
  apply prints_only_print. exact I.
Qed.

(** C10: a row of the report's table whose cells are null for every
    message has no distinct value, so it is selected neither for the
    common section (exactly one distinct value) nor for the per-layer
    section (more than one): its label is no row of the first table the
    report prints and no column of the second, and these two are the only
    tables printed. *)
Theorem null_rows_appear_in_neither_section
  (path : string) (grbs : Grbs) (df : DataFrame) (l : Label) (w w' : World) :
  open_grib (SPath path) default_timestep_interval_mins = Ok grbs ->
  build_table grbs = Ok df ->
  (forall row, In (l, row) (labelled_rows df) -> Forall (eq None) row) ->
  print_grib_content_report (SPath path) w = (Ok tt, w') ->
  (forall row, In (l, row) (labelled_rows df) -> nunique row = 0%nat)
  /\ ~ In l (df_index (df_same_of df))
  /\ ~ In l (df_columns (df_unique_of df))
  /\ exists new,
       stdout w' = (stdout w ++ new)%list
       /\ forall x, In (PFrame x) new ->
            (first_column (df_same_of df) = Ok x /\ ~ In l (df_index x))
            \/ (x = df_unique_of df /\ ~ In l (df_columns x)).
Proof.
  intros Hopen Htable Hnull Hrun.
  pose proof (null_label_not_same df l Hnull) as Hs.
  pose proof (null_label_not_unique df l Hnull) as Hu.
  split; [intros row Hin; apply nunique_all_none; exact (Hnull row Hin)|].
  split; [exact Hs|]. split; [exact Hu|].
  destruct (report_prints_frames path grbs df Hopen Htable w tt w' Hrun)
    as (new & Enew & Fnew).
  exists new. split; [exact Enew|].
  intros x Hx. rewrite Forall_forall in Fnew. specialize (Fnew _ Hx).
  simpl in Fnew. destruct Fnew as [Hx1|Hx2].
  - left. split; [exact Hx1|]. rewrite (first_column_index _ _ Hx1). exact Hs.
  - right. split; [exact Hx2|]. subst x. exact Hu.
Qed.

(** ** The temporal resolver *)

(** *** The backtracking matcher *)

Lemma match_alt_sound (alt : Alternative) (s m rest : string) :
  match_alt alt s = Some (m, rest) ->
  s = m ++ rest /\ String.length m = List.length alt
  /\ match_alt alt m = Some (m, EmptyString).
Proof.
  revert s m rest. induction alt as [|cls alt IH]; intros s m rest H; simpl in H.
  - injection H as <- <-. repeat split.
  - destruct s as [|c s]; [discriminate|].
    destruct (cls c) eqn:Ec; [|discriminate].
    destruct (match_alt alt s) as [[m' rest']|] eqn:E; [|discriminate].
    injection H as <- <-.
    destruct (IH _ _ _ E) as (Hs & Hl & Hm). repeat split.
    + simpl. rewrite <- Hs. reflexivity.
    + simpl. rewrite Hl. reflexivity.
    + simpl. rewrite Ec, Hm. reflexivity.
Qed.

Lemma try_alts_sound (k : string -> option (list string * string))
  (alts : Directive) (s : string) (ms : list string) (r : string) :
  try_alts k alts s = Some (ms, r) ->
  exists alt m rest ms',
    In alt alts /\ match_alt alt s = Some (m, rest)
    /\ k rest = Some (ms', r) /\ ms = m :: ms'.
Proof.
  induction alts as [|alt alts IH]; simpl; [discriminate|].
  intros H.
  assert (Hnext : try_alts k alts s = Some (ms, r) ->
                  exists alt0 m rest ms',
                    (alt = alt0 \/ In alt0 alts)
                    /\ match_alt alt0 s = Some (m, rest)
                    /\ k rest = Some (ms', r) /\ ms = m :: ms').
  { intros H'. destruct (IH H') as (a & m & rest & ms' & Hin & Hrest).
    exists a, m, rest, ms'. split; [right; exact Hin|exact Hrest]. }
  destruct (match_alt alt s) as [[m rest]|] eqn:E; [|exact (Hnext H)].
  destruct (k rest) as [[ms' r']|] eqn:Ek; [|exact (Hnext H)].
  injection H as <- <-. exists alt, m, rest, ms'.
  repeat split; [left; reflexivity|exact E|exact Ek].
Qed.

Lemma try_alts_first (k : string -> option (list string * string))
  (alts : Directive) (s m rest : string) (ms : list string) (r : string) :
  first_match alts s = Some (m, rest) ->
  k rest = Some (ms, r) ->
  try_alts k alts s = Some (m :: ms, r).
Proof.
  intros Hf Hk. induction alts as [|alt alts IH]; simpl in *; [discriminate|].
  destruct (match_alt alt s) as [[m' rest']|].
  - injection Hf as -> ->. rewrite Hk. reflexivity.
  - exact (IH Hf).
Qed.

Lemma first_match_m (a b : ascii) (r : string) :
  two_m a b = true -> first_match re_m (String a (String b r)) = Some (two a b, r).
Proof.
  unfold two_m, re_m, first_match, match_alt, two.
  destruct (Ascii.eqb "1" a), (in_range "0" "2" b), (Ascii.eqb "0" a),
    (in_range "1" "9" b); simpl; intros H; try discriminate; reflexivity.
Qed.

Lemma first_match_d (a b : ascii) (r : string) :
  two_d a b = true -> first_match re_d (String a (String b r)) = Some (two a b, r).
Proof.
  unfold two_d, re_d, first_match, match_alt, two.
  destruct (Ascii.eqb "3" a), (in_range "0" "1" b), (in_range "1" "2" a),
    (is_digit b), (Ascii.eqb "0" a), (in_range "1" "9" b);
    simpl; intros H; try discriminate; reflexivity.
Qed.

Lemma first_match_H (a b : ascii) (r : string) :
  two_H a b = true -> first_match re_H (String a (String b r)) = Some (two a b, r).
Proof.
  unfold two_H, re_H, first_match, match_alt, two.
  destruct (Ascii.eqb "2" a), (in_range "0" "3" b), (in_range "0" "1" a),
    (is_digit b); simpl; intros H; try discriminate; reflexivity.
Qed.

Lemma first_match_M (a b : ascii) (r : string) :
  two_M a b = true -> first_match re_M (String a (String b r)) = Some (two a b, r).
Proof.
  unfold two_M, re_M, first_match, match_alt, two.
  destruct (in_range "0" "5" a), (is_digit b);
    simpl; intros H; try discriminate; reflexivity.
Qed.

(** *** Facts about characters, checked on all of them *)

Lemma in_all_ascii (c : ascii) : In c all_ascii.
Proof.
  rewrite <- (ascii_nat_embedding c). unfold all_ascii.
  apply in_map. apply in_seq. pose proof (nat_ascii_bounded c). lia.
Qed.

Lemma forall_ascii_true (P : ascii -> bool) :
  forall_ascii P = true -> forall c, P c = true.
Proof.
  unfold forall_ascii. rewrite forallb_forall.
  intros H c. apply H. apply in_all_ascii.
Qed.

Lemma forall_ascii2_true (P : ascii -> ascii -> bool) :
  forall_ascii2 P = true -> forall a b, P a b = true.
Proof.
  intros H a b. unfold forall_ascii2 in H.
  apply (forall_ascii_true (P a)). apply (forall_ascii_true _ H).
Qed.

Lemma class_is_digit (c : ascii) :
  (in_range "0" "1" c || in_range "0" "2" c || in_range "0" "3" c
   || in_range "0" "5" c || in_range "1" "2" c || in_range "1" "9" c)%bool = true ->
  is_digit c = true.
Proof.
  intros H.
  assert (E : forall_ascii
    (fun c => implb (in_range "0" "1" c || in_range "0" "2" c
                     || in_range "0" "3" c || in_range "0" "5" c
                     || in_range "1" "2" c || in_range "1" "9" c)
                    (is_digit c)) = true)
    by (vm_compute; reflexivity).
  pose proof (forall_ascii_true _ E c) as A. clear E.
  simpl in A. rewrite H in A. exact A.
Qed.

Lemma digit_not_space (c : ascii) :
  is_digit c = true -> is_space c = false /\ Ascii.eqb c " " = false.
Proof.
  intros H.
  assert (E : forall_ascii
    (fun c => implb (is_digit c) (negb (is_space c) && negb (Ascii.eqb c " "))) = true)
    by (vm_compute; reflexivity).
  pose proof (forall_ascii_true _ E c) as A. clear E.
  simpl in A. rewrite H in A. simpl in A.
  apply andb_true_iff in A. destruct A as [A B].
  split; apply negb_true_iff; assumption.
Qed.

Lemma two_digits (a b : ascii) :
  (two_m a b || two_d a b || two_H a b || two_M a b)%bool = true ->
  is_digit a = true /\ is_digit b = true.
Proof.
  intros H.
  assert (E : forall_ascii2
    (fun a b => implb (two_m a b || two_d a b || two_H a b || two_M a b)
                      (is_digit a && is_digit b)) = true)
    by (vm_compute; reflexivity).
  pose proof (forall_ascii2_true _ E a b) as A. clear E.
  simpl in A. rewrite H in A. apply andb_true_iff in A. exact A.
Qed.

Lemma is_digit_in (c : ascii) : is_digit c = true -> In c digit_chars.
Proof.
  intros H.
  assert (E : forall_ascii
    (fun c => implb (is_digit c) (existsb (Ascii.eqb c) digit_chars)) = true)
    by (vm_compute; reflexivity).
  pose proof (forall_ascii_true _ E c) as A. clear E.
  cbv beta in A. rewrite H in A.
  change (existsb (Ascii.eqb c) digit_chars = true) in A.
  apply existsb_exists in A. destruct A as (d & Hd & Hcd).
  apply Ascii.eqb_eq in Hcd. subst d. exact Hd.
Qed.

(** The two-character alternatives accept exactly the two-digit numbers of
    the field's range. *)
Lemma two_ranges (a b : ascii) :
  is_digit a = true -> is_digit b = true ->
  let v := digits_value 0 (two a b) in
  two_m a b = ((1 <=? v) && (v <=? 12))%bool
  /\ two_d a b = ((1 <=? v) && (v <=? 31))%bool
  /\ two_H a b = ((0 <=? v) && (v <=? 23))%bool
  /\ two_M a b = ((0 <=? v) && (v <=? 59))%bool.
Proof.
  intros Ha Hb.
  assert (E : forallb (fun a => forallb (fun b =>
       let v := digits_value 0 (two a b) in
       (Bool.eqb (two_m a b) ((1 <=? v) && (v <=? 12))
        && Bool.eqb (two_d a b) ((1 <=? v) && (v <=? 31))
        && Bool.eqb (two_H a b) ((0 <=? v) && (v <=? 23))
        && Bool.eqb (two_M a b) ((0 <=? v) && (v <=? 59)))%bool)
       digit_chars) digit_chars = true)
    by (vm_compute; reflexivity).
  rewrite forallb_forall in E. specialize (E a (is_digit_in a Ha)).
  rewrite forallb_forall in E. specialize (E b (is_digit_in b Hb)).
  cbv zeta in *.
  repeat (apply andb_true_iff in E; destruct E as [E ?]).
  repeat split; apply Bool.eqb_prop; assumption.
Qed.

(** *** What a match of the format consists of *)

Lemma shape_of_two_alt (cls1 cls2 : CharClass) (m : string) :
  match_alt [cls1; cls2] m = Some (m, EmptyString) ->
  exists a b, m = two a b /\ cls1 a = true /\ cls2 b = true.
Proof.
  destruct m as [|a [|b m]]; simpl; try discriminate.
  - destruct (cls1 a); discriminate.
  - destruct (cls1 a) eqn:Ea; [|discriminate].
    destruct (cls2 b) eqn:Eb; [|discriminate].
    intros H. injection H as _ H. subst m. exists a, b.
    split; [reflexivity|]. split; assumption.
Qed.

Lemma shape_of_one_alt (cls : CharClass) (m : string) :
  match_alt [cls] m = Some (m, EmptyString) ->
  exists a, m = String a EmptyString /\ cls a = true.
Proof.
  destruct m as [|a m]; simpl; try discriminate.
  destruct (cls a) eqn:Ea; [|discriminate].
  intros H. injection H as _ H. subst m. exists a.
  split; [reflexivity|assumption].
Qed.

Ltac split_tests :=
  repeat match goal with
         | |- context [Ascii.eqb ?x ?y] => destruct (Ascii.eqb x y)
         | |- context [in_range ?l ?h ?c] => destruct (in_range l h c)
         | |- context [is_digit ?c] => destruct (is_digit c)
         end;
  reflexivity.

Ltac two_chars Hm unfolding :=
  let a := fresh "a" in
  let b := fresh "b" in
  let Ea := fresh "Ea" in
  let Eb := fresh "Eb" in
  apply shape_of_two_alt in Hm;
  destruct Hm as (a & b & -> & Ea & Eb);
  left; exists a, b; split; [reflexivity|left];
  unfolding; rewrite Ea, Eb; split_tests.

Ltac one_char Hm :=
  let a := fresh "a" in
  let Ea := fresh "Ea" in
  apply shape_of_one_alt in Hm;
  destruct Hm as (a & -> & Ea);
  right; exists a; split; [reflexivity|];
  first [exact Ea | apply class_is_digit; rewrite Ea; split_tests].

Ltac open_directive H :=
  let alt := fresh "alt" in
  let m := fresh "m" in
  let rest := fresh "rest" in
  let ms' := fresh "ms'" in
  let Hin := fresh "Hin" in
  let Hm := fresh "Hm" in
  let Hk := fresh "Hk" in
  let Hs := fresh "Hs" in
  apply try_alts_sound in H;
  destruct H as (alt & m & rest & ms' & Hin & Hm & Hk & ->);
  apply match_alt_sound in Hm; destruct Hm as (Hs & _ & Hm);
  exists m, rest, ms'; split; [reflexivity|]; split; [exact Hs|];
  split; [exact Hk|]; clear Hs Hk; revert Hin Hm.

Lemma directive_Y (k : string -> option (list string * string))
  (s : string) (ms : list string) (r : string) :
  try_alts k re_Y s = Some (ms, r) ->
  exists m rest ms',
    ms = m :: ms' /\ s = m ++ rest /\ k rest = Some (ms', r)
    /\ (String.length m = 4%nat /\ all_digits m = true).
Proof.
  intros H. open_directive H. intros Hin Hm.
  destruct Hin as [<-|[]].
  destruct m as [|a [|b [|c [|d m]]]]; simpl in Hm;
    repeat match type of Hm with
           | context [if is_digit ?x then _ else _] =>
               destruct (is_digit x) eqn:?
           end; try discriminate.
  injection Hm as Hm. rewrite <- Hm. simpl.
  repeat match goal with E : is_digit _ = true |- _ => rewrite E; clear E end.
  split; reflexivity.
Qed.

Lemma directive_m (k : string -> option (list string * string))
  (s : string) (ms : list string) (r : string) :
  try_alts k re_m s = Some (ms, r) ->
  exists m rest ms',
    ms = m :: ms' /\ s = m ++ rest /\ k rest = Some (ms', r)
    /\ group_shape two_m m.
Proof.
  intros H. open_directive H. intros Hin Hm.
  destruct Hin as [<-|[<-|[<-|[]]]].
  - two_chars Hm ltac:(unfold two_m).
  - two_chars Hm ltac:(unfold two_m).
  - one_char Hm.
Qed.

Lemma directive_d (k : string -> option (list string * string))
  (s : string) (ms : list string) (r : string) :
  try_alts k re_d s = Some (ms, r) ->
  exists m rest ms',
    ms = m :: ms' /\ s = m ++ rest /\ k rest = Some (ms', r)
    /\ group_shape two_d m.
Proof.
  intros H. open_directive H. intros Hin Hm.
  destruct Hin as [<-|[<-|[<-|[<-|[<-|[]]]]]].
  - two_chars Hm ltac:(unfold two_d).
  - two_chars Hm ltac:(unfold two_d).
  - two_chars Hm ltac:(unfold two_d).
  - one_char Hm.
  - apply shape_of_two_alt in Hm. destruct Hm as (a & b & -> & Ea & _).
    left. exists a, b. split; [reflexivity|right].
    apply Ascii.eqb_eq in Ea. symmetry. exact Ea.
Qed.

Lemma directive_H (k : string -> option (list string * string))
  (s : string) (ms : list string) (r : string) :
  try_alts k re_H s = Some (ms, r) ->
  exists m rest ms',
    ms = m :: ms' /\ s = m ++ rest /\ k rest = Some (ms', r)
    /\ group_shape two_H m.
Proof.
  intros H. open_directive H. intros Hin Hm.
  destruct Hin as [<-|[<-|[<-|[]]]].
  - two_chars Hm ltac:(unfold two_H).
  - two_chars Hm ltac:(unfold two_H).
  - one_char Hm.
Qed.

Lemma directive_M (k : string -> option (list string * string))
  (s : string) (ms : list string) (r : string) :
  try_alts k re_M s = Some (ms, r) ->
  exists m rest ms',
    ms = m :: ms' /\ s = m ++ rest /\ k rest = Some (ms', r)
    /\ group_shape two_M m.
Proof.
  intros H. open_directive H. intros Hin Hm.
  destruct Hin as [<-|[<-|[]]].
  - two_chars Hm ltac:(unfold two_M).
  - one_char Hm.
Qed.

Lemma format_inv (s : string) (ms : list string) (r : string) :
  match_seq format_YmdHM s = Some (ms, r) ->
  exists gY gm gd gH gM,
    ms = [gY; gm; gd; gH; gM]
    /\ s = gY ++ gm ++ gd ++ gH ++ gM ++ r
    /\ (String.length gY = 4%nat /\ all_digits gY = true)
    /\ group_shape two_m gm /\ group_shape two_d gd
    /\ group_shape two_H gH /\ group_shape two_M gM.
Proof.
  unfold format_YmdHM. cbn [match_seq]. intros H.
  apply directive_Y in H. destruct H as (gY & r1 & ms1 & -> & -> & H & HY).
  apply directive_m in H. destruct H as (gm & r2 & ms2 & -> & -> & H & Hm).
  apply directive_d in H. destruct H as (gd & r3 & ms3 & -> & -> & H & Hd).
  apply directive_H in H. destruct H as (gH & r4 & ms4 & -> & -> & H & HH).
  apply directive_M in H. destruct H as (gM & r5 & ms5 & -> & -> & H & HM).
  injection H as <- <-.
  exists gY, gm, gd, gH, gM. repeat split; try assumption; apply HY.
Qed.

(** *** Lengths and character sets of concatenations *)

Lemma length_app (s t : string) :
  String.length (s ++ t) = (String.length s + String.length t)%nat.
Proof.
  induction s as [|c s IH]; simpl; [reflexivity|]. rewrite IH. reflexivity.
Qed.

Lemma all_digits_app (s t : string) :
  all_digits (s ++ t) = (all_digits s && all_digits t)%bool.
Proof.
  induction s as [|c s IH]; simpl; [reflexivity|].
  rewrite IH. apply andb_assoc.
Qed.

Lemma no_spaces_app (s t : string) :
  no_spaces (s ++ t) = (no_spaces s && no_spaces t)%bool.
Proof.
  induction s as [|c s IH]; simpl; [reflexivity|].
  rewrite IH. apply andb_assoc.
Qed.

Lemma all_digits_no_spaces (s : string) :
  all_digits s = true -> no_spaces s = true.
Proof.
  induction s as [|c s IH]; simpl; [reflexivity|].
  intros H. apply andb_true_iff in H. destruct H as [Hc Hs].
  destruct (digit_not_space c Hc) as [_ E]. rewrite E. exact (IH Hs).
Qed.

Lemma group_facts (two_ok : ascii -> ascii -> bool) (g : string) :
  (forall a b, two_ok a b = true -> is_digit a = true /\ is_digit b = true) ->
  group_shape two_ok g ->
  (String.length g <= 2)%nat /\ (no_spaces g = true -> all_digits g = true).
Proof.
  intros Hok [(a & b & -> & [H|H])|(a & -> & H)]; simpl.
  - destruct (Hok a b H) as [Ha Hb]. rewrite Ha, Hb. split; [lia|reflexivity].
  - subst a. simpl. split; [lia|discriminate].
  - rewrite H. split; [lia|reflexivity].
Qed.

Lemma two_m_digits (a b : ascii) :
  two_m a b = true -> is_digit a = true /\ is_digit b = true.
Proof.
  intros H. apply two_digits. rewrite H.
  destruct (two_m a b), (two_d a b), (two_H a b), (two_M a b); reflexivity.
Qed.

Lemma two_d_digits (a b : ascii) :
  two_d a b = true -> is_digit a = true /\ is_digit b = true.
Proof.
  intros H. apply two_digits. rewrite H.
  destruct (two_m a b), (two_d a b), (two_H a b), (two_M a b); reflexivity.
Qed.

Lemma two_H_digits (a b : ascii) :
  two_H a b = true -> is_digit a = true /\ is_digit b = true.
Proof.
  intros H. apply two_digits. rewrite H.
  destruct (two_m a b), (two_d a b), (two_H a b), (two_M a b); reflexivity.
Qed.

Lemma two_M_digits (a b : ascii) :
  two_M a b = true -> is_digit a = true /\ is_digit b = true.
Proof.
  intros H. apply two_digits. rewrite H.
  destruct (two_m a b), (two_d a b), (two_H a b), (two_M a b); reflexivity.
Qed.

(** A match that leaves nothing over covers at most twelve characters,
    and digits only unless the text has a space. *)
Lemma full_match_bounds (s : string) (ms : list string) :
  match_seq format_YmdHM s = Some (ms, EmptyString) ->
  (String.length s <= 12)%nat /\ (no_spaces s = true -> all_digits s = true).
Proof.
  intros H. apply format_inv in H.
  destruct H as (gY & gm & gd & gH & gM & _ & -> & [LY DY] & Sm & Sd & SH & SM).
  destruct (group_facts _ _ two_m_digits Sm) as [Lm Dm].
  destruct (group_facts _ _ two_d_digits Sd) as [Ld Dd].
  destruct (group_facts _ _ two_H_digits SH) as [LH DH].
  destruct (group_facts _ _ two_M_digits SM) as [LM DM].
  rewrite !length_app, !no_spaces_app, !all_digits_app. simpl.
  split; [lia|].
  rewrite !andb_true_iff. intros (_ & Nm & Nd & NH & NM & _).
  rewrite DY, (Dm Nm), (Dd Nd), (DH NH), (DM NM). repeat split.
Qed.

Lemma strptime_rejects (s : string) :
  no_spaces s = true ->
  (12 <= String.length s)%nat ->
  ((String.length s =? 12)%nat && all_digits s)%bool = false ->
  strptime_YmdHM s = Raise ValueError.
Proof.
  intros Hn Hl Hc. unfold strptime_YmdHM.
  destruct (match_seq format_YmdHM s) as [[ms r]|] eqn:E; [|reflexivity].
  destruct r as [|c r].
  - destruct (full_match_bounds s ms E) as [L D].
    rewrite (D Hn), andb_true_r in Hc. apply Nat.eqb_neq in Hc. lia.
  - destruct ms as [|? [|? [|? [|? [|? [|? ?]]]]]]; reflexivity.
Qed.

Lemma days_in_month_le (y m : Z) : days_in_month y m <= 31.
Proof.
  unfold days_in_month, days_in_month_table.
  destruct ((m =? 2) && is_leap y)%bool; [lia|].
  destruct m as [|p|p]; try lia;
    repeat (destruct p as [p|p|]; try lia).
Qed.

Lemma make_datetime_out_of_range (y m d h mi : Z) :
  (((1 <=? m) && (m <=? 12)) && ((1 <=? d) && (d <=? 31))
   && ((0 <=? h) && (h <=? 23)) && ((0 <=? mi) && (mi <=? 59)))%bool = false ->
  make_datetime y m d h mi = Raise ValueError.
Proof.
  intros H. unfold make_datetime.
  match goal with |- (if ?c then _ else _) = _ => destruct c eqn:C end;
    [exfalso|reflexivity].
  rewrite !andb_true_iff, !Z.leb_le in C.
  pose proof (days_in_month_le y m) as B.
  assert (T : (((1 <=? m) && (m <=? 12)) && ((1 <=? d) && (d <=? 31))
               && ((0 <=? h) && (h <=? 23)) && ((0 <=? mi) && (mi <=? 59)))%bool
              = true).
  { rewrite !andb_true_iff, !Z.leb_le. lia. }
  congruence.
Qed.

Lemma group_int_digits (c : ascii) (s : string) :
  is_digit c = true -> group_int (String c s) = digits_value 0 (String c s).
Proof.
  intros H. unfold group_int. simpl lstrip.
  destruct (digit_not_space c H) as [E _]. rewrite E. reflexivity.
Qed.

(** When the four fields are acceptable two-digit texts, the first match
    the search finds takes two characters for each. *)
Lemma match_seq_two_each (c1 c2 c3 c4 c5 c6 c7 c8 c9 c10 c11 c12 : ascii) :
  is_digit c1 = true -> is_digit c2 = true ->
  is_digit c3 = true -> is_digit c4 = true ->
  two_m c5 c6 = true -> two_d c7 c8 = true ->
  two_H c9 c10 = true -> two_M c11 c12 = true ->
  match_seq format_YmdHM
    (String c1 (String c2 (String c3 (String c4 (String c5 (String c6
       (String c7 (String c8 (String c9 (String c10 (String c11 (String c12
          EmptyString))))))))))))
  = Some ([String c1 (String c2 (String c3 (String c4 EmptyString)));
           two c5 c6; two c7 c8; two c9 c10; two c11 c12], EmptyString).
Proof.
  intros D1 D2 D3 D4 Hm Hd HH HM.
  unfold format_YmdHM. cbn [match_seq].
  apply try_alts_first with
    (rest := String c5 (String c6 (String c7 (String c8 (String c9 (String c10
               (String c11 (String c12 EmptyString)))))))).
  { unfold re_Y, first_match, match_alt. rewrite D1, D2, D3, D4. reflexivity. }
  apply try_alts_first with
    (rest := String c7 (String c8 (String c9 (String c10
               (String c11 (String c12 EmptyString)))))).
  { apply first_match_m. exact Hm. }
  apply try_alts_first with
    (rest := String c9 (String c10 (String c11 (String c12 EmptyString)))).
  { apply first_match_d. exact Hd. }
  apply try_alts_first with (rest := String c11 (String c12 EmptyString)).
  { apply first_match_H. exact HH. }
  apply try_alts_first with (rest := EmptyString).
  { apply first_match_M. exact HM. }
  reflexivity.
Qed.

Ltac shape_cases S :=
  let a := fresh "a" in
  let b := fresh "b" in
  let T := fresh "T" in
  destruct S as [(a & b & -> & T)|(a & -> & T)].

(** On twelve digits the search agrees with reading the fields by
    position. *)
Lemma strptime_twelve_digits (s : string) :
  String.length s = 12%nat -> all_digits s = true ->
  strptime_YmdHM s =
  make_datetime (digits_value 0 (substring 0 4 s))
                (digits_value 0 (substring 4 2 s))
                (digits_value 0 (substring 6 2 s))
                (digits_value 0 (substring 8 2 s))
                (digits_value 0 (substring 10 2 s)).
Proof.
  intros L D.
  do 12 (destruct s as [|?c s]; [discriminate L|]).
  destruct s; [clear L|discriminate L].
  simpl in D. rewrite !andb_true_iff in D.
  destruct D as (D1 & D2 & D3 & D4 & D5 & D6 & D7 & D8 & D9 & D10 & D11 & D12 & _).
  cbn [substring].
  set (lhs := strptime_YmdHM _).
  change (String c3 (String c4 EmptyString)) with (two c3 c4).
  change (String c5 (String c6 EmptyString)) with (two c5 c6).
  change (String c7 (String c8 EmptyString)) with (two c7 c8).
  change (String c9 (String c10 EmptyString)) with (two c9 c10).
  destruct (two_ranges c3 c4 D5 D6) as (Rm & _).
  destruct (two_ranges c5 c6 D7 D8) as (_ & Rd & _).
  destruct (two_ranges c7 c8 D9 D10) as (_ & _ & RH & _).
  destruct (two_ranges c9 c10 D11 D12) as (_ & _ & _ & RM).
  cbv zeta in Rm, Rd, RH, RM.
  destruct (two_m c3 c4 && two_d c5 c6 && two_H c7 c8 && two_M c9 c10)%bool eqn:E.
  - rewrite !andb_true_iff in E. destruct E as (((Em & Ed) & EH) & EM).
    subst lhs. unfold strptime_YmdHM.
    rewrite (match_seq_two_each c c0 c1 c2 c3 c4 c5 c6 c7 c8 c9 c10
               D1 D2 D3 D4 Em Ed EH EM).
    unfold two. rewrite !group_int_digits by assumption. reflexivity.
  - rewrite make_datetime_out_of_range
      by (rewrite <- Rm, <- Rd, <- RH, <- RM; exact E).
    subst lhs. unfold strptime_YmdHM.
    match goal with |- context [match_seq ?f ?t] =>
      destruct (match_seq f t) as [[ms r]|] eqn:S; [|reflexivity] end.
    destruct r as [|x r];
      [|destruct ms as [|? [|? [|? [|? [|? [|? ?]]]]]]; reflexivity].
    exfalso. apply format_inv in S.
    destruct S as (gY & gm & gd & gH & gM & _ & S & [LY _] & Sm & Sd & SH & SM).
    do 4 (destruct gY as [|?y gY]; [discriminate LY|]).
    destruct gY; [clear LY|discriminate LY].
    shape_cases Sm; shape_cases Sd; shape_cases SH; shape_cases SM;
      simpl in S; try discriminate S.
    injection S as -> -> -> -> -> -> -> -> -> -> -> ->.
    assert (Em : two_m a b = true).
    { destruct T as [T| ->]; [exact T|discriminate D5]. }
    assert (Ed : two_d a0 b0 = true).
    { destruct T0 as [T0| ->]; [exact T0|discriminate D7]. }
    assert (EH : two_H a1 b1 = true).
    { destruct T1 as [T1| ->]; [exact T1|discriminate D9]. }
    assert (EM : two_M a2 b2 = true).
    { destruct T2 as [T2| ->]; [exact T2|discriminate D11]. }
    rewrite Em, Ed, EH, EM in E. discriminate E.
Qed.

(** The search of [strptime] and the reading by position give the same
    outcome on every text of twelve or more characters without a space. *)
Lemma strptime_is_positional (s : string) :
  no_spaces s = true ->
  (12 <= String.length s)%nat ->
  strptime_YmdHM s = parse_YYYYMMDDHHMM s.
Proof.
  intros Hn Hl. unfold parse_YYYYMMDDHHMM.
  destruct ((String.length s =? 12)%nat && all_digits s)%bool eqn:C.
  - apply andb_true_iff in C. destruct C as [L D].
    apply Nat.eqb_eq in L. exact (strptime_twelve_digits s L D).
  - exact (strptime_rejects s Hn Hl C).
Qed.

(** *** The text of the two attributes *)

Lemma digit_char_in (n : Z) : In (digit_char n) digit_chars.
Proof.
  unfold digit_char.
  destruct (nth_in_or_default (Z.to_nat n) digit_chars "0"%char) as [H|H].
  - exact H.
  - rewrite H. left. reflexivity.
Qed.

Lemma digit_char_is_digit (n : Z) : is_digit (digit_char n) = true.
Proof.
  pose proof (digit_char_in n) as H. unfold digit_chars in H.
  repeat (destruct H as [<-|H]; [reflexivity|]). destruct H.
Qed.

Lemma digit_char_not_sign (n : Z) :
  (Ascii.eqb (digit_char n) "+" || Ascii.eqb (digit_char n) "-")%bool = false.
Proof.
  pose proof (digit_char_in n) as H. unfold digit_chars in H.
  repeat (destruct H as [<-|H]; [reflexivity|]). destruct H.
Qed.

Lemma digit_val_char (n : Z) : 0 <= n <= 9 -> digit_val (digit_char n) = n.
Proof.
  intros H. rewrite <- (Z2Nat.id n) at 2 by lia.
  assert (B : (Z.to_nat n < 10)%nat) by lia.
  unfold digit_char. revert B. generalize (Z.to_nat n). intros k B.
  do 10 (destruct k as [|k]; [reflexivity|]). lia.
Qed.

Lemma digits_of_no_spaces (fuel : nat) (n : Z) (acc : string) :
  no_spaces acc = true -> no_spaces (digits_of fuel n acc) = true.
Proof.
  revert n acc. induction fuel as [|fuel IH]; intros n acc H; simpl.
  - exact H.
  - assert (H' : no_spaces (String (digit_char (n mod 10)) acc) = true).
    { simpl. destruct (digit_not_space _ (digit_char_is_digit (n mod 10))) as [_ E].
      rewrite E. exact H. }
    destruct (n <? 10); [exact H'|]. apply IH. exact H'.
Qed.

Lemma str_int_no_spaces (z : Z) : no_spaces (str_int z) = true.
Proof.
  unfold str_int, str_of_nonneg. destruct (z <? 0); cbn [no_spaces];
    [change (Ascii.eqb "-" " ") with false; cbn [negb andb]|];
    apply digits_of_no_spaces; reflexivity.
Qed.

Lemma zeros_no_spaces (n : nat) : no_spaces (zeros n) = true.
Proof. induction n as [|n IH]; simpl; [reflexivity|exact IH]. Qed.

Lemma zeros_length (n : nat) : String.length (zeros n) = n.
Proof. induction n as [|n IH]; simpl; [reflexivity|]. rewrite IH. reflexivity. Qed.

Lemma zfill_no_spaces (width : nat) (s : string) :
  no_spaces s = true -> no_spaces (zfill width s) = true.
Proof.
  intros H. unfold zfill. destruct (width <=? String.length s)%nat; [exact H|].
  destruct s as [|c r].
  - apply zeros_no_spaces.
  - destruct (Ascii.eqb c "+" || Ascii.eqb c "-")%bool.
    + simpl in *. apply andb_true_iff in H. destruct H as [Hc Hr].
      rewrite Hc, no_spaces_app, zeros_no_spaces, Hr. reflexivity.
    + rewrite no_spaces_app, zeros_no_spaces, H. reflexivity.
Qed.

Lemma zfill_length (width : nat) (s : string) :
  (width <= String.length (zfill width s))%nat.
Proof.
  unfold zfill. destruct (width <=? String.length s)%nat eqn:E.
  - apply Nat.leb_le in E. exact E.
  - apply Nat.leb_gt in E. destruct s as [|c r].
    + rewrite zeros_length. simpl. lia.
    + destruct (Ascii.eqb c "+" || Ascii.eqb c "-")%bool; simpl in *;
        rewrite length_app, zeros_length; simpl; lia.
Qed.

Lemma digits_of_fixed (k fuel : nat) (n : Z) (acc : string) :
  (k < fuel)%nat ->
  10 ^ Z.of_nat k <= n < 10 ^ Z.of_nat (S k) ->
  digits_of fuel n acc = fixed_digits (S k) n acc.
Proof.
  revert fuel n acc. induction k as [|k IH]; intros fuel n acc Hf Hn;
    (destruct fuel as [|fuel]; [lia|]).
  - simpl in *. destruct (n <? 10) eqn:E; [reflexivity|].
    apply Z.ltb_ge in E. lia.
  - cbn [digits_of]. destruct (n <? 10) eqn:E.
    + apply Z.ltb_lt in E. exfalso.
      assert (10 ^ 1 <= 10 ^ Z.of_nat (S k)) by (apply Z.pow_le_mono_r; lia).
      lia.
    + rewrite (IH fuel (n / 10)); [reflexivity|lia|].
      rewrite !Nat2Z.inj_succ, !Z.pow_succ_r in * by lia.
      split.
      * apply Z.div_le_lower_bound; lia.
      * apply Z.div_lt_upper_bound; lia.
Qed.

Lemma str_of_nonneg_fixed (k : nat) (n : Z) :
  10 ^ Z.of_nat k <= n < 10 ^ Z.of_nat (S k) ->
  str_of_nonneg n = fixed_digits (S k) n "".
Proof.
  intros Hn. unfold str_of_nonneg. apply digits_of_fixed; [|exact Hn].
  assert (P : 0 < 10 ^ Z.of_nat k) by (apply Z.pow_pos_nonneg; lia).
  assert (B : 2 ^ Z.of_nat k <= 10 ^ Z.of_nat k) by (apply Z.pow_le_mono_l; lia).
  assert (L : Z.of_nat k <= Z.log2 n) by (apply Z.log2_le_pow2; lia).
  lia.
Qed.

(** An eight-digit date is written with eight digits. *)
Lemma str_int_date (d : Z) :
  10000000 <= d <= 99999999 -> str_int d = fixed_digits 8 d "".
Proof.
  intros H. unfold str_int. destruct (d <? 0) eqn:E; [apply Z.ltb_lt in E; lia|].
  apply (str_of_nonneg_fixed 7). simpl Z.of_nat. lia.
Qed.

Lemma fixed_digits_length (w : nat) (n : Z) (acc : string) :
  String.length (fixed_digits w n acc) = (w + String.length acc)%nat.
Proof.
  revert n acc. induction w as [|w IH]; intros n acc; simpl; [reflexivity|].
  rewrite IH. simpl. lia.
Qed.

Lemma timestamp_text_shape (d t : Z) :
  10000000 <= d <= 99999999 ->
  no_spaces (timestamp_text d t) = true
  /\ (12 <= String.length (timestamp_text d t))%nat.
Proof.
  intros H. unfold timestamp_text. split.
  - rewrite no_spaces_app, str_int_no_spaces.
    apply zfill_no_spaces. apply str_int_no_spaces.
  - rewrite length_app, (str_int_date d H), fixed_digits_length.
    pose proof (zfill_length 4 (str_int t)). simpl. lia.
Qed.

Lemma fixed_digits_app (w : nat) (n : Z) (acc x : string) :
  fixed_digits w n acc ++ x = fixed_digits w n (acc ++ x).
Proof.
  revert n acc. induction w as [|w IH]; intros n acc; simpl; [reflexivity|].
  rewrite IH. reflexivity.
Qed.

Lemma div10_small (n b : Z) : 0 <= n < 10 * b -> 0 <= n / 10 < b.
Proof.
  intros H. split.
  - apply Z.div_pos; lia.
  - apply Z.div_lt_upper_bound; lia.
Qed.

Lemma mod10_bounds (n : Z) : 0 <= n mod 10 <= 9.
Proof. pose proof (Z.mod_pos_bound n 10). lia. Qed.

(** A time of at most four digits is padded to exactly four. *)
Lemma zfill_time (t : Z) :
  0 <= t <= 9999 -> zfill 4 (str_int t) = fixed_digits 4 t "".
Proof.
  intros H. unfold str_int. destruct (t <? 0) eqn:E; [apply Z.ltb_lt in E; lia|].
  clear E.
  assert (C : t = 0 \/ 10 ^ Z.of_nat 0 <= t < 10 ^ Z.of_nat 1
              \/ 10 ^ Z.of_nat 1 <= t < 10 ^ Z.of_nat 2
              \/ 10 ^ Z.of_nat 2 <= t < 10 ^ Z.of_nat 3
              \/ 10 ^ Z.of_nat 3 <= t < 10 ^ Z.of_nat 4) by (simpl; lia).
  destruct C as [->|[C|[C|[C|C]]]]; [reflexivity| | | |];
    rewrite (str_of_nonneg_fixed _ _ C); simpl in C;
    cbn [fixed_digits]; unfold zfill; cbn [String.length Nat.leb Nat.sub zeros];
    rewrite ?digit_char_not_sign; cbn [append].
  - rewrite (Z.div_small t 10) by lia. reflexivity.
  - pose proof (div10_small t 10 ltac:(lia)).
    rewrite (Z.div_small (t / 10) 10) by lia. reflexivity.
  - pose proof (div10_small t 100 ltac:(lia)).
    pose proof (div10_small (t / 10) 10 ltac:(lia)).
    rewrite (Z.div_small (t / 10 / 10) 10) by lia. reflexivity.
  - reflexivity.
Qed.

(** Read by position, the text of the date YYYYMMDD and of the time HHMM
    gives back the five fields. *)
Lemma simulation_time_fields (y mo dd h mi : Z) :
  1000 <= y <= 9999 -> 0 <= mo <= 99 -> 0 <= dd <= 99 ->
  0 <= h <= 99 -> 0 <= mi <= 99 ->
  spec_simulation_time (y * 10000 + mo * 100 + dd) (h * 100 + mi)
  = make_datetime y mo dd h mi.
Proof.
  intros Hy Hmo Hdd Hh Hmi.
  unfold spec_simulation_time, timestamp_text.
  rewrite str_int_date by lia. rewrite zfill_time by lia.
  rewrite fixed_digits_app. cbn [append fixed_digits].
  unfold parse_YYYYMMDDHHMM. cbn [String.length Nat.eqb all_digits].
  rewrite !digit_char_is_digit. cbn [andb substring digits_value].
  rewrite !digit_val_char by apply mod10_bounds.
  f_equal; Z.to_euclidean_division_equations; lia.
Qed.

Lemma simulation_datetime_of_ints (grb : Message) (d t : Z) :
  getitem grb "dataDate" = Ok (VInt d) ->
  getitem grb "dataTime" = Ok (VInt t) ->
  get_grib_layer_simulation_datetime grb = strptime_YmdHM (timestamp_text d t).
Proof.
  intros Hd Ht. unfold get_grib_layer_simulation_datetime.
  rewrite Ht. simpl rbind. rewrite Hd. reflexivity.
Qed.

(** ** The calendar behind the validity time *)

Lemma forall_range_spec (n : nat) (s : Z) (P : Z -> bool) :
  forall_range n s P = true ->
  forall k, s <= k < s + Z.of_nat n -> P k = true.
Proof.
  revert s. induction n as [|n IH]; intros s H k Hk; [lia|].
  cbn [forall_range] in H. apply andb_true_iff in H. destruct H as [H0 H1].
  destruct (Z.eq_dec k s) as [->|Hne]; [exact H0|].
  apply (IH (s + 1) H1). lia.
Qed.

Lemma days_before_year_shift (y q : Z) :
  days_before_year (y + 400 * q) = days_before_year y + 146097 * q.
Proof.
  unfold days_before_year. cbv zeta.
  Z.to_euclidean_division_equations. lia.
Qed.

Lemma is_leap_shift (y q : Z) : is_leap (y + 400 * q) = is_leap y.
Proof.
  unfold is_leap.
  replace ((y + 400 * q) mod 4) with (y mod 4)
    by (Z.to_euclidean_division_equations; lia).
  replace ((y + 400 * q) mod 100) with (y mod 100)
    by (Z.to_euclidean_division_equations; lia).
  replace ((y + 400 * q) mod 400) with (y mod 400)
    by (Z.to_euclidean_division_equations; lia).
  reflexivity.
Qed.

Lemma ymd2ord_shift (y m d q : Z) :
  ymd2ord (y + 400 * q) m d = ymd2ord y m d + 146097 * q.
Proof.
  unfold ymd2ord, days_before_month.
  rewrite days_before_year_shift, is_leap_shift. lia.
Qed.

Lemma days_in_month_shift (y m q : Z) :
  days_in_month (y + 400 * q) m = days_in_month y m.
Proof. unfold days_in_month. rewrite is_leap_shift. reflexivity. Qed.

Lemma ord2ymd_shift (q r : Z) :
  1 <= r <= 146097 ->
  ord2ymd (146097 * q + r)
  = let '(y, m, d) := ord2ymd r in (y + 400 * q, m, d).
Proof.
  intros Hr. unfold ord2ymd.
  replace ((146097 * q + r - 1) / 146097) with q
    by (Z.to_euclidean_division_equations; lia).
  replace ((146097 * q + r - 1) mod 146097) with (r - 1)
    by (Z.to_euclidean_division_equations; lia).
  replace ((r - 1) / 146097) with 0
    by (Z.to_euclidean_division_equations; lia).
  replace ((r - 1) mod 146097) with (r - 1)
    by (Z.to_euclidean_division_equations; lia).
  cbv zeta.
  repeat match goal with
         | |- context [if ?c then _ else _] => destruct c
         end; f_equal; try f_equal; lia.
Qed.

Lemma cycle_ordinals :
  forall_range (Z.to_nat 146097) 1 check_ordinal = true.
Proof. vm_cast_no_check (eq_refl true). Qed.

Lemma cycle_dates :
  forall_range 400 1 (fun y => forall_range 12 1 (fun m =>
    forall_range 31 1 (check_date y m))) = true.
Proof. vm_cast_no_check (eq_refl true). Qed.

Lemma cycle_date (y m d : Z) :
  1 <= y <= 400 -> 1 <= m <= 12 -> 1 <= d <= days_in_month y m ->
  ord2ymd (ymd2ord y m d) = (y, m, d)
  /\ 1 <= ymd2ord y m d <= 146097
  /\ (y <= 399 -> ymd2ord y m d <= 145731).
Proof.
  intros Hy Hm Hd. pose proof (days_in_month_le y m) as B.
  pose proof (forall_range_spec _ _ _ cycle_dates y ltac:(lia)) as H.
  cbv beta in H.
  pose proof (forall_range_spec _ _ _ H m ltac:(lia)) as H1. cbv beta in H1.
  pose proof (forall_range_spec _ _ _ H1 d ltac:(lia)) as H2.
  unfold check_date in H2.
  replace (d <=? days_in_month y m) with true in H2
    by (symmetry; apply Z.leb_le; lia).
  cbv zeta in H2. simpl implb in H2.
  destruct (ord2ymd (ymd2ord y m d)) as [[y' m'] d'].
  rewrite !andb_true_iff, !Z.eqb_eq, !Z.leb_le in H2.
  destruct H2 as (((((K1 & K2) & K3) & ->) & ->) & ->).
  split; [reflexivity|]. split; [lia|].
  intros Hle. replace (y <=? 399) with true in K3
    by (symmetry; apply Z.leb_le; lia).
  simpl in K3. apply Z.leb_le in K3. exact K3.
Qed.

(** The ordinal of a day of the calendar is read back as that day. *)
Lemma ord2ymd_ymd2ord (y m d : Z) :
  1 <= y <= 9999 -> 1 <= m <= 12 -> 1 <= d <= days_in_month y m ->
  ord2ymd (ymd2ord y m d) = (y, m, d)
  /\ 1 <= ymd2ord y m d <= MAXORDINAL.
Proof.
  intros Hy Hm Hd.
  set (q := (y - 1) / 400). set (y0 := (y - 1) mod 400 + 1).
  assert (E : y = y0 + 400 * q)
    by (unfold q, y0; Z.to_euclidean_division_equations; lia).
  assert (Hy0 : 1 <= y0 <= 400)
    by (unfold y0; Z.to_euclidean_division_equations; lia).
  assert (Hq : 0 <= q <= 24)
    by (unfold q; Z.to_euclidean_division_equations; lia).
  assert (Hq24 : q = 24 -> y0 <= 399) by lia.
  clearbody q y0. subst y.
  rewrite days_in_month_shift in Hd.
  destruct (cycle_date y0 m d Hy0 Hm Hd) as (R & B & B').
  rewrite ymd2ord_shift.
  replace (ymd2ord y0 m d + 146097 * q) with (146097 * q + ymd2ord y0 m d)
    by lia.
  rewrite (ord2ymd_shift q _ B), R. split; [reflexivity|].
  unfold MAXORDINAL. destruct (Z.eq_dec q 24) as [->|Hne].
  - specialize (B' (Hq24 eq_refl)). lia.
  - lia.
Qed.

(** A positive ordinal is read as a day of the calendar with this
    ordinal. *)
Lemma ymd2ord_ord2ymd (k : Z) :
  1 <= k ->
  exists y m d,
    ord2ymd k = (y, m, d) /\ ymd2ord y m d = k
    /\ 1 <= y /\ 1 <= m <= 12 /\ 1 <= d <= days_in_month y m.
Proof.
  intros Hk.
  set (q := (k - 1) / 146097). set (r := (k - 1) mod 146097 + 1).
  assert (E : k = 146097 * q + r)
    by (unfold q, r; Z.to_euclidean_division_equations; lia).
  assert (Hr : 1 <= r <= 146097)
    by (unfold r; Z.to_euclidean_division_equations; lia).
  assert (Hq : 0 <= q)
    by (unfold q; Z.to_euclidean_division_equations; lia).
  clearbody q r. subst k.
  rewrite (ord2ymd_shift q r Hr).
  pose proof (forall_range_spec _ _ _ cycle_ordinals r
                ltac:(rewrite Z2Nat.id by lia; lia)) as H.
  unfold check_ordinal, valid_date in H.
  destruct (ord2ymd r) as [[y m] d].
  rewrite !andb_true_iff, !Z.eqb_eq, !Z.leb_le in H.
  destruct H as (((Y1 & Y2) & (((M1 & M2) & D1) & D2)) & R).
  exists (y + 400 * q), m, d. split; [reflexivity|].
  rewrite ymd2ord_shift, days_in_month_shift. lia.
Qed.

Lemma ymd2ord_year_bound (y m d : Z) :
  1 <= m -> 1 <= d -> ymd2ord y m d <= MAXORDINAL -> y <= 9999.
Proof.
  unfold ymd2ord, days_before_month, days_before_year, MAXORDINAL. cbv zeta.
  intros Hm Hd H.
  assert (T : 0 <= days_before_month_table m).
  { unfold days_before_month_table.
    destruct m as [|p|p]; try lia; repeat (destruct p as [p|p|]; try lia). }
  destruct ((2 <? m) && is_leap y)%bool;
    Z.to_euclidean_division_equations; lia.
Qed.
Lemma add_minutes_in_range (dt : datetime) (n : Z) :
  1440 <= minutes_of dt + n < 1440 * (MAXORDINAL + 1) ->
  exists v,
    add_minutes dt n = Ok v /\ valid_datetime v
    /\ minutes_of v = minutes_of dt + n.
Proof.
  intros H. unfold add_minutes.
  change ((ymd2ord (year dt) (month dt) (day dt) * 24 + hour dt) * 60
          + minute dt + n) with (minutes_of dt + n).
  set (total := minutes_of dt + n) in *. cbv zeta.
  assert (Hd : 1 <= total / 1440 <= MAXORDINAL)
    by (unfold MAXORDINAL in *; Z.to_euclidean_division_equations; lia).
  replace ((0 <? total / 1440) && (total / 1440 <=? MAXORDINAL))%bool
    with true
    by (symmetry; apply andb_true_iff; split;
        [apply Z.ltb_lt|apply Z.leb_le]; lia).
  destruct (ymd2ord_ord2ymd (total / 1440) ltac:(lia))
    as (y & m & d & E & R & Y & M & D).
  rewrite E. eexists. split; [reflexivity|].
  pose proof (ymd2ord_year_bound y m d ltac:(lia) ltac:(lia) ltac:(lia)) as Y'.
  split.
  - unfold valid_datetime. simpl.
    repeat split; try lia; Z.to_euclidean_division_equations; lia.
  - unfold minutes_of. simpl. rewrite R.
    Z.to_euclidean_division_equations. lia.
Qed.

Lemma add_minutes_out_of_range (dt : datetime) (n : Z) :
  minutes_of dt + n < 1440 \/ 1440 * (MAXORDINAL + 1) <= minutes_of dt + n ->
  add_minutes dt n = Raise OverflowError.
Proof.
  intros H. unfold add_minutes.
  change ((ymd2ord (year dt) (month dt) (day dt) * 24 + hour dt) * 60
          + minute dt + n) with (minutes_of dt + n).
  set (total := minutes_of dt + n) in *. cbv zeta.
  replace ((0 <? total / 1440) && (total / 1440 <=? MAXORDINAL))%bool
    with false; [reflexivity|].
  symmetry. apply andb_false_iff. rewrite Z.ltb_ge, Z.leb_gt.
  unfold MAXORDINAL in *. Z.to_euclidean_division_equations. lia.
Qed.

Lemma add_minutes_zero (dt : datetime) :
  valid_datetime dt -> add_minutes dt 0 = Ok dt.
Proof.
  destruct dt as [y m d h mi]. unfold valid_datetime. simpl.
  intros (Y & M & D & H & MI).
  destruct (ord2ymd_ymd2ord y m d Y M D) as [R B].
  unfold add_minutes. simpl.
  replace (((ymd2ord y m d * 24 + h) * 60 + mi + 0) / 1440)
    with (ymd2ord y m d) by (Z.to_euclidean_division_equations; lia).
  replace (((ymd2ord y m d * 24 + h) * 60 + mi + 0) mod 1440)
    with (h * 60 + mi) by (Z.to_euclidean_division_equations; lia).
  replace ((0 <? ymd2ord y m d) && (ymd2ord y m d <=? MAXORDINAL))%bool
    with true
    by (symmetry; apply andb_true_iff; split;
        [apply Z.ltb_lt|apply Z.leb_le]; lia).
  rewrite R. f_equal. f_equal; Z.to_euclidean_division_equations; lia.
Qed.




(** * Further properties *)

(** ** The filter engine *)

Lemma passes_filters_app (fs1 fs2 : Filters) (grb : Message) :
  passes_filters (fs1 ++ fs2)%list grb
  = rbind (passes_filters fs1 grb)
          (fun b => if b then passes_filters fs2 grb else Ok false).
Proof.
  induction fs1 as [|f fs1 IH]; cbn [passes_filters app].
  - reflexivity.
  - destruct (filter_test grb f) as [[|]|e]; simpl; [exact IH|reflexivity..].
Qed.

(** X1: the filter keys are combined by AND.  When every key of the filter
    reads on the message and its test gives a truth value, the message
    passes exactly when all the tests hold. *)
Theorem passes_filters_is_conjunction
  (fs : Filters) (grb : Message) (bs : list bool) :
  Forall2 (fun f b => filter_test grb f = Ok b) fs bs ->
  passes_filters fs grb = Ok (forallb (fun b => b) bs).
Proof.
  induction 1 as [|f b fs bs Hf _ IH]; cbn [passes_filters forallb].
  - reflexivity.
  - rewrite Hf. simpl. destruct b; [exact IH|reflexivity].
Qed.

(** X2: the loop returns at the first key whose test fails: the message is
    left out and the keys after it are never read, so a later key that
    the message lacks does no harm. *)
Theorem passes_filters_stops_at_first_failure
  (pre rest : Filters) (f : string * FilterValue) (grb : Message) :
  Forall (fun g => filter_test grb g = Ok true) pre ->
  filter_test grb f = Ok false ->
  passes_filters (pre ++ f :: rest)%list grb = Ok false.
Proof.
  intros Hpre Hf. rewrite passes_filters_app_true by exact Hpre.
  cbn [passes_filters]. rewrite Hf. reflexivity.
Qed.

Lemma select_passing_kept (fs : Filters) (grbs ok : list Message) :
  select_passing fs grbs = Ok ok <->
  exists bs,
    Forall2 (fun g b => passes_filters fs g = Ok b) grbs bs
    /\ ok = kept_by grbs bs.
Proof.
  revert ok. induction grbs as [|g grbs IH]; intros ok; cbn [select_passing].
  - split.
    + intros H. injection H as <-. exists []. split; [constructor|reflexivity].
    + intros (bs & H & ->). inversion H. reflexivity.
  - split.
    + intros H. destruct (passes_filters fs g) as [b|e] eqn:E; [|discriminate].
      simpl in H. destruct (select_passing fs grbs) as [ok'|e] eqn:E';
        [|discriminate].
      simpl in H. injection H as <-.
      destruct (proj1 (IH ok') eq_refl) as (bs & HF & ->).
      exists (b :: bs). split; [constructor; assumption|].
      unfold kept_by. simpl. destruct b; reflexivity.
    + intros (bs & HF & ->). inversion HF as [|g' b grbs' bs' Hb HF' E1 E2].
      subst. rewrite Hb. simpl.
      rewrite (proj2 (IH (kept_by grbs bs')));
        [|exists bs'; split; [exact HF'|reflexivity]].
      simpl. unfold kept_by. simpl. destruct b; reflexivity.
Qed.

Lemma collapse_not_singleton (l l' : list Message) :
  collapse l = Layers l' -> l' = l /\ List.length l <> 1%nat.
Proof.
  destruct l as [|a [|b l]]; simpl; intros H; try discriminate;
    injection H as <-; split; try reflexivity; discriminate.
Qed.

(** X3: what a call of the filter that returns gives back and prints.  The
    messages kept are those on which [passes_filters] gives true, in the
    order of the input; a single message kept is returned bare, so a list
    returned never has exactly one element; and exactly one line is
    printed, with the number of messages kept. *)
Theorem filter_grib_layers_result
  (grbs : list Message) (fs : Filters) (w w' : World) (r : Grbs) :
  filter_grib_layers grbs fs w = (Ok r, w') ->
  exists bs,
    Forall2 (fun g b => passes_filters fs g = Ok b) grbs bs
    /\ r = collapse (kept_by grbs bs)
    /\ (forall l, r = Layers l -> List.length l <> 1%nat)
    /\ stdout w' = (stdout w ++ [count_line (List.length (kept_by grbs bs))])%list
    /\ display w' = display w.
Proof.
  unfold filter_grib_layers, bind, lift. intros H.
  destruct (select_passing fs grbs) as [ok|e] eqn:E; [|discriminate].
  destruct (proj1 (select_passing_kept fs grbs ok) E) as (bs & HF & ->).
  exists bs. split; [exact HF|].
  unfold print in H.
  destruct (stdout_room w) as [[|n]|]; try discriminate;
    injection H as <- <-; (split; [reflexivity|]);
    (split; [intros l Hl;
             destruct (collapse_not_singleton _ _ Hl) as [-> Hn]; exact Hn|]);
    split; reflexivity.
Qed.

Lemma select_passing_app_split (fs1 fs2 : Filters) (grbs ok : list Message) :
  select_passing (fs1 ++ fs2)%list grbs = Ok ok ->
  exists ok1,
    select_passing fs1 grbs = Ok ok1 /\ select_passing fs2 ok1 = Ok ok.
Proof.
  revert ok. induction grbs as [|g grbs IH]; intros ok H.
  - exists []. split; [reflexivity|exact H].
  - cbn [select_passing] in H. rewrite passes_filters_app in H.
    destruct (passes_filters fs1 g) as [[|]|e1] eqn:E1; simpl in H;
      try discriminate.
    + destruct (passes_filters fs2 g) as [b2|e2] eqn:E2; simpl in H;
        try discriminate.
      destruct (select_passing (fs1 ++ fs2)%list grbs) as [ok'|e];
        simpl in H; try discriminate.
      injection H as <-. destruct (IH ok' eq_refl) as (ok1 & H1 & H2).
      exists (g :: ok1). cbn [select_passing].
      rewrite E1, H1. simpl. rewrite E2, H2. split; reflexivity.
    + destruct (select_passing (fs1 ++ fs2)%list grbs) as [ok'|e];
        simpl in H; try discriminate.
      injection H as <-. destruct (IH ok' eq_refl) as (ok1 & H1 & H2).
      exists ok1. cbn [select_passing]. rewrite E1, H1. simpl.
      split; [reflexivity|exact H2].
Qed.

Lemma select_passing_app_join (fs1 fs2 : Filters) (grbs ok1 ok : list Message) :
  select_passing fs1 grbs = Ok ok1 ->
  select_passing fs2 ok1 = Ok ok ->
  select_passing (fs1 ++ fs2)%list grbs = Ok ok.
Proof.
  revert ok1 ok. induction grbs as [|g grbs IH]; intros ok1 ok H1 H2.
  - injection H1 as <-. exact H2.
  - cbn [select_passing] in H1.
    destruct (passes_filters fs1 g) as [b1|e1] eqn:E1; [|discriminate].
    simpl in H1.
    destruct (select_passing fs1 grbs) as [ok1'|e] eqn:E1'; [|discriminate].
    simpl in H1. injection H1 as <-.
    cbn [select_passing]. rewrite passes_filters_app, E1. simpl.
    destruct b1.
    + cbn [select_passing] in H2.
      destruct (passes_filters fs2 g) as [b2|e2]; [|discriminate].
      simpl in H2.
      destruct (select_passing fs2 ok1') as [ok2|e] eqn:E3; [|discriminate].
      simpl in H2. injection H2 as <-.
      rewrite (IH ok1' ok2 eq_refl E3). reflexivity.
    + simpl. rewrite (IH ok1' ok eq_refl H2). reflexivity.
Qed.

(** X4: filters compose.  Selecting by the keys [fs1] followed by the keys
    [fs2] returns a list exactly when selecting by [fs1] and then
    selecting from the outcome by [fs2] does, and it is the same list. *)
Theorem select_passing_composes
  (fs1 fs2 : Filters) (grbs ok : list Message) :
  select_passing (fs1 ++ fs2)%list grbs = Ok ok <->
  exists ok1,
    select_passing fs1 grbs = Ok ok1 /\ select_passing fs2 ok1 = Ok ok.
Proof.
  split.
  - apply select_passing_app_split.
  - intros (ok1 & H1 & H2). exact (select_passing_app_join _ _ _ _ _ H1 H2).
Qed.

Lemma select_passing_idempotent (fs : Filters) (grbs ok : list Message) :
  select_passing fs grbs = Ok ok -> select_passing fs ok = Ok ok.
Proof.
  revert ok. induction grbs as [|g grbs IH]; intros ok; cbn [select_passing].
  - intros H. injection H as <-. reflexivity.
  - destruct (passes_filters fs g) as [b|e] eqn:E; [|discriminate]. simpl.
    destruct (select_passing fs grbs) as [ok'|e]; [|discriminate]. simpl.
    intros H. injection H as <-. specialize (IH ok' eq_refl).
    destruct b; [|exact IH].
    cbn [select_passing]. rewrite E, IH. reflexivity.
Qed.

(** X5: filtering is idempotent.  A list the filter returned, filtered
    again by the same keys, comes back unchanged (the count line is
    printed once more). *)
Theorem filter_grib_layers_idempotent
  (grbs ok : list Message) (fs : Filters) (w w1 : World) :
  filter_grib_layers grbs fs w = (Ok (Layers ok), w1) ->
  stdout_room w1 <> Some O ->
  fst (filter_grib_layers ok fs w1) = Ok (Layers ok)
  /\ stdout (snd (filter_grib_layers ok fs w1))
     = (stdout w1 ++ [count_line (List.length ok)])%list.
Proof.
  intros H Hroom.
  assert (E : select_passing fs grbs = Ok ok /\ collapse ok = Layers ok).
  { unfold filter_grib_layers, bind, lift in H.
    destruct (select_passing fs grbs) as [ok'|e]; [|discriminate].
    unfold print in H.
    destruct (stdout_room w) as [[|n]|]; try discriminate;
      injection H as H _;
      destruct (collapse_not_singleton _ _ H) as [-> _];
      split; [reflexivity|exact H|reflexivity|exact H]. }
  destruct E as [E C].
  unfold filter_grib_layers, bind, lift.
  rewrite (select_passing_idempotent fs grbs ok E).
  rewrite print_ok by exact Hroom. simpl. rewrite C. split; reflexivity.
Qed.

(** ** Opening a file *)

Lemma patch_stepUnits_spec (l l' : list Message) :
  patch_stepUnits l = Ok l' <->
  Forall2 (fun g g' => pygrib_setitem g "stepUnits" (VInt 0) = Ok g') l l'.
Proof.
  revert l'. induction l as [|g l IH]; intros l'; cbn [patch_stepUnits].
  - split.
    + intros H. injection H as <-. constructor.
    + intros H. inversion H. reflexivity.
  - split.
    + intros H.
      destruct (pygrib_setitem g "stepUnits" (VInt 0)) as [g'|e] eqn:E;
        [|discriminate].
      simpl in H. destruct (patch_stepUnits l) as [r|e]; [|discriminate].
      simpl in H. injection H as <-.
      constructor; [exact E|]. apply IH. reflexivity.
    + intros H. inversion H as [|a b la lb Hab Hl]. subst.
      rewrite Hab. simpl. rewrite (proj2 (IH lb) Hl). reflexivity.
Qed.

(** X6: the step-unit patch.  With a step interval of 60 minutes or more
    the decoded messages are returned as decoded.  With a shorter interval
    [stepUnits] is set to 0 on every message, in file order: the call
    returns exactly when the decoder accepts this on each of them, and
    gives the patched messages. *)
Theorem open_grib_patches_below_an_hour
  (path : string) (l : list Message) (timestep_interval_mins : Z) :
  pygrib_open_select path = Ok l ->
  (60 <= timestep_interval_mins ->
   open_grib (SPath path) timestep_interval_mins = Ok (collapse l))
  /\ (timestep_interval_mins < 60 ->
      forall r,
        open_grib (SPath path) timestep_interval_mins = Ok r <->
        exists l',
          Forall2 (fun g g' => pygrib_setitem g "stepUnits" (VInt 0) = Ok g')
                  l l'
          /\ r = collapse l').
Proof.
  intros H. unfold open_grib. rewrite H. simpl. split.
  - intros Ht. destruct (timestep_interval_mins <? 60) eqn:E;
      [apply Z.ltb_lt in E; lia|reflexivity].
  - intros Ht r. destruct (timestep_interval_mins <? 60) eqn:E;
      [|apply Z.ltb_ge in E; lia].
    split.
    + intros Hr. destruct (patch_stepUnits l) as [l'|e] eqn:P; [|discriminate].
      simpl in Hr. injection Hr as <-. exists l'.
      split; [apply patch_stepUnits_spec; exact P|reflexivity].
    + intros (l' & HF & ->). rewrite (proj2 (patch_stepUnits_spec l l') HF).
      reflexivity.
Qed.

Lemma patch_stepUnits_raises (before after : list Message) (g : Message)
  (before' : list Message) (e : exn) :
  Forall2 (fun a a' => pygrib_setitem a "stepUnits" (VInt 0) = Ok a')
          before before' ->
  pygrib_setitem g "stepUnits" (VInt 0) = Raise e ->
  patch_stepUnits (before ++ g :: after) = Raise e.
Proof.
  intros HF Hg. induction HF as [|a a' la la' Ha _ IH]; simpl.
  - rewrite Hg. reflexivity.
  - rewrite Ha. simpl. rewrite IH. reflexivity.
Qed.

(** X7: the errors of [open_grib].  Whatever the decoder and the step
    interval: an argument that is not a path is refused with an [IOError];
    an error of the decoder is the error of the call; and under a step
    interval below 60 the first message on which setting [stepUnits]
    fails gives its error to the call. *)
Theorem open_grib_errors (timestep_interval_mins : Z) :
  (forall x,
     open_grib (SGrbs x) timestep_interval_mins
     = Raise (IOError "Grbs argument has to be a path to the grib file!"))
  /\ (forall path e,
        pygrib_open_select path = Raise e ->
        open_grib (SPath path) timestep_interval_mins = Raise e)
  /\ (forall path before g after before' e,
        pygrib_open_select path = Ok (before ++ g :: after)%list ->
        timestep_interval_mins < 60 ->
        Forall2 (fun a a' => pygrib_setitem a "stepUnits" (VInt 0) = Ok a')
                before before' ->
        pygrib_setitem g "stepUnits" (VInt 0) = Raise e ->
        open_grib (SPath path) timestep_interval_mins = Raise e).
Proof.
  split; [|split].
  - reflexivity.
  - intros path e H. unfold open_grib. rewrite H. reflexivity.
  - intros path before g after before' e Hopen Ht HF Hg.
    unfold open_grib. rewrite Hopen. simpl.
    destruct (timestep_interval_mins <? 60) eqn:E; [|apply Z.ltb_ge in E; lia].
    rewrite (patch_stepUnits_raises before after g before' e HF Hg).
    reflexivity.
Qed.

Lemma layer_count_collapse (l : list Message) :
  layer_count (collapse l) = List.length l.
Proof. destruct l as [|a [|b l]]; reflexivity. Qed.

(** X8: what a result of [open_grib] tells about the file.  A call that
    returns was given a path the decoder could read; the result stands for
    as many messages as the file holds, a bare message for a file of one,
    so a list returned never has exactly one element. *)
Theorem open_grib_layer_count
  (src : Source) (timestep_interval_mins : Z) (r : Grbs) :
  open_grib src timestep_interval_mins = Ok r ->
  exists path l,
    src = SPath path
    /\ pygrib_open_select path = Ok l
    /\ layer_count r = List.length l
    /\ (forall l', r = Layers l' -> List.length l' <> 1%nat).
Proof.
  unfold open_grib. destruct src as [path|x]; [|discriminate].
  destruct (pygrib_open_select path) as [l|e] eqn:Eo; [|discriminate]. simpl.
  intros H. exists path, l. split; [reflexivity|]. split; [exact Eo|].
  assert (P : exists l', r = collapse l' /\ List.length l' = List.length l).
  { destruct (timestep_interval_mins <? 60).
    - destruct (patch_stepUnits l) as [l'|e] eqn:P; [|discriminate].
      simpl in H. injection H as <-. exists l'. split; [reflexivity|].
      apply patch_stepUnits_spec in P. symmetry.
      exact (Forall2_length P).
    - simpl in H. injection H as <-. exists l. split; reflexivity. }
  destruct P as (l' & -> & L). split.
  - rewrite layer_count_collapse. exact L.
  - intros l'' Hl. destruct (collapse_not_singleton _ _ Hl) as [-> Hn]. exact Hn.
Qed.

(** ** The raster extractor *)

(** X9: no cleanup without a threshold.  When [nodata_buffer] is [None] or
    zero the value grid is returned exactly as the message gives it, with
    the two coordinate grids. *)
Theorem raster_without_threshold
  (grb : Message) (nodata_buffer : option Q) (nodata : Q)
  (vals : Grid) (ll : Grid * Grid) :
  truthy nodata_buffer = false ->
  values grb = Ok vals ->
  latlons grb = Ok ll ->
  grib_message_to_arrays_raster (Single grb) nodata_buffer nodata
  = Ok (vals, fst ll, snd ll).
Proof.
  intros Ht Hv Hl. unfold grib_message_to_arrays_raster. simpl.
  rewrite Hv. simpl. rewrite Hl. simpl.
  destruct nodata_buffer as [b|]; [|reflexivity].
  rewrite Ht. reflexivity.
Qed.

Lemma raster_ok_inv (grb : Message) (nodata_buffer : option Q) (nodata : Q)
  (v' la lo : Grid) :
  grib_message_to_arrays_raster (Single grb) nodata_buffer nodata
  = Ok (v', la, lo) ->
  exists vals,
    values grb = Ok vals /\ latlons grb = Ok (la, lo)
    /\ v' = match nodata_buffer with
            | Some b => if truthy nodata_buffer then clamp b nodata vals else vals
            | None => vals
            end.
Proof.
  unfold grib_message_to_arrays_raster. simpl.
  destruct (values grb) as [vals|e]; [|discriminate]. simpl.
  destruct (latlons grb) as [[la' lo']|e]; [|discriminate]. simpl.
  intros H. injection H as <- <- <-. exists vals. repeat split.
Qed.

Lemma clamp_entries (b nd : Q) (vals : Grid) :
  Forall (Forall (fun y => y = nd \/ (b <= y)%Q)) (clamp b nd vals).
Proof.
  unfold clamp. induction vals as [|row vals IH]; simpl; constructor;
    [|exact IH].
  clear IH. induction row as [|x row IH]; simpl; constructor; [|exact IH].
  destruct (Qltb x b) eqn:E; [left; reflexivity|].
  right. apply Qltb_false. exact E.
Qed.

Lemma clamp_shape (b nd : Q) (vals : Grid) :
  shape (clamp b nd vals) = shape vals.
Proof.
  unfold shape, clamp. rewrite map_map. apply map_ext.
  intros row. apply length_map.
Qed.

(** X10: what the cleaned grid looks like.  With a non-zero threshold,
    every entry of the grid returned is either [nodata] or at least the
    threshold, and the grid has the shape of the grid that was read. *)
Theorem raster_cleaned_grid
  (grb : Message) (nodata_buffer nodata : Q) (v' la lo : Grid) :
  ~ (nodata_buffer == 0)%Q ->
  grib_message_to_arrays_raster (Single grb) (Some nodata_buffer) nodata
  = Ok (v', la, lo) ->
  Forall (Forall (fun y => y = nodata \/ (nodata_buffer <= y)%Q)) v'
  /\ exists vals, values grb = Ok vals /\ shape v' = shape vals.
Proof.
  intros Hb H. apply raster_ok_inv in H. destruct H as (vals & Hv & _ & ->).
  assert (T : truthy (Some nodata_buffer) = true).
  { simpl. destruct (Qeq_bool nodata_buffer 0) eqn:E; [|reflexivity].
    apply Qeq_bool_iff in E. contradiction. }
  rewrite T. split; [apply clamp_entries|].
  exists vals. split; [exact Hv|apply clamp_shape].
Qed.

Lemma clamp_idempotent (b nd : Q) (vals : Grid) :
  clamp b nd (clamp b nd vals) = clamp b nd vals.
Proof.
  unfold clamp. rewrite map_map. apply map_ext. intros row.
  rewrite map_map. apply map_ext. intros x.
  destruct (Qltb x b) eqn:E; [|rewrite E; reflexivity].
  destruct (Qltb nd b); reflexivity.
Qed.

(** X11: the cleanup is idempotent.  A message that carries a grid
    returned by the extractor, with the same coordinates, gives back this
    grid unchanged under the same threshold and [nodata]. *)
Theorem raster_idempotent
  (grb grb' : Message) (nodata_buffer : option Q) (nodata : Q)
  (v' la lo : Grid) :
  grib_message_to_arrays_raster (Single grb) nodata_buffer nodata
  = Ok (v', la, lo) ->
  values grb' = Ok v' ->
  latlons grb' = Ok (la, lo) ->
  grib_message_to_arrays_raster (Single grb') nodata_buffer nodata
  = Ok (v', la, lo).
Proof.
  intros H Hv Hl. apply raster_ok_inv in H. destruct H as (vals & _ & _ & E).
  unfold grib_message_to_arrays_raster. simpl. rewrite Hv. simpl.
  rewrite Hl. simpl. f_equal. f_equal. f_equal.
  destruct nodata_buffer as [b|]; [|reflexivity].
  destruct (truthy (Some b)); [|reflexivity].
  rewrite E. apply clamp_idempotent.
Qed.

(** X12: the errors of the extractor.  An empty list is refused like a
    list of several messages, with a count of 0; an error of the value
    accessor is the error of the call, and the coordinates are not read
    then; an error of the coordinate accessor is the error of the call
    when the values could be read. *)
Theorem raster_errors (nodata_buffer : option Q) (nodata : Q) :
  grib_message_to_arrays_raster (Layers []) nodata_buffer nodata
  = Raise (IOError
      "You can only pass a one-layered grib list or a grib message. You passed a grib with 0 layers.")
  /\ (forall grb e,
        values grb = Raise e ->
        grib_message_to_arrays_raster (Single grb) nodata_buffer nodata
        = Raise e
        /\ grib_message_to_arrays_raster (Layers [grb]) nodata_buffer nodata
           = Raise e)
  /\ (forall grb vals e,
        values grb = Ok vals ->
        latlons grb = Raise e ->
        grib_message_to_arrays_raster (Single grb) nodata_buffer nodata
        = Raise e).
Proof.
  split; [reflexivity|]. split.
  - intros grb e H. unfold grib_message_to_arrays_raster. simpl.
    rewrite H. split; reflexivity.
  - intros grb vals e Hv Hl. unfold grib_message_to_arrays_raster. simpl.
    rewrite Hv. simpl. rewrite Hl. reflexivity.
Qed.

(** ** The temporal resolver *)

(** X13: a missing attribute.  The simulation time reads [dataTime] first
    and [dataDate] second, the validity time reads [endStep] after the
    simulation time is known; the first of these lookups that fails gives
    its exception to the caller, and a simulation time that cannot be
    computed gives its error to the validity time. *)
Theorem temporal_resolver_missing_attribute (grb : Message) (e : exn) :
  (getitem grb "dataTime" = Raise e ->
   get_grib_layer_simulation_datetime grb = Raise e)
  /\ (forall t,
        getitem grb "dataTime" = Ok t ->
        getitem grb "dataDate" = Raise e ->
        get_grib_layer_simulation_datetime grb = Raise e)
  /\ (get_grib_layer_simulation_datetime grb = Raise e ->
      get_grib_layer_validity_datetime grb = Raise e)
  /\ (forall sim,
        get_grib_layer_simulation_datetime grb = Ok sim ->
        getitem grb "endStep" = Raise e ->
        get_grib_layer_validity_datetime grb = Raise e).
Proof.
  unfold get_grib_layer_validity_datetime, get_grib_layer_simulation_datetime.
  split; [|split; [|split]].
  - intros H. rewrite H. reflexivity.
  - intros t Ht Hd. rewrite Ht. simpl. rewrite Hd. reflexivity.
  - intros H. rewrite H. reflexivity.
  - intros sim Hs He. rewrite Hs. simpl. rewrite He. reflexivity.
Qed.

Lemma make_datetime_valid (y m d h mi : Z) (dt : datetime) :
  make_datetime y m d h mi = Ok dt ->
  dt = mkDatetime y m d h mi /\ valid_datetime dt.
Proof.
  unfold make_datetime.
  match goal with |- (if ?c then _ else _) = _ -> _ => destruct c eqn:C end;
    [|discriminate].
  intros H. injection H as <-. split; [reflexivity|].
  rewrite !andb_true_iff, !Z.leb_le in C. unfold valid_datetime. simpl. lia.
Qed.

Lemma strptime_valid (s : string) (dt : datetime) :
  strptime_YmdHM s = Ok dt -> valid_datetime dt.
Proof.
  unfold strptime_YmdHM.
  destruct (match_seq format_YmdHM s) as [[ms r]|]; [|discriminate].
  destruct ms as [|gY [|gm [|gd [|gH [|gM [|x ms]]]]]]; try discriminate;
    destruct r; try discriminate.
  intros H. exact (proj2 (make_datetime_valid _ _ _ _ _ _ H)).
Qed.

(** X14: whatever the attributes hold, a simulation time that is returned
    is a timestamp of the calendar: a year between 1 and 9999, a month, a
    day that this month has in this year, an hour below 24 and a minute
    below 60. *)
Theorem simulation_datetime_is_valid (grb : Message) (dt : datetime) :
  get_grib_layer_simulation_datetime grb = Ok dt -> valid_datetime dt.
Proof.
  unfold get_grib_layer_simulation_datetime.
  destruct (getitem grb "dataTime") as [t|e]; [|discriminate]. simpl.
  destruct (getitem grb "dataDate") as [d|e]; [|discriminate]. simpl.
  apply strptime_valid.
Qed.

Lemma digits_of_length_le (fuel : nat) (n : Z) (acc : string) :
  (String.length acc <= String.length (digits_of fuel n acc))%nat.
Proof.
  revert n acc. induction fuel as [|fuel IH]; intros n acc; simpl; [lia|].
  destruct (n <? 10); simpl; [lia|].
  specialize (IH (n / 10) (String (digit_char (n mod 10)) acc)).
  simpl in IH. lia.
Qed.

Lemma digits_of_length_ge (k fuel : nat) (n : Z) (acc : string) :
  (k < fuel)%nat ->
  10 ^ Z.of_nat k <= n ->
  (k + 1 + String.length acc <= String.length (digits_of fuel n acc))%nat.
Proof.
  revert fuel n acc. induction k as [|k IH]; intros fuel n acc Hf Hn;
    (destruct fuel as [|fuel]; [lia|]); cbn [digits_of].
  - destruct (n <? 10); simpl; [lia|].
    pose proof (digits_of_length_le fuel (n / 10)
                  (String (digit_char (n mod 10)) acc)) as L.
    simpl in L. lia.
  - destruct (n <? 10) eqn:E.
    + apply Z.ltb_lt in E. exfalso.
      assert (10 ^ 1 <= 10 ^ Z.of_nat (S k)) by (apply Z.pow_le_mono_r; lia).
      lia.
    + assert (B : 10 ^ Z.of_nat k <= n / 10).
      { rewrite Nat2Z.inj_succ, Z.pow_succ_r in Hn by lia.
        apply Z.div_le_lower_bound; lia. }
      pose proof (IH fuel (n / 10) (String (digit_char (n mod 10)) acc)
                     ltac:(lia) B) as L.
      simpl in L. lia.
Qed.

Lemma str_int_long (t : Z) :
  9999 < t -> (5 <= String.length (str_int t))%nat.
Proof.
  intros H. unfold str_int.
  destruct (t <? 0) eqn:E; [apply Z.ltb_lt in E; lia|].
  unfold str_of_nonneg.
  assert (L : Z.log2 10000 <= Z.log2 t) by (apply Z.log2_le_mono; lia).
  change (Z.log2 10000) with 13 in L.
  pose proof (digits_of_length_ge 4 (S (Z.to_nat (Z.log2 t))) t ""
                ltac:(lia) ltac:(simpl; lia)) as G.
  change (String.length "") with O in G. lia.
Qed.

Lemma timestamp_text_rejected (d t : Z) :
  10000000 <= d <= 99999999 ->
  t < 0 \/ 9999 < t ->
  parse_YYYYMMDDHHMM (timestamp_text d t) = Raise ValueError.
Proof.
  intros Hd Ht. unfold parse_YYYYMMDDHHMM.
  assert (C : ((String.length (timestamp_text d t) =? 12)%nat
               && all_digits (timestamp_text d t))%bool = false);
    [|rewrite C; reflexivity].
  unfold timestamp_text. destruct Ht as [Ht|Ht].
  - assert (A : all_digits (zfill 4 (str_int t)) = false).
    { unfold str_int. destruct (t <? 0) eqn:E; [|apply Z.ltb_ge in E; lia].
      unfold zfill.
      destruct (4 <=? String.length (String "-" (str_of_nonneg (- t))))%nat;
        reflexivity. }
    rewrite all_digits_app, A, !andb_false_r. reflexivity.
  - assert (L : (String.length (str_int d ++ zfill 4 (str_int t)) =? 12)%nat
                = false).
    { apply Nat.eqb_neq. rewrite length_app, (str_int_date d Hd),
        fixed_digits_length.
      pose proof (str_int_long t Ht) as L5. unfold zfill.
      destruct (4 <=? String.length (str_int t))%nat eqn:E;
        [|apply Nat.leb_gt in E; lia].
      simpl. lia. }
    rewrite L. reflexivity.
Qed.

Lemma simulation_datetime_is_spec (grb : Message) (d t : Z) :
  getitem grb "dataDate" = Ok (VInt d) ->
  getitem grb "dataTime" = Ok (VInt t) ->
  10000000 <= d <= 99999999 ->
  get_grib_layer_simulation_datetime grb = spec_simulation_time d t.
Proof.
  intros Hd Ht Hr. rewrite (simulation_datetime_of_ints grb d t Hd Ht).
  destruct (timestamp_text_shape d t Hr) as [Hn Hl].
  exact (strptime_is_positional _ Hn Hl).
Qed.

(** X15: the simulation time from the numbers.  For an eight-digit
    [dataDate] and an integer [dataTime] between 0 and 9999 the outcome is
    that of building the timestamp from the year [dataDate / 10000], the
    month, the day, the hour [dataTime / 100] and the minute
    [dataTime mod 100]; a [dataTime] that is negative or has more than
    four digits raises [ValueError]. *)
Theorem simulation_datetime_from_numbers (grb : Message) (d t : Z) :
  getitem grb "dataDate" = Ok (VInt d) ->
  getitem grb "dataTime" = Ok (VInt t) ->
  10000000 <= d <= 99999999 ->
  (0 <= t <= 9999 ->
   get_grib_layer_simulation_datetime grb
   = make_datetime (d / 10000) ((d / 100) mod 100) (d mod 100)
                   (t / 100) (t mod 100))
  /\ (t < 0 \/ 9999 < t ->
      get_grib_layer_simulation_datetime grb = Raise ValueError).
Proof.
  clear pygrib_open_select pygrib_setitem abspath.
  intros Hd Ht Hr. rewrite (simulation_datetime_is_spec grb d t Hd Ht Hr).
  split.
  - intros Hrange.
    replace (spec_simulation_time d t)
      with (spec_simulation_time
              ((d / 10000) * 10000 + ((d / 100) mod 100) * 100 + d mod 100)
              ((t / 100) * 100 + t mod 100)).
    + apply simulation_time_fields; Z.to_euclidean_division_equations; lia.
    + f_equal; Z.to_euclidean_division_equations; lia.
  - intros Hbad. exact (timestamp_text_rejected d t Hr Hbad).
Qed.

(** ** The validity time *)

(** X16: the validity time is the simulation time moved by [endStep]
    minutes.  Counted in minutes from the origin of the calendar, the
    validity time is the simulation time plus [endStep], and it is again a
    timestamp of the calendar; a step of 0 gives the simulation time
    itself; a step that leads before year 1 or after year 9999 raises
    [OverflowError]. *)
Theorem validity_datetime_adds_endStep
  (grb : Message) (sim : datetime) (e : Z) :
  get_grib_layer_simulation_datetime grb = Ok sim ->
  getitem grb "endStep" = Ok (VInt e) ->
  (1440 <= minutes_of sim + e < 1440 * (MAXORDINAL + 1) ->
   exists v,
     get_grib_layer_validity_datetime grb = Ok v
     /\ valid_datetime v
     /\ minutes_of v = minutes_of sim + e)
  /\ (minutes_of sim + e < 1440 \/ 1440 * (MAXORDINAL + 1) <= minutes_of sim + e ->
      get_grib_layer_validity_datetime grb = Raise OverflowError)
  /\ (e = 0 -> get_grib_layer_validity_datetime grb = Ok sim).
Proof.
  intros Hs He.
  assert (V : get_grib_layer_validity_datetime grb = add_minutes sim e).
  { unfold get_grib_layer_validity_datetime. rewrite Hs. simpl.
    rewrite He. reflexivity. }
  rewrite V. split; [|split].
  - apply add_minutes_in_range.
  - apply add_minutes_out_of_range.
  - intros ->. apply add_minutes_zero.
    unfold get_grib_layer_simulation_datetime in Hs.
    destruct (getitem grb "dataTime") as [t|x]; [|discriminate].
    destruct (getitem grb "dataDate") as [d|x]; [|discriminate].
    exact (strptime_valid _ _ Hs).
Qed.

(** ** The table of the report *)

Lemma row_values_length (grb : Message) :
  List.length (row_values grb) = List.length (keys grb).
Proof. unfold row_values. apply length_map. Qed.

Lemma append_cells_length (data : list (list Cell)) (vals : list Cell) :
  List.length vals = List.length data ->
  List.length (append_cells data vals) = List.length data.
Proof.
  revert vals. induction data as [|row data IH]; intros [|v vals] H;
    simpl in *; try lia. rewrite IH by lia. reflexivity.
Qed.

Lemma append_cells_rows (data : list (list Cell)) (vals : list Cell) (n : nat) :
  List.length vals = List.length data ->
  Forall (fun row => List.length row = n) data ->
  Forall (fun row => List.length row = S n) (append_cells data vals).
Proof.
  revert vals. induction data as [|row data IH]; intros [|v vals] H F;
    simpl in *; try lia; constructor.
  - inversion F as [|r rs Hrow Hrest E]. rewrite List.length_app. simpl. lia.
  - inversion F as [|r rs Hrow Hrest E]. apply IH; [lia|exact Hrest].
Qed.

Lemma append_cells_old_column (data : list (list Cell)) (vals : list Cell)
  (n i : nat) :
  List.length vals = List.length data ->
  Forall (fun row => List.length row = n) data ->
  (i < n)%nat ->
  map (fun row => nth i row None) (append_cells data vals)
  = map (fun row => nth i row None) data.
Proof.
  revert vals. induction data as [|row data IH]; intros [|v vals] H F Hi;
    simpl in *; try discriminate H; try reflexivity.
  inversion F as [|r rs Hrow Hrest E]. clear F.
  rewrite app_nth1 by lia. apply (f_equal (cons (nth i row None))).
  apply IH; [lia|exact Hrest|exact Hi].
Qed.

Lemma append_cells_new_column (data : list (list Cell)) (vals : list Cell)
  (n : nat) :
  List.length vals = List.length data ->
  Forall (fun row => List.length row = n) data ->
  map (fun row => nth n row None) (append_cells data vals) = vals.
Proof.
  revert vals. induction data as [|row data IH]; intros [|v vals] H F;
    simpl in *; try discriminate H; try reflexivity.
  inversion F as [|r rs Hrow Hrest E]. clear F.
  rewrite app_nth2 by lia. replace (n - List.length row)%nat with O by lia.
  simpl. apply (f_equal (cons v)). apply IH; [lia|exact Hrest].
Qed.

Lemma setitem_column_fits (df : DataFrame) (l : Label) (vals : list Cell) :
  df_index df <> [] ->
  setitem_column df l vals
  = if (List.length vals =? List.length (df_index df))%nat then
      Ok {| df_index := df_index df;
            df_columns := (df_columns df ++ [l])%list;
            df_data := append_cells (df_data df) vals |}
    else Raise ValueError.
Proof.
  intros H. unfold setitem_column. destruct (df_index df) as [|a idx];
    [contradiction H; reflexivity|].
  destruct vals; reflexivity.
Qed.

Lemma fill_columns_raises (i : nat) (grbs : list Message) (df : DataFrame) :
  df_index df <> [] ->
  Exists (fun g => List.length (keys g) <> List.length (df_index df)) grbs ->
  fill_columns i grbs df = Raise ValueError.
Proof.
  revert i df. induction grbs as [|g grbs IH]; intros i df Hidx Hex.
  - inversion Hex.
  - cbn [fill_columns]. rewrite (setitem_column_fits df _ _ Hidx).
    rewrite row_values_length.
    destruct (List.length (keys g) =? List.length (df_index df))%nat eqn:E.
    + apply Nat.eqb_eq in E. simpl. apply IH; [exact Hidx|].
      inversion Hex as [? ? H|? ? H]; subst; [contradiction|exact H].
    + reflexivity.
Qed.

Lemma fill_columns_shape (grbs : list Message) (i : nat) (df df' : DataFrame) :
  df_index df <> [] ->
  well_shaped df i ->
  fill_columns i grbs df = Ok df' ->
  df_index df' = df_index df
  /\ well_shaped df' (i + List.length grbs)
  /\ Forall (fun g => List.length (keys g) = List.length (df_index df)) grbs
  /\ (forall j, (j < i)%nat -> column df' j = column df j)
  /\ (forall j g, nth_error grbs j = Some g -> column df' (i + j) = row_values g).
Proof.
  revert i df. induction grbs as [|g grbs IH]; intros i df Hidx W H.
  - injection H as <-. rewrite Nat.add_0_r. repeat split; try apply W.
    + constructor.
    + intros j g H. destruct j; discriminate.
  - cbn [fill_columns] in H. rewrite (setitem_column_fits df _ _ Hidx) in H.
    rewrite row_values_length in H.
    destruct (List.length (keys g) =? List.length (df_index df))%nat eqn:E;
      [|discriminate].
    apply Nat.eqb_eq in E. simpl in H.
    destruct W as (Wc & Wl & Wr).
    assert (L : List.length (row_values g) = List.length (df_data df))
      by (rewrite row_values_length; lia).
    set (df1 := {| df_index := df_index df;
                   df_columns := (df_columns df ++ [LInt i])%list;
                   df_data := append_cells (df_data df) (row_values g) |}) in *.
    assert (W1 : well_shaped df1 (S i)).
    { unfold well_shaped, df1. cbn [df_columns df_index df_data].
      split; [|split].
      - rewrite Wc, seq_S, map_app. reflexivity.
      - rewrite append_cells_length by exact L. exact Wl.
      - apply append_cells_rows; assumption. }
    destruct (IH (S i) df1 Hidx W1 H) as (I & W' & F & Cold & Cnew).
    simpl in I. split; [exact I|]. split.
    { simpl. rewrite Nat.add_succ_r. exact W'. }
    split; [constructor; [exact E|exact F]|]. split.
    + intros j Hj. rewrite (Cold j ltac:(lia)). unfold column, df1. simpl.
      apply (append_cells_old_column _ _ i); assumption.
    + intros j g' Hg. destruct j as [|j]; simpl in Hg.
      * injection Hg as <-. rewrite Nat.add_0_r.
        rewrite (Cold i ltac:(lia)). unfold column, df1. simpl.
        apply append_cells_new_column; assumption.
      * rewrite Nat.add_succ_r. exact (Cnew j g' Hg).
Qed.

Lemma build_table_start (g0 : Message) (rest : list Message) :
  build_table (Layers (g0 :: rest))
  = fill_columns 0 (g0 :: rest)
      {| df_index := map LStr (keys g0); df_columns := [];
         df_data := map (fun _ => []) (keys g0) |}.
Proof. reflexivity. Qed.

Lemma empty_table_shape (ks : list string) :
  well_shaped {| df_index := map LStr ks; df_columns := [];
                 df_data := map (fun _ => []) ks |} 0.
Proof.
  unfold well_shaped. cbn [df_columns df_index df_data].
  split; [reflexivity|]. split; [rewrite !length_map; reflexivity|].
  apply Forall_forall. intros row H. apply in_map_iff in H.
  destruct H as (k & <- & _). reflexivity.
Qed.

Lemma build_table_invariant
  (g0 : Message) (rest : list Message) (df : DataFrame) :
  build_table (Layers (g0 :: rest)) = Ok df ->
  keys g0 <> [] ->
  df_index df = map LStr (keys g0)
  /\ well_shaped df (List.length (g0 :: rest))
  /\ Forall (fun g => List.length (keys g) = List.length (keys g0)) (g0 :: rest)
  /\ (forall i g, nth_error (g0 :: rest) i = Some g -> column df i = row_values g).
Proof.
  intros H Hk. rewrite build_table_start in H.
  assert (Hidx : df_index {| df_index := map LStr (keys g0); df_columns := [];
                             df_data := map (fun _ => []) (keys g0) |} <> []).
  { cbn [df_index]. destruct (keys g0); [contradiction Hk; reflexivity|discriminate]. }
  destruct (fill_columns_shape _ _ _ _ Hidx (empty_table_shape (keys g0)) H)
    as (I & W & F & _ & C).
  cbn [df_index] in I, F. rewrite length_map in F.
  split; [exact I|]. split; [exact W|]. split; [exact F|].
  intros i g Hg. exact (C i g Hg).
Qed.

(** X17: the table of the report.  When it is built from a list whose
    first message has keys, its row labels are the keys of the first
    message, its columns are numbered by the messages, every row has one
    cell per message, every message lists as many keys as the first, and
    the column of each message is the list of cells made from that
    message's own keys in their own order. *)
Theorem build_table_shape
  (g0 : Message) (rest : list Message) (df : DataFrame) :
  build_table (Layers (g0 :: rest)) = Ok df ->
  keys g0 <> [] ->
  df_index df = map LStr (keys g0)
  /\ well_shaped df (List.length (g0 :: rest))
  /\ Forall (fun g => List.length (keys g) = List.length (keys g0)) (g0 :: rest)
  /\ (forall i g, nth_error (g0 :: rest) i = Some g -> column df i = row_values g).
Proof. apply build_table_invariant. Qed.

Lemma count_cell_total (c : Cell) (counts : list (Cell * nat)) :
  list_sum (map snd (count_cell c counts)) = S (list_sum (map snd counts)).
Proof.
  induction counts as [|[d n] counts IH]; simpl; [reflexivity|].
  destruct (cell_eqb d c); simpl; [reflexivity|]. rewrite IH. lia.
Qed.

Lemma Counter_total (cells : list Cell) :
  list_sum (map snd (Counter cells)) = List.length cells.
Proof.
  unfold Counter.
  assert (G : forall counts,
             list_sum (map snd (fold_left (fun cs c => count_cell c cs) cells counts))
             = (list_sum (map snd counts) + List.length cells)%nat).
  { induction cells as [|c cells IH]; intros counts; simpl; [lia|].
    rewrite IH, count_cell_total. lia. }
  rewrite G. reflexivity.
Qed.

Lemma combine_fst_snd {A B : Type} (rows : list (A * B)) :
  combine (map fst rows) (map snd rows) = rows.
Proof.
  induction rows as [|[a b] rows IH]; simpl; [reflexivity|].
  rewrite IH. reflexivity.
Qed.

Lemma labelled_rows_select (keep : list Cell -> bool) (df : DataFrame) :
  labelled_rows (select_rows keep df)
  = filter (fun r => keep (snd r)) (labelled_rows df).
Proof. unfold labelled_rows, select_rows. simpl. apply combine_fst_snd. Qed.

Lemma labelled_rows_sort (df : DataFrame) :
  labelled_rows (sort_index df) = fold_right insert_row [] (labelled_rows df).
Proof. unfold labelled_rows, sort_index. simpl. apply combine_fst_snd. Qed.

Lemma insert_row_perm (r : Label * list Cell) (rows : list (Label * list Cell)) :
  Permutation (insert_row r rows) (r :: rows).
Proof.
  induction rows as [|r' rows IH]; simpl; [reflexivity|].
  destruct (label_leb (fst r) (fst r')); [reflexivity|].
  rewrite IH. apply perm_swap.
Qed.

Lemma sorted_rows_perm (rows : list (Label * list Cell)) :
  Permutation (fold_right insert_row [] rows) rows.
Proof.
  induction rows as [|r rows IH]; simpl; [reflexivity|].
  rewrite insert_row_perm. constructor. exact IH.
Qed.

Lemma label_leb_total (a b : Label) : label_leb a b = true \/ label_leb b a = true.
Proof.
  destruct a as [s|m], b as [t|n]; simpl; auto.
  - apply String.leb_total.
  - destruct (Nat.leb_spec m n); [left; reflexivity|right; apply Nat.leb_le; lia].
Qed.

Lemma insert_row_sorted (r : Label * list Cell) (rows : list (Label * list Cell)) :
  Sorted (fun a b => label_le (fst a) (fst b)) rows ->
  Sorted (fun a b => label_le (fst a) (fst b)) (insert_row r rows).
Proof.
  induction 1 as [|r' rows S IH H]; simpl.
  - repeat constructor.
  - destruct (label_leb (fst r) (fst r')) eqn:E.
    + constructor; [constructor; assumption|constructor; exact E].
    + constructor; [exact IH|].
      destruct rows as [|r'' rows]; simpl.
      * constructor. destruct (label_leb_total (fst r) (fst r')); [congruence|assumption].
      * destruct (label_leb (fst r) (fst r'')).
        -- constructor.
           destruct (label_leb_total (fst r) (fst r')); [congruence|assumption].
        -- constructor. inversion H. assumption.
Qed.

Lemma sorted_rows_sorted (rows : list (Label * list Cell)) :
  Sorted (fun a b => label_le (fst a) (fst b)) (fold_right insert_row [] rows).
Proof.
  induction rows as [|r rows IH]; simpl; [constructor|].
  apply insert_row_sorted. exact IH.
Qed.

Lemma sorted_map_fst (rows : list (Label * list Cell)) :
  Sorted (fun a b => label_le (fst a) (fst b)) rows ->
  Sorted label_le (map fst rows).
Proof.
  induction 1 as [|r rows S IH H]; simpl; constructor; [exact IH|].
  destruct H; simpl; constructor. assumption.
Qed.

Lemma same_index_sorted (df : DataFrame) :
  Sorted label_le (df_index (df_same_of df)).
Proof.
  unfold df_same_of, sort_index. cbn [df_index].
  apply sorted_map_fst, sorted_rows_sorted.
Qed.

Lemma same_rows_permutation (df : DataFrame) :
  Permutation (labelled_rows (df_same_of df))
              (filter (fun r => (nunique (snd r) =? 1)%nat) (labelled_rows df)).
Proof.
  unfold df_same_of. rewrite labelled_rows_sort, labelled_rows_select.
  apply sorted_rows_perm.
Qed.

(** X19: the common section.  Its rows are the rows of the table with
    exactly one distinct value, each as often as in the table, and their
    labels are in ascending order. *)
Theorem common_section_is_sorted (df : DataFrame) :
  Sorted label_le (df_index (df_same_of df))
  /\ Permutation (labelled_rows (df_same_of df))
                 (filter (fun r => (nunique (snd r) =? 1)%nat) (labelled_rows df)).
Proof. split; [apply same_index_sorted|apply same_rows_permutation]. Qed.

Lemma distinct_values_nonempty (seen : list Value) (row : list Cell) :
  distinct_values seen row = [] -> seen = [] /\ Forall (eq None) row.
Proof.
  revert seen. induction row as [|[v|] row IH]; intros seen H; simpl in H.
  - split; [exact H|constructor].
  - destruct (existsb (value_eqb v) seen) eqn:E.
    + destruct (IH seen H) as [-> _]. discriminate E.
    + destruct (IH _ H) as [C _]. destruct seen; discriminate C.
  - destruct (IH seen H) as [Hs Hr]. split; [exact Hs|]. constructor; [reflexivity|exact Hr].
Qed.

Lemma nunique_zero (row : list Cell) :
  nunique row = 0%nat -> Forall (eq None) row.
Proof.
  unfold nunique. intros H. apply length_zero_iff_nil in H.
  exact (proj2 (distinct_values_nonempty [] row H)).
Qed.

(** X20: the two sections partition the rows.  A row of the table is in
    exactly one of three cases: all its cells are null and it is in
    neither selection; it has exactly one distinct value and is in the
    common selection only; it has several and is in the per-layer
    selection only. *)
Theorem report_sections_partition
  (df : DataFrame) (l : Label) (row : list Cell) :
  In (l, row) (labelled_rows df) ->
  let same := labelled_rows (df_same_of df) in
  let varying :=
    labelled_rows (select_rows (fun row => (1 <? nunique row)%nat) df) in
  (Forall (eq None) row /\ ~ In (l, row) same /\ ~ In (l, row) varying)
  \/ (nunique row = 1%nat /\ In (l, row) same /\ ~ In (l, row) varying)
  \/ ((1 < nunique row)%nat /\ In (l, row) varying /\ ~ In (l, row) same).
Proof.
  intros Hin same varying.
  assert (Hs : In (l, row) same <-> nunique row = 1%nat).
  { unfold same. pose proof (same_rows_permutation df) as P.
    split.
    - intros H. apply (Permutation_in _ P) in H. apply filter_In in H.
      apply Nat.eqb_eq. exact (proj2 H).
    - intros H. apply (Permutation_in _ (Permutation_sym P)).
      apply filter_In. split; [exact Hin|]. apply Nat.eqb_eq. exact H. }
  assert (Hv : In (l, row) varying <-> (1 < nunique row)%nat).
  { unfold varying. rewrite labelled_rows_select, filter_In. simpl.
    rewrite Nat.ltb_lt. tauto. }
  destruct (nunique row) as [|[|n]] eqn:E.
  - left. split; [apply nunique_zero; exact E|]. rewrite Hs, Hv. lia.
  - right. left. rewrite Hs, Hv. lia.
  - right. right. rewrite Hs, Hv. lia.
Qed.

Lemma value_eqb_refl (v : Value) : is_array v = false -> value_eqb v v = true.
Proof.
  destruct v as [z|q|s|a]; intros H; try discriminate; unfold value_eqb; simpl.
  - apply Z.eqb_refl.
  - apply Qeq_bool_iff. reflexivity.
  - apply String.eqb_refl.
Qed.

Lemma distinct_values_seen (v : Value) (row : list Cell) :
  is_array v = false ->
  Forall (fun c => c = None \/ c = Some v) row ->
  distinct_values [v] row = [v].
Proof.
  intros Hv. induction 1 as [|c row [->| ->] _ IH]; simpl; try exact IH.
  - reflexivity.
  - rewrite (value_eqb_refl v Hv). exact IH.
Qed.

Lemma nunique_one_value (v : Value) (row : list Cell) :
  is_array v = false ->
  Forall (fun c => c = None \/ c = Some v) row ->
  In (Some v) row ->
  nunique row = 1%nat.
Proof.
  intros Hv F. unfold nunique.
  induction F as [|c row [->| ->] F IH]; simpl; intros Hin.
  - destruct Hin.
  - destruct Hin as [H|H]; [discriminate|]. exact (IH H).
  - rewrite (distinct_values_seen v row Hv F). reflexivity.
Qed.

(** X21: a row that is null on some messages and holds one and the same
    scalar on all the others counts one distinct value, so it is reported
    in the common section. *)
Theorem partly_null_row_is_common
  (df : DataFrame) (l : Label) (row : list Cell) (v : Value) :
  In (l, row) (labelled_rows df) ->
  is_array v = false ->
  Forall (fun c => c = None \/ c = Some v) row ->
  In (Some v) row ->
  nunique row = 1%nat /\ In (l, row) (labelled_rows (df_same_of df)).
Proof.
  intros Hin Hv F Hs. pose proof (nunique_one_value v row Hv F Hs) as N.
  split; [exact N|].
  pose proof (same_rows_permutation df) as P.
  apply (Permutation_in _ (Permutation_sym P)).
  apply filter_In. split; [exact Hin|]. simpl. rewrite N. reflexivity.
Qed.
(** ** Runs of the report that stop early *)

Lemma open_grib_default (path : string) (l : list Message) :
  pygrib_open_select path = Ok l ->
  open_grib (SPath path) default_timestep_interval_mins = Ok (collapse l).
Proof. intros H. unfold open_grib. rewrite H. reflexivity. Qed.

(** X22: messages with different numbers of keys.  Opened from a path, a
    list in which some message lists more or fewer keys than the first
    stops the report with [ValueError] when the columns are filled;
    nothing is printed and the display limits are not touched. *)
Theorem report_needs_equal_key_counts
  (path : string) (g0 : Message) (rest : list Message) (w : World) :
  pygrib_open_select path = Ok (g0 :: rest) ->
  keys g0 <> [] ->
  Exists (fun g => List.length (keys g) <> List.length (keys g0)) rest ->
  print_grib_content_report (SPath path) w = (Raise ValueError, w).
Proof.
  intros Hopen Hk Hex.
  assert (C : collapse (g0 :: rest) = Layers (g0 :: rest)).
  { destruct rest; [inversion Hex|reflexivity]. }
  assert (T : build_table (Layers (g0 :: rest)) = Raise ValueError).
  { rewrite build_table_start. apply fill_columns_raises.
    - cbn [df_index]. destruct (keys g0); [contradiction Hk; reflexivity|discriminate].
    - cbn [df_index]. rewrite length_map. apply Exists_cons_tl. exact Hex. }
  unfold print_grib_content_report, bind, lift.
  rewrite (open_grib_default path _ Hopen), C, T. reflexivity.
Qed.

(** X23: runs that fail before anything is printed.  For a path, an error
    of the decoder is the error of the report; a file of exactly one
    message makes the report raise, because [open_grib] hands back the
    bare message and the report subscripts it like a list.  In both cases
    the world is left as it was. *)
Theorem report_fails_before_printing (path : string) (w : World) :
  (forall e,
     pygrib_open_select path = Raise e ->
     print_grib_content_report (SPath path) w = (Raise e, w))
  /\ (forall g,
        pygrib_open_select path = Ok [g] ->
        exists e, print_grib_content_report (SPath path) w = (Raise e, w)).
Proof.
  unfold print_grib_content_report, bind, lift, open_grib.
  split.
  - intros e H. rewrite H. reflexivity.
  - intros g H. rewrite H. eexists. reflexivity.
Qed.

Lemma in_index_of_key (df : DataFrame) (ks : list string) (k : string) :
  df_index df = map LStr ks -> In k ks -> in_index k df = true.
Proof.
  intros E H. unfold in_index. rewrite E. apply existsb_exists.
  exists (LStr k). split; [apply in_map; exact H|]. simpl. apply String.eqb_refl.
Qed.

(** X24: the header reads the first message without a guard.  When
    [dataDate] and [dataTime] are keys of the first message and reading
    [dataDate] on it fails, the report raises that exception after the
    first four lines, although the same failure is a null cell in the
    table. *)
Theorem report_header_lookup_is_unguarded
  (path : string) (g0 g1 : Message) (rest : list Message) (df : DataFrame)
  (e : exn) (w : World) :
  pygrib_open_select path = Ok (g0 :: g1 :: rest) ->
  build_table (Layers (g0 :: g1 :: rest)) = Ok df ->
  In "dataDate" (keys g0) ->
  In "dataTime" (keys g0) ->
  getitem g0 "dataDate" = Raise e ->
  stdout_room w = None ->
  fst (print_grib_content_report (SPath path) w) = Raise e
  /\ stdout (snd (print_grib_content_report (SPath path) w))
     = (stdout w ++ report_head (abspath path))%list
  /\ coalesce (getitem g0 "dataDate") = None.
Proof.
  intros Hopen Htable Hd Ht Hget Hroom.
  assert (Hk : keys g0 <> []) by (destruct (keys g0); [destruct Hd|discriminate]).
  destruct (build_table_invariant g0 (g1 :: rest) df Htable Hk) as (I & _).
  pose proof (in_index_of_key df (keys g0) "dataDate" I Hd) as ID.
  pose proof (in_index_of_key df (keys g0) "dataTime" I Ht) as IT.
  destruct w as [out room disp dflt]. simpl in Hroom. subst room.
  assert (R : print_grib_content_report (SPath path)
                {| stdout := out; stdout_room := None;
                   display := disp; defaults := dflt |}
              = (Raise e,
                 {| stdout := (out ++ report_head (abspath path))%list;
                    stdout_room := None;
                    display := disp; defaults := dflt |})).
  { unfold print_grib_content_report, bind, lift.
    rewrite (open_grib_default path _ Hopen). cbn [collapse].
    rewrite Htable. cbn [first_message].
    unfold print. cbn [stdout_room option_map stdout display defaults].
    rewrite ID, IT. cbn [andb]. rewrite Hget.
    unfold report_head. rewrite <- !app_assoc. reflexivity. }
  rewrite R. cbn [fst snd stdout]. split; [reflexivity|].
  split; [reflexivity|]. rewrite Hget. reflexivity.
Qed.

(** ** The lines of a run that ends *)

Lemma bind_ok_inv {A B : Type} (m : M A) (k : A -> M B) (w w' : World) (b : B) :
  bind m k w = (Ok b, w') ->
  exists a w1, m w = (Ok a, w1) /\ k a w1 = (Ok b, w').
Proof.
  unfold bind. intros H. destruct (m w) as [[a|e] w1]; [|discriminate].
  exists a, w1. split; [reflexivity|exact H].
Qed.

Lemma lift_ok_inv {A : Type} (r : result A) (w w' : World) (a : A) :
  lift r w = (Ok a, w') -> r = Ok a /\ w' = w.
Proof. unfold lift. intros H. injection H as -> <-. split; reflexivity. Qed.

Lemma print_ok_inv (p : Printed) (w w' : World) (u : unit) :
  print p w = (Ok u, w') -> stdout w' = (stdout w ++ [p])%list.
Proof.
  unfold print. intros H.
  destruct (stdout_room w) as [[|n]|]; try discriminate;
    injection H as _ <-; reflexivity.
Qed.

Lemma print_all_ok_inv (ps : list Printed) (w w' : World) (u : unit) :
  print_all ps w = (Ok u, w') -> stdout w' = (stdout w ++ ps)%list.
Proof.
  revert w. induction ps as [|p ps IH]; intros w H; simpl in H.
  - injection H as _ <-. symmetry. apply app_nil_r.
  - apply bind_ok_inv in H. destruct H as (a & w1 & H1 & H2).
    apply print_ok_inv in H1. apply IH in H2. rewrite H2, H1.
    rewrite <- app_assoc. reflexivity.
Qed.

Ltac run_lift H a E :=
  let w1 := fresh "w" in
  apply bind_ok_inv in H; destruct H as (a & w1 & E & H);
  apply lift_ok_inv in E; destruct E as [E ->].

Ltac run_print H E :=
  let u := fresh "u" in let w1 := fresh "w" in
  apply bind_ok_inv in H; destruct H as (u & w1 & E & H);
  apply print_ok_inv in E.

(** X18: the counts of the datasets.  When the report on a path runs to
    its end and [name] is a key of the first message, the output holds the
    line with the number of layers, then the line "Available datasets:",
    then one line for each distinct cell of the [name] row with the number
    of its occurrences; these numbers add up to the number of layers
    printed above them, the number of messages. *)
Theorem dataset_counts_add_up
  (path : string) (g0 g1 : Message) (rest : list Message) (w w' : World) :
  pygrib_open_select path = Ok (g0 :: g1 :: rest) ->
  In "name" (keys g0) ->
  print_grib_content_report (SPath path) w = (Ok tt, w') ->
  exists df cells before after,
    build_table (Layers (g0 :: g1 :: rest)) = Ok df
    /\ name_row df = Ok cells
    /\ stdout w'
       = (stdout w ++ before
          ++ [PFmt "Number of layers: {}"
                   [cell_of_nat (List.length (g0 :: g1 :: rest))];
              PStr "Available datasets:"]
          ++ map dataset_line (Counter cells) ++ after)%list
    /\ list_sum (map snd (Counter cells)) = List.length (g0 :: g1 :: rest).
Proof.
  intros Hopen Hname Hrun.
  assert (Hk : keys g0 <> []) by (destruct (keys g0); [destruct Hname|discriminate]).
  unfold print_grib_content_report in Hrun.
  run_lift Hrun grbs Hgrbs. rewrite (open_grib_default path _ Hopen) in Hgrbs.
  cbn [collapse] in Hgrbs. injection Hgrbs as <-.
  run_lift Hrun df Htable.
  run_lift Hrun g Hg. cbn [first_message] in Hg. injection Hg as <-.
  cbv zeta in Hrun.
  destruct (build_table_invariant g0 (g1 :: rest) df Htable Hk)
    as (Hidx & (_ & _ & R) & _).
  rewrite (in_index_of_key df (keys g0) "name" Hidx Hname) in Hrun.
  run_print Hrun L1. run_print Hrun L2. run_print Hrun L3. run_print Hrun L4.
  apply bind_ok_inv in Hrun. destruct Hrun as (u5 & w5 & E5 & Hrun).
  assert (L5 : exists new, stdout w5 = (stdout w3 ++ new)%list).
  { destruct (in_index "dataDate" df && in_index "dataTime" df)%bool.
    - run_lift E5 a Ha. run_lift E5 b Hb. apply print_ok_inv in E5.
      eexists. exact E5.
    - unfold ret in E5. injection E5 as _ <-. exists []. symmetry.
      apply app_nil_r. }
  destruct L5 as (dates & L5). clear E5.
  apply bind_ok_inv in Hrun. destruct Hrun as (u6 & w6 & E6 & Hrun).
  assert (L6 : exists new, stdout w6 = (stdout w5 ++ new)%list).
  { destruct (in_index "Nx" df && in_index "Nx" df)%bool.
    - run_lift E6 a Ha. run_lift E6 b Hb. apply print_ok_inv in E6.
      eexists. exact E6.
    - unfold ret in E6. injection E6 as _ <-. exists []. symmetry.
      apply app_nil_r. }
  destruct L6 as (sizes & L6). clear E6.
  run_lift Hrun n Hn. cbn [messages_of rbind] in Hn. injection Hn as <-.
  run_print Hrun L7.
  apply bind_ok_inv in Hrun. destruct Hrun as (u8 & w8 & E8 & Hrun).
  run_print E8 L8. run_lift E8 cells Hcells. apply print_all_ok_inv in E8.
  assert (Ptail : exists new, stdout w' = (stdout w8 ++ new)%list).
  { match type of Hrun with
    | ?m _ = _ => assert (T : prints_only (fun _ => True) m)
    end.
    { repeat (apply prints_only_bind;
              [solve [apply prints_only_print; exact I]|intros _]).
      apply prints_only_bind_lift. intros x _.
      apply prints_only_bind; [apply prints_only_print_full_df; exact I|intros _].
      repeat (apply prints_only_bind;
              [solve [apply prints_only_print; exact I]|intros _]).
      apply prints_only_bind; [apply prints_only_print_full_df; exact I|intros _].
      repeat (apply prints_only_bind;
              [solve [apply prints_only_print; exact I]|intros _]).
      apply prints_only_print. exact I. }
    destruct (T _ _ _ Hrun) as (new & E & _). exists new. exact E. }
  destruct Ptail as (after & Pafter).
  exists df, cells,
    ([PStr "GRIB FILE DESCRIPTION:"; PStr stars; PStr "";
      PFmt "Grib name: {}" [Some (VStr (abspath path))]] ++ dates ++ sizes)%list,
    after.
  split; [exact Htable|]. split; [exact Hcells|]. split.
  - rewrite Pafter, E8, L8, L7, L6, L5, L4, L3, L2, L1.
    repeat rewrite <- app_assoc. reflexivity.
  - rewrite Counter_total.
    unfold name_row in Hcells.
    destruct (filter _ _) as [|r [|r' l]] eqn:F; try discriminate.
    injection Hcells as <-.
    assert (Hin : In r (combine (df_index df) (df_data df))).
    { assert (Hf : In r (filter (fun r => label_is "name" (fst r))
                                 (combine (df_index df) (df_data df))))
        by (rewrite F; left; reflexivity).
      apply filter_In in Hf. exact (proj1 Hf). }
    destruct r as [l row]. apply in_combine_r in Hin. simpl.
    rewrite Forall_forall in R. exact (R row Hin).
Qed.

End GribUtils.

(** * The properties on the sample data *)

(** The claim C1 fails on [grb_tp] followed by [grb_bare]: [shortName]
    does not read on the second message, and the filter raises instead of
    leaving the message out. *)
Lemma filter_absent_attribute_raises :
  getitem grb_bare "shortName" = Raise RuntimeError
  /\ filter_grib_layers [grb_tp; grb_bare] [("shortName", FScalar (VStr "tp"))]
                        world0
     = (Raise RuntimeError, world0).
Proof. split; reflexivity. Qed.

Lemma filter_propagates_lookup_failure_witness :
  Forall (fun f => filter_test grb_bare f = Ok true)
         [("dataDate", FScalar (VInt 20170104))]
  /\ getitem grb_bare "shortName" = Raise RuntimeError
  /\ passes_filters [("dataDate", FScalar (VInt 20170104));
                     ("shortName", FScalar (VStr "tp"))] grb_bare
     = Raise RuntimeError.
Proof.
  assert (H1 : Forall (fun f => filter_test grb_bare f = Ok true)
                      [("dataDate", FScalar (VInt 20170104))])
    by (repeat constructor).
  assert (H2 : getitem grb_bare "shortName" = Raise RuntimeError)
    by reflexivity.
  split; [exact H1|]. split; [exact H2|].
  exact (proj1 (filter_propagates_lookup_failure
                  [("dataDate", FScalar (VInt 20170104))] []
                  "shortName" (FScalar (VStr "tp")) grb_bare RuntimeError
                  H1 H2)).
Defined.

(** The claim C3 fails on a list of one message: the filter returns the bare
    message, not the list. *)
Lemma filter_empty_filters_singleton :
  fst (filter_grib_layers [grb_tp] [] world0) = Ok (Single grb_tp)
  /\ fst (filter_grib_layers [grb_tp] [] world0) <> Ok (Layers [grb_tp]).
Proof. split; [reflexivity|discriminate]. Qed.

Lemma filter_empty_filters_witness :
  stdout_room world0 <> Some O
  /\ fst (filter_grib_layers [grb_tp; grb_t2m] [] world0)
     = Ok (Layers [grb_tp; grb_t2m])
  /\ stdout (snd (filter_grib_layers [grb_tp; grb_t2m] [] world0))
     = [PFmt "After filterings still {} grib messages left."
             [Some (VInt 2)]].
Proof.
  assert (H : stdout_room world0 <> Some O) by discriminate.
  destruct (filter_empty_filters [grb_tp; grb_t2m] world0 H)
    as (Hlist & _ & Hout & _).
  split; [exact H|]. split; [apply Hlist; discriminate|exact Hout].
Defined.

(** The claim C4 fails on a file of one message: [open_grib] returns the
    bare message. *)
Lemma open_grib_singleton_is_bare :
  sample_open "one.grib" = Ok [grb_tp]
  /\ open_grib sample_open sample_setitem (SPath "one.grib")
               default_timestep_interval_mins
     = Ok (Single grb_tp)
  /\ open_grib sample_open sample_setitem (SPath "one.grib")
               default_timestep_interval_mins
     <> Ok (Layers [grb_tp]).
Proof. repeat split. discriminate. Qed.

Lemma open_grib_collapses_singleton_witness :
  sample_open "one.grib" = Ok [grb_tp]
  /\ open_grib sample_open sample_setitem (SPath "one.grib")
               default_timestep_interval_mins
     = Ok (Single grb_tp).
Proof.
  assert (H : sample_open "one.grib" = Ok [grb_tp]) by reflexivity.
  split; [exact H|].
  exact (proj1 (open_grib_collapses_singleton sample_open sample_setitem
                  "one.grib" [grb_tp] H) grb_tp eq_refl).
Defined.


(** The claim C2 fails on the grid of [grb_tp]: the entry -5, of magnitude
    far above the threshold, is replaced by 0. *)
Lemma raster_replaces_negative_entry :
  values grb_tp = Ok [[(-5) # 1; 1 # 2000; 3 # 1]]
  /\ (default_nodata_buffer <= Qabs ((-5) # 1))%Q
  /\ grib_message_to_arrays_raster (Single grb_tp)
       (Some default_nodata_buffer) default_nodata
     = Ok ([[0; 0; 3 # 1]],
           [[(-5) # 1; 1 # 2000; 3 # 1]], [[(-5) # 1; 1 # 2000; 3 # 1]])%Q.
Proof.
  split; [reflexivity|]. split; [|reflexivity].
  unfold default_nodata_buffer, Qle. simpl. lia.
Qed.

Lemma raster_clamps_signed_values_witness :
  values grb_t2m = Ok [[2 # 1; 0 # 1; 1 # 1000]]
  /\ latlons grb_t2m
     = Ok ([[2 # 1; 0 # 1; 1 # 1000]], [[2 # 1; 0 # 1; 1 # 1000]])
  /\ ~ (default_nodata_buffer == 0)%Q
  /\ exists vals',
       grib_message_to_arrays_raster (Single grb_t2m)
         (Some default_nodata_buffer) default_nodata
       = Ok (vals', [[2 # 1; 0 # 1; 1 # 1000]], [[2 # 1; 0 # 1; 1 # 1000]])
       /\ Forall2 (Forall2 (fun x y =>
                     ((x < default_nodata_buffer)%Q -> y = default_nodata)
                     /\ ((default_nodata_buffer <= x)%Q -> y = x)))
                  [[2 # 1; 0 # 1; 1 # 1000]] vals'.
Proof.
  assert (H1 : values grb_t2m = Ok [[2 # 1; 0 # 1; 1 # 1000]]) by reflexivity.
  assert (H2 : latlons grb_t2m
               = Ok ([[2 # 1; 0 # 1; 1 # 1000]], [[2 # 1; 0 # 1; 1 # 1000]]))
    by reflexivity.
  assert (H3 : ~ (default_nodata_buffer == 0)%Q)
    by (unfold default_nodata_buffer, Qeq; simpl; lia).
  split; [exact H1|]. split; [exact H2|]. split; [exact H3|].
  exact (raster_clamps_signed_values grb_t2m default_nodata_buffer
           default_nodata _ _ H1 H2 H3).
Defined.

(** The claim C7 fails on a set: [shortName] of [grb_tp] is a member of
    the set, yet the message does not pass; with the same values in a list
    it passes. *)
Lemma set_filter_is_not_membership :
  getitem grb_tp "shortName" = Ok (VStr "tp")
  /\ In (VStr "tp") [VStr "tp"; VStr "2t"]
  /\ passes_filters [("shortName", FSet [VStr "tp"; VStr "2t"])] grb_tp
     = Ok false
  /\ passes_filters [("shortName", FList [VStr "tp"; VStr "2t"])] grb_tp
     = Ok true.
Proof. repeat split. left. reflexivity. Qed.

Lemma list_filter_is_membership_witness :
  getitem grb_tp "shortName" = Ok (VStr "tp")
  /\ is_array (VStr "tp") = false
  /\ scalars [VStr "2t"; VStr "tp"]
  /\ (exists b,
        passes_filters [("shortName", FList [VStr "2t"; VStr "tp"])] grb_tp = Ok b
        /\ (b = true <-> member (VStr "tp") [VStr "2t"; VStr "tp"])).
Proof.
  assert (H1 : getitem grb_tp "shortName" = Ok (VStr "tp")) by reflexivity.
  assert (H2 : is_array (VStr "tp") = false) by reflexivity.
  assert (H3 : scalars [VStr "2t"; VStr "tp"]) by (repeat constructor).
  split; [exact H1|]. split; [exact H2|]. split; [exact H3|].
  exact (proj1 (list_filter_is_membership grb_tp "shortName" (VStr "tp")
                  [VStr "2t"; VStr "tp"] [] H1 H2 H3)).
Defined.

(** The claim C8 fails on both paths.  A report that succeeds in a world
    where the caller had set limits of 100 and 50 leaves the defaults 60
    and 20.  A report whose output pipe closes just before the first table
    is printed raises and leaves the limits at the size of that table. *)
Lemma report_does_not_restore_limits :
  (fst (print_grib_content_report sample_open sample_setitem (fun p => p)
          (SPath "two.grib") world_custom) = Ok tt
   /\ display world_custom
      = {| max_rows := Some 100%nat; max_columns := Some 50%nat |}
   /\ display (snd (print_grib_content_report sample_open sample_setitem
                      (fun p => p) (SPath "two.grib") world_custom))
      = {| max_rows := Some 60%nat; max_columns := Some 20%nat |})
  /\ (fst (print_grib_content_report sample_open sample_setitem (fun p => p)
             (SPath "two.grib") world_pipe) = Raise (IOError "Broken pipe")
      /\ display world_pipe
         = {| max_rows := Some 60%nat; max_columns := Some 20%nat |}
      /\ display (snd (print_grib_content_report sample_open sample_setitem
                         (fun p => p) (SPath "two.grib") world_pipe))
         = {| max_rows := Some 2%nat; max_columns := Some 1%nat |}).
Proof. repeat split. Qed.

(** Opened from a file, a message that lists fewer keys than the first one
    stops the report as well: its list of cells does not fit the index of
    the table. *)
Lemma report_on_differing_keys_raises :
  keys grb_tp = ["shortName"; "dataDate"; "dataTime"; "endStep"; "latitudes"]
  /\ keys grb_bare = ["dataDate"; "dataTime"]
  /\ print_grib_content_report sample_open sample_setitem (fun p => p)
       (SPath "mixed.grib") world0
     = (Raise ValueError, world0).
Proof. repeat split. Qed.

Lemma display_limits_after_rendering_witness :
  fst (print_grib_content_report sample_open sample_setitem (fun p => p)
         (SPath "two.grib") world_custom) = Ok tt
  /\ fst (print_full_df sample_table world_pipe) = Ok tt
  /\ display (snd (print_grib_content_report sample_open sample_setitem
                     (fun p => p) (SPath "two.grib") world_custom))
     = defaults world_custom.
Proof.
  assert (H : print_grib_content_report sample_open sample_setitem
                (fun p => p) (SPath "two.grib") world_custom
              = (Ok tt,
                 snd (print_grib_content_report sample_open sample_setitem
                        (fun p => p) (SPath "two.grib") world_custom)))
    by (vm_compute; reflexivity).
  pose proof (display_limits_after_rendering sample_open sample_setitem
                (fun p => p) sample_table world_pipe "two.grib"
                world_custom _ H) as [[Hp _] Hd].
  split; [reflexivity|]. split; [exact Hp|exact Hd].
Defined.

Lemma null_rows_appear_in_neither_section_witness :
  open_grib sample_open sample_setitem (SPath "two.grib")
            default_timestep_interval_mins
  = Ok (Layers [grb_tp; grb_t2m])
  /\ build_table (Layers [grb_tp; grb_t2m]) = Ok sample_table
  /\ In (LStr "latitudes", [None; None]) (labelled_rows sample_table)
  /\ ~ In (LStr "latitudes") (df_index (df_same_of sample_table))
  /\ ~ In (LStr "latitudes") (df_columns (df_unique_of sample_table)).
Proof.
  assert (H1 : open_grib sample_open sample_setitem (SPath "two.grib")
                 default_timestep_interval_mins
               = Ok (Layers [grb_tp; grb_t2m])) by reflexivity.
  assert (H2 : build_table (Layers [grb_tp; grb_t2m]) = Ok sample_table)
    by reflexivity.
  assert (H3 : forall row,
             In (LStr "latitudes", row) (labelled_rows sample_table) ->
             Forall (eq None) row).
  { intros row Hin. simpl in Hin.
    repeat (destruct Hin as [Hin|Hin]; [try discriminate Hin|]);
      [|destruct Hin].
    injection Hin as <-. repeat constructor. }
  assert (H4 : print_grib_content_report sample_open sample_setitem
                 (fun p => p) (SPath "two.grib") world0
               = (Ok tt,
                  snd (print_grib_content_report sample_open sample_setitem
                         (fun p => p) (SPath "two.grib") world0)))
    by (vm_compute; reflexivity).
  split; [exact H1|]. split; [exact H2|].
  split; [simpl; do 4 right; left; reflexivity|].
  pose proof (null_rows_appear_in_neither_section sample_open sample_setitem
                (fun p => p) "two.grib" (Layers [grb_tp; grb_t2m])
                sample_table (LStr "latitudes") world0 _ H1 H2 H3 H4)
    as (_ & Hs & Hu & _).
  split; [exact Hs|exact Hu].
Defined.


(** * The further properties on the sample data *)

Lemma passes_filters_is_conjunction_witness :
  Forall2 (fun f b => filter_test grb_tp f = Ok b)
          [("shortName", FList [VStr "tp"; VStr "2t"]);
           ("endStep", FScalar (VInt 240))]
          [true; false]
  /\ passes_filters [("shortName", FList [VStr "tp"; VStr "2t"]);
                     ("endStep", FScalar (VInt 240))] grb_tp
     = Ok false.
Proof.
  assert (H : Forall2 (fun f b => filter_test grb_tp f = Ok b)
                [("shortName", FList [VStr "tp"; VStr "2t"]);
                 ("endStep", FScalar (VInt 240))]
                [true; false])
    by (repeat constructor).
  split; [exact H|].
  exact (passes_filters_is_conjunction _ grb_tp _ H).
Defined.

Lemma passes_filters_stops_at_first_failure_witness :
  Forall (fun g => filter_test grb_bare g = Ok true)
         [("dataTime", FScalar (VInt 600))]
  /\ filter_test grb_bare ("dataDate", FScalar (VInt 20170105)) = Ok false
  /\ getitem grb_bare "shortName" = Raise RuntimeError
  /\ passes_filters [("dataTime", FScalar (VInt 600));
                     ("dataDate", FScalar (VInt 20170105));
                     ("shortName", FScalar (VStr "tp"))] grb_bare
     = Ok false.
Proof.
  assert (H1 : Forall (fun g => filter_test grb_bare g = Ok true)
                      [("dataTime", FScalar (VInt 600))])
    by (repeat constructor).
  assert (H2 : filter_test grb_bare ("dataDate", FScalar (VInt 20170105))
               = Ok false) by reflexivity.
  split; [exact H1|]. split; [exact H2|]. split; [reflexivity|].
  exact (passes_filters_stops_at_first_failure
           [("dataTime", FScalar (VInt 600))]
           [("shortName", FScalar (VStr "tp"))]
           ("dataDate", FScalar (VInt 20170105)) grb_bare H1 H2).
Defined.

Lemma filter_grib_layers_result_witness :
  filter_grib_layers [grb_tp; grb_t2m; grb_tp]
    [("shortName", FScalar (VStr "tp"))] world0
  = (Ok (Layers [grb_tp; grb_tp]),
     snd (filter_grib_layers [grb_tp; grb_t2m; grb_tp]
            [("shortName", FScalar (VStr "tp"))] world0))
  /\ exists bs,
       Forall2 (fun g b =>
                  passes_filters [("shortName", FScalar (VStr "tp"))] g = Ok b)
               [grb_tp; grb_t2m; grb_tp] bs
       /\ Layers [grb_tp; grb_tp]
          = collapse (kept_by [grb_tp; grb_t2m; grb_tp] bs).
Proof.
  assert (H : filter_grib_layers [grb_tp; grb_t2m; grb_tp]
                [("shortName", FScalar (VStr "tp"))] world0
              = (Ok (Layers [grb_tp; grb_tp]),
                 snd (filter_grib_layers [grb_tp; grb_t2m; grb_tp]
                        [("shortName", FScalar (VStr "tp"))] world0)))
    by reflexivity.
  split; [exact H|].
  destruct (filter_grib_layers_result _ _ _ _ _ H) as (bs & HF & E & _).
  exists bs. split; [exact HF|exact E].
Defined.

Lemma filter_grib_layers_idempotent_witness :
  filter_grib_layers [grb_tp; grb_t2m; grb_tp]
    [("shortName", FScalar (VStr "tp"))] world0
  = (Ok (Layers [grb_tp; grb_tp]),
     snd (filter_grib_layers [grb_tp; grb_t2m; grb_tp]
            [("shortName", FScalar (VStr "tp"))] world0))
  /\ fst (filter_grib_layers [grb_tp; grb_tp]
            [("shortName", FScalar (VStr "tp"))]
            (snd (filter_grib_layers [grb_tp; grb_t2m; grb_tp]
                    [("shortName", FScalar (VStr "tp"))] world0)))
     = Ok (Layers [grb_tp; grb_tp]).
Proof.
  assert (H : filter_grib_layers [grb_tp; grb_t2m; grb_tp]
                [("shortName", FScalar (VStr "tp"))] world0
              = (Ok (Layers [grb_tp; grb_tp]),
                 snd (filter_grib_layers [grb_tp; grb_t2m; grb_tp]
                        [("shortName", FScalar (VStr "tp"))] world0)))
    by reflexivity.
  split; [exact H|].
  apply (filter_grib_layers_idempotent _ _ _ _ _ H). discriminate.
Defined.

Lemma open_grib_patches_below_an_hour_witness :
  sample_open "two.grib" = Ok [grb_tp; grb_t2m]
  /\ open_grib sample_open sample_setitem (SPath "two.grib") 60
     = Ok (Layers [grb_tp; grb_t2m])
  /\ exists l',
       Forall2 (fun g g' => sample_setitem g "stepUnits" (VInt 0) = Ok g')
               [grb_tp; grb_t2m] l'
       /\ open_grib sample_open sample_setitem (SPath "two.grib") 15
          = Ok (collapse l').
Proof.
  assert (H : sample_open "two.grib" = Ok [grb_tp; grb_t2m]) by reflexivity.
  destruct (open_grib_patches_below_an_hour sample_open sample_setitem
              "two.grib" _ 60 H) as [A _].
  destruct (open_grib_patches_below_an_hour sample_open sample_setitem
              "two.grib" _ 15 H) as [_ B].
  split; [exact H|]. split; [exact (A ltac:(lia))|].
  destruct (proj1 (B ltac:(lia) _) eq_refl) as (l' & HF & E).
  exists l'. split; [exact HF|]. rewrite <- E. reflexivity.
Defined.

Lemma open_grib_errors_witness :
  open_grib units_open strict_setitem (SGrbs (Layers [grb_units; grb_tp])) 15
  = Raise (IOError "Grbs argument has to be a path to the grib file!")
  /\ open_grib (fun _ => Raise (IOError "No such file")) strict_setitem
       (SPath "none.grib") 15
     = Raise (IOError "No such file")
  /\ strict_setitem grb_tp "stepUnits" (VInt 0) = Raise RuntimeError
  /\ open_grib units_open strict_setitem (SPath "units.grib") 15
     = Raise RuntimeError.
Proof.
  assert (H1 : units_open "units.grib" = Ok ([grb_units] ++ grb_tp :: [])%list)
    by reflexivity.
  assert (H2 : 15 < 60) by lia.
  assert (H3 : Forall2 (fun a a' => strict_setitem a "stepUnits" (VInt 0) = Ok a')
                 [grb_units]
                 [match strict_setitem grb_units "stepUnits" (VInt 0) with
                  | Ok g => g
                  | Raise _ => grb_units
                  end])
    by (repeat constructor).
  assert (H4 : strict_setitem grb_tp "stepUnits" (VInt 0) = Raise RuntimeError)
    by reflexivity.
  destruct (open_grib_errors units_open strict_setitem 15) as (A & _ & C).
  destruct (open_grib_errors (fun _ => Raise (IOError "No such file"))
              strict_setitem 15) as (_ & B & _).
  split; [exact (A (Layers [grb_units; grb_tp]))|].
  split; [exact (B "none.grib" (IOError "No such file") eq_refl)|].
  split; [exact H4|].
  exact (C "units.grib" [grb_units] grb_tp [] _ RuntimeError H1 H2 H3 H4).
Defined.

Lemma open_grib_layer_count_witness :
  open_grib sample_open sample_setitem (SPath "one.grib") 60
  = Ok (Single grb_tp)
  /\ exists path l,
       sample_open path = Ok l /\ layer_count (Single grb_tp) = List.length l.
Proof.
  assert (H : open_grib sample_open sample_setitem (SPath "one.grib") 60
              = Ok (Single grb_tp)) by reflexivity.
  split; [exact H|].
  destruct (open_grib_layer_count sample_open sample_setitem _ _ _ H)
    as (path & l & _ & Ho & L & _).
  exists path, l. split; [exact Ho|exact L].
Defined.

Lemma raster_without_threshold_witness :
  truthy (Some 0%Q) = false
  /\ values grb_tp = Ok [[(-5) # 1; 1 # 2000; 3 # 1]]
  /\ latlons grb_tp
     = Ok ([[(-5) # 1; 1 # 2000; 3 # 1]], [[(-5) # 1; 1 # 2000; 3 # 1]])
  /\ grib_message_to_arrays_raster (Single grb_tp) (Some 0%Q) default_nodata
     = Ok ([[(-5) # 1; 1 # 2000; 3 # 1]],
           [[(-5) # 1; 1 # 2000; 3 # 1]], [[(-5) # 1; 1 # 2000; 3 # 1]]).
Proof.
  assert (H1 : truthy (Some 0%Q) = false) by reflexivity.
  assert (H2 : values grb_tp = Ok [[(-5) # 1; 1 # 2000; 3 # 1]]) by reflexivity.
  assert (H3 : latlons grb_tp
               = Ok ([[(-5) # 1; 1 # 2000; 3 # 1]],
                     [[(-5) # 1; 1 # 2000; 3 # 1]])) by reflexivity.
  split; [exact H1|]. split; [exact H2|]. split; [exact H3|].
  exact (raster_without_threshold grb_tp (Some 0%Q) default_nodata _ _ H1 H2 H3).
Defined.

Lemma raster_cleaned_grid_witness :
  ~ (default_nodata_buffer == 0)%Q
  /\ grib_message_to_arrays_raster (Single grb_tp)
       (Some default_nodata_buffer) default_nodata
     = Ok ([[0; 0; 3 # 1]],
           [[(-5) # 1; 1 # 2000; 3 # 1]], [[(-5) # 1; 1 # 2000; 3 # 1]])%Q
  /\ Forall (Forall (fun y => y = default_nodata
                              \/ (default_nodata_buffer <= y)%Q))
            [[0; 0; 3 # 1]]%Q.
Proof.
  assert (H1 : ~ (default_nodata_buffer == 0)%Q)
    by (unfold default_nodata_buffer, Qeq; simpl; lia).
  assert (H2 : grib_message_to_arrays_raster (Single grb_tp)
                 (Some default_nodata_buffer) default_nodata
               = Ok ([[0; 0; 3 # 1]],
                     [[(-5) # 1; 1 # 2000; 3 # 1]],
                     [[(-5) # 1; 1 # 2000; 3 # 1]])%Q) by reflexivity.
  split; [exact H1|]. split; [exact H2|].
  exact (proj1 (raster_cleaned_grid grb_tp default_nodata_buffer
                  default_nodata _ _ _ H1 H2)).
Defined.

Lemma raster_idempotent_witness :
  grib_message_to_arrays_raster (Single grb_tp)
    (Some default_nodata_buffer) default_nodata
  = Ok ([[0; 0; 3 # 1]],
        [[(-5) # 1; 1 # 2000; 3 # 1]], [[(-5) # 1; 1 # 2000; 3 # 1]])%Q
  /\ values grb_tp_cleaned = Ok [[0; 0; 3 # 1]]%Q
  /\ latlons grb_tp_cleaned
     = Ok ([[(-5) # 1; 1 # 2000; 3 # 1]], [[(-5) # 1; 1 # 2000; 3 # 1]])
  /\ grib_message_to_arrays_raster (Single grb_tp_cleaned)
       (Some default_nodata_buffer) default_nodata
     = Ok ([[0; 0; 3 # 1]],
           [[(-5) # 1; 1 # 2000; 3 # 1]], [[(-5) # 1; 1 # 2000; 3 # 1]])%Q.
Proof.
  assert (H1 : grib_message_to_arrays_raster (Single grb_tp)
                 (Some default_nodata_buffer) default_nodata
               = Ok ([[0; 0; 3 # 1]],
                     [[(-5) # 1; 1 # 2000; 3 # 1]],
                     [[(-5) # 1; 1 # 2000; 3 # 1]])%Q) by reflexivity.
  assert (H2 : values grb_tp_cleaned = Ok [[0; 0; 3 # 1]]%Q) by reflexivity.
  assert (H3 : latlons grb_tp_cleaned
               = Ok ([[(-5) # 1; 1 # 2000; 3 # 1]],
                     [[(-5) # 1; 1 # 2000; 3 # 1]])) by reflexivity.
  split; [exact H1|]. split; [exact H2|]. split; [exact H3|].
  exact (raster_idempotent grb_tp grb_tp_cleaned
           (Some default_nodata_buffer) default_nodata _ _ _ H1 H2 H3).
Defined.

Lemma simulation_datetime_is_valid_witness :
  get_grib_layer_simulation_datetime (fun _ => "") (fun _ => "") grb_tp
  = Ok (mkDatetime 2017 1 4 6 0)
  /\ valid_datetime (mkDatetime 2017 1 4 6 0).
Proof.
  assert (H : get_grib_layer_simulation_datetime (fun _ => "") (fun _ => "")
                grb_tp = Ok (mkDatetime 2017 1 4 6 0)) by reflexivity.
  split; [exact H|].
  exact (simulation_datetime_is_valid _ _ grb_tp _ H).
Defined.

Lemma simulation_datetime_from_numbers_witness :
  getitem grb_tp "dataDate" = Ok (VInt 20170104)
  /\ getitem grb_tp "dataTime" = Ok (VInt 600)
  /\ 10000000 <= 20170104 <= 99999999
  /\ get_grib_layer_simulation_datetime (fun _ => "") (fun _ => "") grb_tp
     = make_datetime (20170104 / 10000) ((20170104 / 100) mod 100)
                     (20170104 mod 100) (600 / 100) (600 mod 100).
Proof.
  assert (H1 : getitem grb_tp "dataDate" = Ok (VInt 20170104)) by reflexivity.
  assert (H2 : getitem grb_tp "dataTime" = Ok (VInt 600)) by reflexivity.
  assert (H3 : 10000000 <= 20170104 <= 99999999) by lia.
  split; [exact H1|]. split; [exact H2|]. split; [exact H3|].
  apply (proj1 (simulation_datetime_from_numbers (fun _ => "") (fun _ => "")
                  grb_tp 20170104 600 H1 H2 H3)).
  lia.
Defined.

Lemma validity_datetime_adds_endStep_witness :
  get_grib_layer_simulation_datetime (fun _ => "") (fun _ => "") grb_tp
  = Ok (mkDatetime 2017 1 4 6 0)
  /\ getitem grb_tp "endStep" = Ok (VInt 180)
  /\ 1440 <= minutes_of (mkDatetime 2017 1 4 6 0) + 180
          < 1440 * (MAXORDINAL + 1)
  /\ exists v,
       get_grib_layer_validity_datetime (fun _ => "") (fun _ => "") grb_tp
       = Ok v
       /\ valid_datetime v
       /\ minutes_of v = minutes_of (mkDatetime 2017 1 4 6 0) + 180.
Proof.
  assert (H1 : get_grib_layer_simulation_datetime (fun _ => "") (fun _ => "")
                 grb_tp = Ok (mkDatetime 2017 1 4 6 0)) by reflexivity.
  assert (H2 : getitem grb_tp "endStep" = Ok (VInt 180)) by reflexivity.
  assert (H3 : 1440 <= minutes_of (mkDatetime 2017 1 4 6 0) + 180
               < 1440 * (MAXORDINAL + 1)) by (vm_compute; split; congruence).
  split; [exact H1|]. split; [exact H2|]. split; [exact H3|].
  exact (proj1 (validity_datetime_adds_endStep (fun _ => "") (fun _ => "")
                  grb_tp _ 180 H1 H2) H3).
Defined.

Lemma build_table_shape_witness :
  build_table (Layers [grb_tp; grb_t2m]) = Ok sample_table
  /\ keys grb_tp <> []
  /\ df_index sample_table = map LStr (keys grb_tp)
  /\ well_shaped sample_table 2
  /\ column sample_table 1 = row_values grb_t2m.
Proof.
  assert (H1 : build_table (Layers [grb_tp; grb_t2m]) = Ok sample_table)
    by reflexivity.
  assert (H2 : keys grb_tp <> []) by discriminate.
  destruct (build_table_shape grb_tp [grb_t2m] sample_table H1 H2)
    as (I & W & _ & C).
  split; [exact H1|]. split; [exact H2|]. split; [exact I|].
  split; [exact W|]. exact (C 1%nat grb_t2m eq_refl).
Defined.

Lemma dataset_counts_add_up_witness :
  named_open "named.grib"
  = Ok [grb_named "t2m"; grb_named "u10"; grb_named "t2m"]
  /\ In "name" (keys (grb_named "t2m"))
  /\ fst (print_grib_content_report named_open sample_setitem (fun p => p)
            (SPath "named.grib") world0)
     = Ok tt
  /\ exists df cells before after,
       build_table (Layers [grb_named "t2m"; grb_named "u10"; grb_named "t2m"])
       = Ok df
       /\ name_row df = Ok cells
       /\ stdout (snd (print_grib_content_report named_open sample_setitem
                         (fun p => p) (SPath "named.grib") world0))
          = ([] ++ before
             ++ [PFmt "Number of layers: {}" [cell_of_nat 3];
                 PStr "Available datasets:"]
             ++ map dataset_line (Counter cells) ++ after)%list
       /\ list_sum (map snd (Counter cells)) = 3%nat.
Proof.
  assert (H1 : named_open "named.grib"
               = Ok [grb_named "t2m"; grb_named "u10"; grb_named "t2m"])
    by reflexivity.
  assert (H2 : In "name" (keys (grb_named "t2m"))) by (left; reflexivity).
  assert (H3 : print_grib_content_report named_open sample_setitem (fun p => p)
                 (SPath "named.grib") world0
               = (Ok tt,
                  snd (print_grib_content_report named_open sample_setitem
                         (fun p => p) (SPath "named.grib") world0)))
    by (vm_compute; reflexivity).
  split; [exact H1|]. split; [exact H2|].
  split; [rewrite H3; reflexivity|].
  exact (dataset_counts_add_up named_open sample_setitem (fun p => p)
           "named.grib" (grb_named "t2m") (grb_named "u10") [grb_named "t2m"]
           world0 _ H1 H2 H3).
Defined.

Lemma report_sections_partition_witness :
  In (LStr "endStep", [Some (VInt 180); Some (VInt 240)])
     (labelled_rows sample_table)
  /\ nunique [Some (VInt 180); Some (VInt 240)] = 2%nat
  /\ ~ In (LStr "endStep", [Some (VInt 180); Some (VInt 240)])
          (labelled_rows (df_same_of sample_table)).
Proof.
  assert (H : In (LStr "endStep", [Some (VInt 180); Some (VInt 240)])
                 (labelled_rows sample_table))
    by (simpl; do 3 right; left; reflexivity).
  split; [exact H|]. split; [reflexivity|].
  destruct (report_sections_partition sample_table _ _ H)
    as [(F & _)|[(N & _)|(_ & _ & R)]].
  - inversion F as [|c r Hc Hr]. discriminate Hc.
  - discriminate N.
  - exact R.
Defined.

Lemma partly_null_row_is_common_witness :
  In (LStr "level", [Some (VInt 2); None]) (labelled_rows partial_table)
  /\ is_array (VInt 2) = false
  /\ nunique [Some (VInt 2); None] = 1%nat
  /\ In (LStr "level", [Some (VInt 2); None])
        (labelled_rows (df_same_of partial_table)).
Proof.
  assert (H1 : In (LStr "level", [Some (VInt 2); None])
                  (labelled_rows partial_table)) by (left; reflexivity).
  assert (H2 : is_array (VInt 2) = false) by reflexivity.
  assert (H3 : Forall (fun c => c = None \/ c = Some (VInt 2))
                      [Some (VInt 2); None])
    by (repeat constructor; auto).
  assert (H4 : In (Some (VInt 2)) [Some (VInt 2); None])
    by (left; reflexivity).
  split; [exact H1|]. split; [exact H2|].
  exact (partly_null_row_is_common partial_table _ _ _ H1 H2 H3 H4).
Defined.

Lemma report_needs_equal_key_counts_witness :
  sample_open "mixed.grib" = Ok [grb_tp; grb_bare]
  /\ keys grb_tp <> []
  /\ Exists (fun g => List.length (keys g) <> List.length (keys grb_tp))
            [grb_bare]
  /\ print_grib_content_report sample_open sample_setitem (fun p => p)
       (SPath "mixed.grib") world0
     = (Raise ValueError, world0).
Proof.
  assert (H1 : sample_open "mixed.grib" = Ok [grb_tp; grb_bare]) by reflexivity.
  assert (H2 : keys grb_tp <> []) by discriminate.
  assert (H3 : Exists (fun g => List.length (keys g)
                                <> List.length (keys grb_tp)) [grb_bare])
    by (left; discriminate).
  split; [exact H1|]. split; [exact H2|]. split; [exact H3|].
  exact (report_needs_equal_key_counts sample_open sample_setitem (fun p => p)
           "mixed.grib" grb_tp [grb_bare] world0 H1 H2 H3).
Defined.

Lemma report_header_lookup_is_unguarded_witness :
  broken_open "broken.grib" = Ok [grb_broken; grb_broken]
  /\ build_table (Layers [grb_broken; grb_broken]) = Ok broken_table
  /\ getitem grb_broken "dataDate" = Raise RuntimeError
  /\ fst (print_grib_content_report broken_open sample_setitem (fun p => p)
            (SPath "broken.grib") world0)
     = Raise RuntimeError.
Proof.
  assert (H1 : broken_open "broken.grib" = Ok [grb_broken; grb_broken])
    by reflexivity.
  assert (H2 : build_table (Layers [grb_broken; grb_broken]) = Ok broken_table)
    by reflexivity.
  assert (H3 : In "dataDate" (keys grb_broken)) by (left; reflexivity).
  assert (H4 : In "dataTime" (keys grb_broken)) by (right; left; reflexivity).
  assert (H5 : getitem grb_broken "dataDate" = Raise RuntimeError)
    by reflexivity.
  assert (H6 : stdout_room world0 = None) by reflexivity.
  split; [exact H1|]. split; [exact H2|]. split; [exact H5|].
  exact (proj1 (report_header_lookup_is_unguarded broken_open sample_setitem
                  (fun p => p) "broken.grib" grb_broken grb_broken []
                  broken_table RuntimeError world0 H1 H2 H3 H4 H5 H6)).
Defined.
